(** * kudu-serializer-jsonapi: the JSON API serializer, embedded and verified

    A shallow embedding of [serializer.js] (the revision with the [flatten]
    helper and raw-string relationship values): [toJSON], [errorsToJSON],
    [buildResource], [buildCompoundDocuments] and [flatten], followed by the
    properties of the serializer that the specification states, and by
    further properties read off the code.  The earlier revision of
    [buildResource] and [buildCompoundDocuments] is embedded in [Legacy].

    JavaScript values are a first-order datatype; exceptions are an error
    monad; objects are association lists of their own properties in key
    order.  Of the prototype chain the embedding holds what the serializer
    can reach by name: the members of [Object.prototype], which a lookup in
    a schema object finds, and the [message] and [name] of
    [Error.prototype].  An own property named [hasOwnProperty] or
    [constructor] shadows the member that the serializer reaches through
    the instance: the first cannot be called, the second is taken to hold
    no model.  Numbers are the integers, printed as the engine prints
    them.  Model instances are finite trees, hence acyclic by
    construction.  The model framework (constructors with [singular],
    [plural] and [schema]) is an external collaborator and appears as plain
    records. *)

From Stdlib Require Import String Ascii List ZArith Bool Lia.
From Stdlib Require Import DecimalString SetoidList.
Import ListNotations.
Local Open Scope string_scope.
Local Open Scope list_scope.

Set Implicit Arguments.

(** ** Exceptions *)

(** [JsError msg] is [throw new Error(msg)]; [TypeError] is the exception the
    engine raises when a property of [null] or [undefined] is read (its
    message is engine-specific and not modelled). *)
Inductive exn : Type :=
| JsError (message : string)
| TypeError.

Inductive result (A : Type) : Type :=
| OK (a : A)
| Throw (e : exn).
Arguments OK {A} a.
Arguments Throw {A} e.

Definition bind {A B : Type} (c : result A) (k : A -> result B) : result B :=
  match c with
  | OK a => k a
  | Throw e => Throw e
  end.

Declare Scope js_scope.
Delimit Scope js_scope with js.
Notation "x <- c ;; k" := (bind c (fun x => k))
  (at level 61, c at next level, right associativity) : js_scope.
Local Open Scope js_scope.

Section Traversals.
Variables A B : Type.

(** [arr.map(f)] for a callback that may throw: elements are visited left
    to right and the first exception aborts the traversal. *)
Section Map.
Variable f : A -> result B.
Fixpoint mapM (l : list A) : result (list B) :=
  match l with
  | [] => OK []
  | x :: t => y <- f x ;; ys <- mapM t ;; OK (y :: ys)
  end.
End Map.

(** [arr.map(f)] where the callback also receives the index, as
    [Array.prototype.map] always passes it. *)
Section MapIndexed.
Variable f : A -> nat -> result B.
Fixpoint mapiM_from (i : nat) (l : list A) : result (list B) :=
  match l with
  | [] => OK []
  | x :: t => y <- f x i ;; ys <- mapiM_from (S i) t ;; OK (y :: ys)
  end.
Definition mapiM (l : list A) : result (list B) := mapiM_from 0 l.
End MapIndexed.

(** [keys.forEach] / [keys.reduce] with an accumulator and a body that may
    throw. *)
Section Fold.
Variable f : B -> A -> result B.
Fixpoint foldM (l : list A) (acc : B) : result B :=
  match l with
  | [] => OK acc
  | x :: t => acc' <- f acc x ;; foldM t acc'
  end.
End Fold.
End Traversals.

(** ** The model framework (external collaborator) *)

(** A property schema entry; [public] is [true], [false] or unset. *)
Record PropertySchema : Type := mkProperty {
  public : option bool
}.

(** A relationship schema entry: target type and cardinality. *)
Record RelationshipSchema : Type := mkRelationship {
  type : string;
  hasMany : option bool
}.

Record Schema : Type := mkSchema {
  properties : list (string * PropertySchema);
  relationships : option (list (string * RelationshipSchema))
}.

(** The constructor of a model instance, with its static members. *)
Record Model : Type := mkModel {
  singular : string;
  plural : string;
  schema : Schema
}.

(** ** JavaScript values *)

(** Objects and arrays carry the identity [ref] of their allocation, which is
    what [===] compares.  An object records the constructor that made it
    when that is a model ([Some M]); [None] stands for [Object] and every
    other constructor without a [schema], the built-in [Error] apart.  [VError] is an instance
    of [Error]: [message] is the own, non-enumerable property that
    [new Error(message)] sets ([None] for [new Error()]), [props] are the
    enumerable own properties assigned afterwards.  Numbers are the
    integers. *)
#[local] Unset Elimination Schemes.
Inductive value : Type :=
| VUndefined
| VNull
| VBool (b : bool)
| VNumber (n : Z)
| VString (s : string)
| VArray (ref : nat) (items : list value)
| VObject (ref : nat) (constructor : option Model) (props : list (string * value))
| VError (ref : nat) (message : option value) (props : list (string * value)).
#[local] Set Elimination Schemes.

Section ValueInduction.
Variable P : value -> Prop.
Hypothesis Hundef : P VUndefined.
Hypothesis Hnull : P VNull.
Hypothesis Hbool : forall b, P (VBool b).
Hypothesis Hnum : forall n, P (VNumber n).
Hypothesis Hstr : forall s, P (VString s).
Hypothesis Harr : forall ref items, Forall P items -> P (VArray ref items).
Hypothesis Hobj : forall ref c props,
    Forall (fun kv => P (snd kv)) props -> P (VObject ref c props).
Hypothesis Herr : forall ref message props, P (VError ref message props).

Fixpoint value_nested_ind (v : value) : P v :=
  match v with
  | VUndefined => Hundef
  | VNull => Hnull
  | VBool b => Hbool b
  | VNumber n => Hnum n
  | VString s => Hstr s
  | VArray ref items =>
      Harr ref
        ((fix all (l : list value) : Forall P l :=
            match l with
            | [] => Forall_nil P
            | x :: t => Forall_cons x (value_nested_ind x) (all t)
            end) items)
  | VObject ref c props =>
      Hobj ref c
        ((fix all (l : list (string * value)) : Forall (fun kv => P (snd kv)) l :=
            match l with
            | [] => Forall_nil _
            | kv :: t =>
                Forall_cons kv
                  (match kv as p return P (snd p) with
                   | (_, x) => value_nested_ind x
                   end) (all t)
            end) props)
  | VError ref message props => Herr ref message props
  end.
End ValueInduction.

(** Truthiness: [undefined], [null], [false], [0] and the empty string are
    falsy; every object and every array is truthy. *)
Definition truthy (v : value) : bool :=
  match v with
  | VUndefined | VNull => false
  | VBool b => b
  | VNumber n => negb (Z.eqb n 0)
  | VString s => negb (String.eqb s EmptyString)
  | VArray _ _ | VObject _ _ _ | VError _ _ _ => true
  end.

Definition isArray (v : value) : bool :=
  match v with
  | VArray _ _ => true
  | _ => false
  end.

(** [a === b]. *)
Definition strict_equals (a b : value) : bool :=
  match a, b with
  | VUndefined, VUndefined => true
  | VNull, VNull => true
  | VBool x, VBool y => Bool.eqb x y
  | VNumber x, VNumber y => Z.eqb x y
  | VString x, VString y => String.eqb x y
  | VArray r _, VArray r' _ => Nat.eqb r r'
  | VObject r _ _, VObject r' _ _ => Nat.eqb r r'
  | VError r _ _, VError r' _ _ => Nat.eqb r r'
  | _, _ => false
  end.

(** ** Objects as association lists *)

Section Objects.
Variable A : Type.

Fixpoint lookup (key : string) (o : list (string * A)) : option A :=
  match o with
  | [] => None
  | (k, a) :: t => if String.eqb k key then Some a else lookup key t
  end.

(** [Object.keys(o)]. *)
Definition keys (o : list (string * A)) : list string := map fst o.

(** [o[key] = a]: an existing key keeps its place, a new key goes last. *)
Fixpoint assign (key : string) (a : A) (o : list (string * A)) : list (string * A) :=
  match o with
  | [] => [(key, a)]
  | (k, b) :: t =>
      if String.eqb k key then (k, a) :: t else (k, b) :: assign key a t
  end.

Definition has (key : string) (o : list (string * A)) : bool :=
  match lookup key o with
  | Some _ => true
  | None => false
  end.
End Objects.

(** [v[key]] for a value that is neither [null] nor [undefined].  An object
    answers with its own property.  An instance of [Error] answers with its
    own property or else with the data property of [Error.prototype], which
    holds [message], the empty string, and [name].  The keys read by the
    serializer ("id", "message", "status", relationship names) are no
    members of [Object.prototype], of a primitive or of an array, which
    answer [undefined]. *)
Definition get (v : value) (key : string) : value :=
  match v with
  | VObject _ _ props =>
      match lookup key props with
      | Some x => x
      | None => VUndefined
      end
  | VError _ message props =>
      match (if String.eqb key "message" then message else None) with
      | Some x => x
      | None =>
          match lookup key props with
          | Some x => x
          | None =>
              if String.eqb key "message" then VString EmptyString
              else if String.eqb key "name" then VString "Error"
              else VUndefined
          end
      end
  | _ => VUndefined
  end.

(** [v[key]], raising on [null] and [undefined]. *)
Definition get_prop (v : value) (key : string) : result value :=
  match v with
  | VUndefined | VNull => Throw TypeError
  | _ => OK (get v key)
  end.

(** [v.hasOwnProperty(key)].  An own property named [hasOwnProperty] shadows
    the method of [Object.prototype]; no value of the embedding is a
    function, so calling it raises a [TypeError]. *)
Definition hasOwnProperty (v : value) (key : string) : result bool :=
  match v with
  | VUndefined | VNull => Throw TypeError
  | VObject _ _ props =>
      if has "hasOwnProperty" props then Throw TypeError
      else OK (has key props)
  | VError _ message props =>
      if has "hasOwnProperty" props then Throw TypeError
      else OK (match (if String.eqb key "message" then message else None) with
               | Some _ => true
               | None => has key props
               end)
  | _ => OK false
  end.

(** [v.constructor] when it is a model, i.e. when [v.constructor.schema] is
    defined.  An own property named [constructor] shadows the constructor
    that the object inherits; the value it holds is taken to be no model,
    and neither [null] nor [undefined]. *)
Definition constructor_of (v : value) : option Model :=
  match v with
  | VObject _ c props => if has "constructor" props then None else c
  | _ => None
  end.

(** [Object.keys(v)] on an instance. *)
Definition own_keys (v : value) : list string :=
  match v with
  | VObject _ _ props => keys props
  | _ => []
  end.

(** *** Numbers as text *)

(** The decimal digits of an integer. *)
Definition decimal (n : Z) : string := NilZero.string_of_int (Z.to_int n).

(** The number that the engine reads for a positive integer: the nearest
    double, ties to the even significand. *)
Definition nearest_double (y : Z) : Z :=
  let e := (Z.log2 y - 52)%Z in
  if (e <=? 0)%Z then y
  else
    let q := Z.shiftr y e in
    let r := (y - Z.shiftl q e)%Z in
    let half := Z.shiftl 1 (e - 1) in
    if (r <? half)%Z then Z.shiftl q e
    else if (half <? r)%Z then Z.shiftl (q + 1) e
    else Z.shiftl (if Z.even q then q else (q + 1)%Z) e.

(** The integer with [k] significant digits nearest to [x], when it reads
    back as [x]. *)
Definition shortest_at (x : Z) (digits k : nat) : option Z :=
  let p := (10 ^ Z.of_nat (digits - k))%Z in
  let lo := (x / p * p)%Z in
  let hi := (lo + p)%Z in
  let lo_ok := Z.eqb (nearest_double lo) x in
  let hi_ok := Z.eqb (nearest_double hi) x in
  if lo_ok && hi_ok then
    if (x - lo <? hi - x)%Z then Some lo
    else if (hi - x <? x - lo)%Z then Some hi
    else Some (if Z.even (x / p) then lo else hi)
  else if lo_ok then Some lo
  else if hi_ok then Some hi
  else None.

(** The integer with the fewest significant digits that reads back as
    [x]. *)
Fixpoint shortest_from (x : Z) (digits k fuel : nat) : Z :=
  match fuel with
  | O => x
  | S fuel' =>
      match shortest_at x digits k with
      | Some v => v
      | None => shortest_from x digits (S k) fuel'
      end
  end.

Fixpoint strip_zeros (l : list ascii) : list ascii :=
  match l with
  | [] => []
  | c :: t =>
      match strip_zeros t with
      | [] => if Ascii.eqb c "0" then [] else [c]
      | t' => c :: t'
      end
  end.

(** [Number.prototype.toString] on a positive integer: the shortest digits
    that identify the number, padded with zeros up to 21 digits and in
    exponent notation from [1e21] on. *)
Definition Number_toString_pos (x : Z) : string :=
  let digits := String.length (decimal x) in
  let v := shortest_from x digits 1 (Nat.min 17 digits) in
  let text := decimal v in
  let n := String.length text in
  if Nat.leb n 21 then text
  else
    match strip_zeros (list_ascii_of_string text) with
    | [] => text
    | d :: rest =>
        (String d (match rest with
                   | [] => EmptyString
                   | _ => String "." (string_of_list_ascii rest)
                   end)
         ++ "e+" ++ decimal (Z.of_nat (n - 1)))%string
    end.

(** [String(n)] for a number that is an integer. *)
Definition Number_toString (n : Z) : string :=
  if (n <? 0)%Z then ("-" ++ Number_toString_pos (- n))%string
  else Number_toString_pos n.

(** [String(v)], as a template literal converts an interpolated value.  An
    instance of [Error] is converted by [Error.prototype.toString], from its
    [name] and its [message]. *)
Fixpoint ToString (v : value) : string :=
  match v with
  | VUndefined => "undefined"
  | VNull => "null"
  | VBool true => "true"
  | VBool false => "false"
  | VNumber n => Number_toString n
  | VString s => s
  | VArray _ items =>
      String.concat ","
        (map (fun x => match x with
                       | VUndefined | VNull => EmptyString
                       | _ => ToString x
                       end) items)
  | VObject _ _ _ => "[object Object]"
  | VError _ message props =>
      let own :=
        fix own (key default : string) (ps : list (string * value)) : string :=
          match ps with
          | [] => default
          | (k, x) :: t =>
              if String.eqb k key
              then match x with
                   | VUndefined => if String.eqb key "name" then "Error" else EmptyString
                   | _ => ToString x
                   end
              else own key default t
          end in
      let name := own "name" "Error" props in
      let msg := match message with
                 | Some VUndefined => EmptyString
                 | Some x => ToString x
                 | None => own "message" EmptyString props
                 end in
      if String.eqb name EmptyString then msg
      else if String.eqb msg EmptyString then name
      else (name ++ ": " ++ msg)%string
  end.

(** ** JSON API documents *)

Record ResourceIdentifier : Type := mkIdentifier {
  ri_id : value;
  ri_type : string
}.

Record Links : Type := mkLinks {
  self : string;
  related : string
}.

(** [data] of a relationship: one resource identifier or an array of them. *)
Inductive Linkage : Type :=
| ToOne (i : ResourceIdentifier)
| ToMany (l : list ResourceIdentifier).

(** A relationship object; a member that was never assigned is [None]. *)
Record Relationship : Type := mkRelationshipObject {
  links : option Links;
  data : option Linkage
}.

Record Resource : Type := mkResource {
  res_type : string;
  res_id : value;
  attributes : list (string * value);
  res_relationships : option (list (string * Relationship))
}.

(** ** buildResource *)

(** The message of the missing-identifier error:
    [Expected an "id" property.] *)
Definition missing_id_message : string :=
  "Expected an " ++ String "034" "id" ++ String "034" " property.".

(** The names of the members of [Object.prototype], which every object
    literal, and so the [properties] object of a schema, inherits. *)
Definition Object_prototype : list string :=
  ["constructor"; "hasOwnProperty"; "isPrototypeOf"; "propertyIsEnumerable";
   "toLocaleString"; "toString"; "valueOf"; "__defineGetter__";
   "__defineSetter__"; "__lookupGetter__"; "__lookupSetter__"; "__proto__"].

Definition inherited (key : string) : bool :=
  existsb (String.eqb key) Object_prototype.

(** [schema[key]]: the declared entry or, when the schema declares none, the
    member of [Object.prototype] of that name.  Such a member is a function
    (under [__proto__], the prototype object itself), hence truthy, and its
    [public] property is [undefined]. *)
Definition schema_entry (schema : list (string * PropertySchema)) (key : string)
    : option PropertySchema :=
  match lookup key schema with
  | Some keySchema => Some keySchema
  | None => if inherited key then Some {| public := None |} else None
  end.

(** [obj[key] = x] on an object literal: under the key [__proto__] the
    assignment reaches the setter of [Object.prototype] and defines no
    property. *)
Definition put (key : string) (x : value) (obj : list (string * value))
    : list (string * value) :=
  if String.eqb key "__proto__" then obj else assign key x obj.

(** Body of the [reduce] that builds [attributes]. *)
Definition attribute_step (instance : value) (schema : list (string * PropertySchema))
    (obj : list (string * value)) (key : string) : list (string * value) :=
  match schema_entry schema key with
  | Some keySchema =>
      match public keySchema with
      | Some true | None => put key (get instance key) obj
      | Some false => obj
      end
  | None => obj
  end.

(** The [relationship] object that the [reduce] over the relationship keys
    builds for one key: [links] when the instance has a truthy identifier,
    [data] from the nested value. *)
Definition relationship_object (instance : value) (plural key : string)
    (keySchema : RelationshipSchema) : result Relationship :=
  let links :=
    if truthy (get instance "id") then
      Some {| self := "/" ++ plural ++ "/" ++ ToString (get instance "id")
                        ++ "/relationships/" ++ key;
              related := "/" ++ plural ++ "/" ++ ToString (get instance "id")
                           ++ "/" ++ key |}
    else None in
  let nested := get instance key in
  let type := type keySchema in
  match nested with
  | VArray _ items =>
      l <- mapM (fun item =>
                   id <- get_prop item "id" ;;
                   OK {| ri_id := if truthy id then id else item;
                         ri_type := type |}) items ;;
      OK {| links := links; data := Some (ToMany l) |}
  | _ =>
      if truthy nested then
        OK {| links := links;
              data := Some (ToOne {| ri_id := if truthy (get nested "id")
                                              then get nested "id" else nested;
                                     ri_type := type |}) |}
      else OK {| links := links; data := None |}
  end.

(** Body of the [reduce] that builds [relationships]:
    [obj[key] = relationship]. *)
Definition relationship_step (instance : value) (plural : string)
    (obj : list (string * Relationship)) (entry : string * RelationshipSchema)
    : result (list (string * Relationship)) :=
  relationship <- relationship_object instance plural (fst entry) (snd entry) ;;
  OK (assign (fst entry) relationship obj).

(** [relationshipSchema = instance.constructor.schema.relationships || {}]. *)
Definition relationshipSchema (M : Model) : list (string * RelationshipSchema) :=
  match relationships (schema M) with
  | Some r => r
  | None => []
  end.

(** [buildResource(instance, requireId = true)].  The second argument is a
    JavaScript value: it is tested for truthiness, and [undefined] selects
    the default. *)
Definition buildResource (instance : value) (requireId : value) : result Resource :=
  let requireId := match requireId with VUndefined => VBool true | v => v end in
  missing <-
    (if truthy requireId then
       own <- hasOwnProperty instance "id" ;; OK (negb own)
     else OK false) ;;
  if (missing : bool) then Throw (JsError missing_id_message)
  else
    match instance with
    | VUndefined | VNull => Throw TypeError
    | _ =>
        match constructor_of instance with
        | None => Throw TypeError
        | Some M =>
            let attributes :=
              fold_left (attribute_step instance (properties (schema M)))
                        (own_keys instance) [] in
            relationships <-
              foldM (relationship_step instance (plural M))
                    (relationshipSchema M) [] ;;
            OK {| res_type := singular M;
                  res_id := get instance "id";
                  attributes := attributes;
                  res_relationships :=
                    match relationships with
                    | [] => None
                    | _ => Some relationships
                    end |}
        end
    end.

(** The relationships map of a resource object; empty when the member is
    absent. *)
Definition relationships_of (r : Resource) : list (string * Relationship) :=
  match res_relationships r with
  | Some l => l
  | None => []
  end.

(** The resource identifiers held by the [data] member of a relationship. *)
Definition identifiers (d : option Linkage) : list ResourceIdentifier :=
  match d with
  | Some (ToOne i) => [i]
  | Some (ToMany l) => l
  | None => []
  end.

(** ** flatten *)

(** An array whose elements are values of type [A] or further arrays. *)
#[local] Unset Elimination Schemes.
Inductive Nested (A : Type) : Type :=
| Elem (a : A)
| Arr (l : list (Nested A)).
#[local] Set Elimination Schemes.
Arguments Elem {A} a.
Arguments Arr {A} l.

Section Flatten.
Variable A : Type.

(** One iteration of the loop of [flatten]: an array is flattened
    recursively and concatenated, anything else is pushed. *)
Fixpoint flatten_val (val : Nested A) : list A :=
  match val with
  | Arr l => flat_map flatten_val l
  | Elem a => [a]
  end.

(** Flatten deeply nested arrays. *)
Definition flatten (arr : list (Nested A)) : list A := flat_map flatten_val arr.

(** [included.filter(( item ) => item)] on an array whose elements may be
    [undefined] ([None]); arrays and resource objects are truthy. *)
Fixpoint filter_defined (arr : list (option (Nested A))) : list (Nested A) :=
  match arr with
  | [] => []
  | Some x :: t => x :: filter_defined t
  | None :: t => filter_defined t
  end.
End Flatten.

(** ** buildCompoundDocuments *)

Section CompoundStep.
(** The recursive reference to [buildCompoundDocuments]. *)
Variable buildCompoundDocuments : value -> result (list Resource).

(** First [map] of the array branch: [item && item.constructor.schema]. *)
Definition recurse_item (item : value) : result (option (Nested Resource)) :=
  if truthy item then
    match constructor_of item with
    | Some _ =>
        docs <- buildCompoundDocuments item ;;
        OK (Some (Arr (map Elem docs)))
    | None => OK None
    end
  else OK None.

(** Second [map] of the array branch: [item && item.id]. *)
Definition include_item (item : value) : result (option (Nested Resource)) :=
  if truthy item && truthy (get item "id") then
    r <- buildResource item VUndefined ;; OK (Some (Elem r))
  else OK None.

(** Body of the [forEach] over the relationship keys, given
    [nested = instance[key]]. *)
Definition collect (included : list (option (Nested Resource))) (nested : value)
    : result (list (option (Nested Resource))) :=
  match nested with
  | VArray _ items =>
      deep <- mapM recurse_item items ;;
      direct <- mapM include_item items ;;
      OK ((included ++ deep) ++ direct)
  | _ =>
      if truthy nested && truthy (get nested "id") then
        r <- buildResource nested VUndefined ;;
        OK (included ++ [Some (Elem r)])
      else OK included
  end.
End CompoundStep.

(** [buildCompoundDocuments(instance)]: reading [schema.relationships]
    raises a [TypeError] unless [instance.constructor] is a model. *)
Fixpoint buildCompoundDocuments (instance : value) : result (list Resource) :=
  match instance with
  | VObject _ (Some M) props =>
      if has "constructor" props then Throw TypeError
      else
        included <-
          foldM (fun included (entry : string * RelationshipSchema) =>
                   (fix at_key (ps : list (string * value)) :=
                      match ps with
                      | [] => OK included
                      | (k, nested) :: ps' =>
                          if String.eqb k (fst entry)
                          then collect buildCompoundDocuments included nested
                          else at_key ps'
                      end) props)
                (relationshipSchema M) [] ;;
        OK (flatten (filter_defined included))
  | _ => Throw TypeError
  end.

(** ** JSON text *)

(** The values [JSON.stringify] can render. *)
#[local] Unset Elimination Schemes.
Inductive json : Type :=
| JNull
| JBool (b : bool)
| JNumber (n : Z)
| JString (s : string)
| JArray (l : list json)
| JObject (members : list (string * json)).
#[local] Set Elimination Schemes.

Definition hex_digit (n : nat) : ascii :=
  nth n (list_ascii_of_string "0123456789abcdef") "0"%char.

(** Escape of one character inside a JSON string. *)
Definition escape_char (c : ascii) : string :=
  let n := nat_of_ascii c in
  if Nat.eqb n 34 then String "\" (String "034" EmptyString)
  else if Nat.eqb n 92 then "\\"
  else if Nat.eqb n 8 then "\b"
  else if Nat.eqb n 9 then "\t"
  else if Nat.eqb n 10 then "\n"
  else if Nat.eqb n 12 then "\f"
  else if Nat.eqb n 13 then "\r"
  else if Nat.ltb n 32 then
    ("\u00" ++ String (hex_digit (n / 16)) (String (hex_digit (n mod 16)) EmptyString))%string
  else String c EmptyString.

Definition quote (s : string) : string :=
  String "034"
    (String.concat EmptyString (map escape_char (list_ascii_of_string s))
       ++ String "034" EmptyString).

(** [JSON.stringify(j)]. *)
Fixpoint JSON_stringify (j : json) : string :=
  match j with
  | JNull => "null"
  | JBool true => "true"
  | JBool false => "false"
  | JNumber n => Number_toString n
  | JString s => quote s
  | JArray l => ("[" ++ String.concat "," (map JSON_stringify l) ++ "]")%string
  | JObject members =>
      ("{" ++ String.concat ","
                (map (fun kv : string * json =>
                        let (k, x) := kv in quote k ++ ":" ++ JSON_stringify x)
                     members) ++ "}")%string
  end.

(** What [JSON.stringify] sees of a value, namely its enumerable own
    properties; [None] is [undefined], which is left out of an object and
    rendered as [null] inside an array. *)
Fixpoint json_of_value (v : value) : option json :=
  match v with
  | VUndefined => None
  | VNull => Some JNull
  | VBool b => Some (JBool b)
  | VNumber n => Some (JNumber n)
  | VString s => Some (JString s)
  | VArray _ items =>
      Some (JArray (map (fun x => match json_of_value x with
                                  | Some j => j
                                  | None => JNull
                                  end) items))
  | VObject _ _ props =>
      Some (JObject
              ((fix members (ps : list (string * value)) : list (string * json) :=
                  match ps with
                  | [] => []
                  | (k, x) :: t =>
                      match json_of_value x with
                      | Some j => (k, j) :: members t
                      | None => members t
                      end
                  end) props))
  | VError _ _ props =>
      Some (JObject
              ((fix members (ps : list (string * value)) : list (string * json) :=
                  match ps with
                  | [] => []
                  | (k, x) :: t =>
                      match json_of_value x with
                      | Some j => (k, j) :: members t
                      | None => members t
                      end
                  end) props))
  end.

(** A member of an object literal; an [undefined] value leaves no member. *)
Definition member (key : string) (j : option json) : list (string * json) :=
  match j with
  | Some x => [(key, x)]
  | None => []
  end.

Definition json_of_identifier (i : ResourceIdentifier) : json :=
  JObject (member "id" (json_of_value (ri_id i)) ++ [("type", JString (ri_type i))]).

Definition json_of_relationship (r : Relationship) : json :=
  JObject
    (member "links"
       (option_map (fun l => JObject [("self", JString (self l));
                                      ("related", JString (related l))])
                   (links r))
     ++ member "data"
          (option_map (fun d => match d with
                                | ToOne i => json_of_identifier i
                                | ToMany l => JArray (map json_of_identifier l)
                                end) (data r))).

Definition json_of_resource (r : Resource) : json :=
  JObject
    ([("type", JString (res_type r))]
     ++ member "id" (json_of_value (res_id r))
     ++ member "attributes" (json_of_value (VObject 0 None (attributes r)))
     ++ member "relationships"
          (option_map (fun rs => JObject (map (fun kv : string * Relationship =>
                                                 let (k, x) := kv in
                                                 (k, json_of_relationship x)) rs))
                      (res_relationships r))).

(** ** Top-level documents *)

(** [doc.data]: one resource object, or an array of them. *)
Inductive Primary : Type :=
| Single (r : Resource)
| Collection (l : list Resource).

Record Document : Type := mkDocument {
  doc_data : Primary;
  included : option (list Resource)
}.

Definition json_of_document (d : Document) : json :=
  JObject
    ([("data", match doc_data d with
               | Single r => json_of_resource r
               | Collection l => JArray (map json_of_resource l)
               end)]
     ++ member "included"
          (option_map (fun l => JArray (map json_of_resource l)) (included d))).

(** What a serializer returns: JSON text, or the structured value. *)
Inductive output (A : Type) : Type :=
| Text (s : string)
| Native (a : A).
Arguments Text {A} s.
Arguments Native {A} a.

(** ** toJSON *)

Record Options : Type := mkOptions {
  stringify : bool;
  requireId : bool
}.

(** Both options default to [true]. *)
Definition default_options : Options := {| stringify := true; requireId := true |}.

(** [doc.type === item.type && doc.id === item.id]. *)
Definition same_document (doc item : Resource) : bool :=
  String.eqb (res_type doc) (res_type item) && strict_equals (res_id doc) (res_id item).

(** The callback of the [reduce] that removes duplicate documents: [item]
    is pushed unless some document of [arr] has its type and identifier. *)
Definition dedupe_step (arr : list Resource) (item : Resource) : list Resource :=
  if negb (existsb (fun doc => same_document doc item) arr)
  then arr ++ [item]
  else arr.

(** The [reduce] that removes duplicate documents from the array of
    includes. *)
Definition dedupe (included : list Resource) : list Resource :=
  fold_left dedupe_step included [].

(** [toJSON(instance = null, { stringify = true, requireId = true } = {})];
    [Native None] is the native [null]. *)
Definition toJSON (instance : value) (options : Options)
    : result (output (option Document)) :=
  let instance := match instance with VUndefined => VNull | v => v end in
  if negb (truthy instance) then
    OK (if stringify options then Text (JSON_stringify JNull) else Native None)
  else
    built <-
      match instance with
      | VArray _ elements =>
          data <- mapiM (fun element index =>
                           buildResource element (VNumber (Z.of_nat index)))
                        elements ;;
          docs <- mapM buildCompoundDocuments elements ;;
          OK (Collection data, flatten (map (fun l => Arr (map Elem l)) docs))
      | _ =>
          data <- buildResource instance (VBool (requireId options)) ;;
          included <- buildCompoundDocuments instance ;;
          OK (Single data, included)
      end ;;
    let doc :=
      {| doc_data := fst built;
         included := match snd built with
                     | [] => None
                     | _ :: _ => Some (dedupe (snd built))
                     end |} in
    OK (if stringify options then Text (JSON_stringify (json_of_document doc))
        else Native (Some doc)).

(** ** errorsToJSON *)

Record ErrorObject : Type := mkErrorObject {
  detail : value;
  status : value
}.

Record ErrorDocument : Type := mkErrorDocument {
  errors : list ErrorObject
}.

Definition json_of_error (e : ErrorObject) : json :=
  JObject (member "detail" (json_of_value (detail e))
           ++ member "status" (json_of_value (status e))).

(** [errorsToJSON(errors, stringify = true)]. *)
Definition errorsToJSON (errors : value) (stringify : bool)
    : result (output ErrorDocument) :=
  let errors := match errors with
                | VArray _ items => items
                | _ => [errors]
                end in
  errors <- mapM (fun error =>
                    message <- get_prop error "message" ;;
                    status <- get_prop error "status" ;;
                    OK {| detail := message; status := status |}) errors ;;
  let response := {| errors := errors |} in
  OK (if stringify
      then Text (JSON_stringify
                   (JObject [("errors", JArray (map json_of_error errors))]))
      else Native response).

(** ** Instances the serializer is meant for *)

Definition is_nullish (v : value) : bool :=
  match v with
  | VUndefined | VNull => true
  | _ => false
  end.

Section RelationshipValues.
Variable well_formed : value -> bool.

(** An element of an array-valued relationship: a raw identifier or an
    instance. *)
Definition element_ok (item : value) : bool :=
  match item with
  | VUndefined | VNull | VArray _ _ | VError _ _ _ => false
  | VObject _ _ _ => well_formed item
  | _ => true
  end.

(** The value of a relationship key: absent, [null], a raw identifier, an
    instance, or an array of raw identifiers and instances. *)
Definition nested_ok (nested : value) : bool :=
  match nested with
  | VArray _ items => forallb element_ok items
  | VObject _ _ _ => well_formed nested
  | VError _ _ _ => false
  | _ => true
  end.
End RelationshipValues.

(** [well_formed v]: [v] is a model instance, and so is, recursively, every
    object found under one of its declared relationship keys. *)
Fixpoint well_formed (v : value) : bool :=
  match v with
  | VObject _ (Some M) props =>
      negb (has "constructor" props) &&
      forallb (fun kv : string * value =>
                 let (k, x) := kv in
                 negb (has k (relationshipSchema M)) || nested_ok well_formed x)
              props
  | _ => false
  end.

(** ** The models of the test suite *)

Module Fixtures.
Definition SingleChild : Model :=
  {| singular := "single"; plural := "singles";
     schema := {| properties := [("name", {| public := None |})];
                  relationships := None |} |}.

Definition Child : Model :=
  {| singular := "child"; plural := "childs";
     schema := {| properties := [("name", {| public := None |})];
                  relationships :=
                    Some [("deep", {| type := "single"; hasMany := None |})] |} |}.

Definition Test : Model :=
  {| singular := "test"; plural := "tests";
     schema := {| properties := [("name", {| public := None |});
                                 ("private", {| public := Some false |})];
                  relationships :=
                    Some [("children", {| type := "child"; hasMany := Some true |});
                          ("child", {| type := "single"; hasMany := None |})] |} |}.

(** [new Model({ name: 'test', id: '1' })] *)
Definition saved : value :=
  VObject 1 (Some Test) [("name", VString "test"); ("id", VString "1")].

(** [new Model({ name: 'test' })] *)
Definition unsaved : value :=
  VObject 2 (Some Test) [("name", VString "test")].

(** [new Model({ name: 'test', id: '' })] *)
Definition blank_id : value :=
  VObject 3 (Some Test) [("name", VString "test"); ("id", VString EmptyString)].

(** [new Model({ name: 'test', id: '1', private: 'x', excluded: true })] *)
Definition with_hidden : value :=
  VObject 4 (Some Test)
    [("name", VString "test"); ("id", VString "1");
     ("private", VString "x"); ("excluded", VBool true)].

(** [new Model({ name: 'test', id: '1', toString: 'x', excluded: true })] *)
Definition with_toString : value :=
  VObject 60 (Some Test)
    [("name", VString "test"); ("id", VString "1");
     ("toString", VString "x"); ("excluded", VBool true)].

(** [new Model({ name: 'test', id: '1', children: [] })] *)
Definition no_children : value :=
  VObject 5 (Some Test)
    [("name", VString "test"); ("id", VString "1"); ("children", VArray 6 [])].

(** [new Model({ name: 'test', id: '1', child: '2', children: [ '3',
    new Child({ id: '4', name: 'c' }) ] })] *)
Definition with_identifiers : value :=
  VObject 7 (Some Test)
    [("name", VString "test"); ("id", VString "1"); ("child", VString "2");
     ("children",
      VArray 8 [VString "3";
                VObject 9 (Some Child) [("id", VString "4"); ("name", VString "c")]])].


(** [new Model({ name: 'test', id: '', children: [ null ] })] *)
Definition blank_id_null_child : value :=
  VObject 63 (Some Test)
    [("name", VString "test"); ("id", VString EmptyString);
     ("children", VArray 64 [VNull])].

(** [new Model({ name: 'test', id: 1e21, child: '2' })] *)
Definition with_large_id : value :=
  VObject 65 (Some Test)
    [("name", VString "test"); ("id", VNumber (10 ^ 21)); ("child", VString "2")].

(** [new SingleChild({ id: '3', name: 'leaf' })] *)
Definition leaf : value :=
  VObject 10 (Some SingleChild) [("id", VString "3"); ("name", VString "leaf")].

(** [new Child({ id: '2', name: 'middle', deep: leaf })] *)
Definition middle : value :=
  VObject 11 (Some Child)
    [("id", VString "2"); ("name", VString "middle"); ("deep", leaf)].

(** A model whose single-valued relationship targets a model that has a
    relationship of its own. *)
Definition Parent : Model :=
  {| singular := "parent"; plural := "parents";
     schema := {| properties := [("name", {| public := None |})];
                  relationships :=
                    Some [("favourite", {| type := "child"; hasMany := None |});
                          ("children", {| type := "child"; hasMany := Some true |})] |} |}.

(** [new Parent({ id: '1', favourite: middle })] *)
Definition through_single : value :=
  VObject 12 (Some Parent) [("id", VString "1"); ("favourite", middle)].

(** [new Parent({ id: '1', children: [ middle ] })] *)
Definition through_array : value :=
  VObject 13 (Some Parent) [("id", VString "1"); ("children", VArray 14 [middle])].

(** [new Model({ id: '1', children: [ new Child({ id: '2', name: 'child1' }),
    new Child({ id: '2', name: 'child1' }) ] })] *)
Definition twice_the_same : value :=
  VObject 20 (Some Test)
    [("id", VString "1");
     ("children",
      VArray 21 [VObject 22 (Some Child) [("id", VString "2"); ("name", VString "child1")];
                 VObject 23 (Some Child) [("id", VString "2"); ("name", VString "child1")]])].
End Fixtures.

(** ** Vocabulary of the properties *)

(** The effective [requireId] after the default is applied. *)
Definition effective_requireId (requireId : value) : value :=
  match requireId with
  | VUndefined => VBool true
  | v => v
  end.

(** The keys that the [reduce] of [buildResource] copies: [schema[key]] is
    found, in the schema or in [Object.prototype], its [public] flag is
    [true] or unset, and the key is not [__proto__]. *)
Definition serializable (schema : list (string * PropertySchema)) (key : string) : bool :=
  negb (String.eqb key "__proto__") &&
  match schema_entry schema key with
  | Some keySchema =>
      match public keySchema with
      | Some false => false
      | _ => true
      end
  | None => false
  end.

(** The result of [toJSON] for a document: text or structured value. *)
Definition render (options : Options) (doc : Document) : output (option Document) :=
  if stringify options then Text (JSON_stringify (json_of_document doc))
  else Native (Some doc).

(** The flat sequence of compound documents gathered for the input, before
    duplicates are removed. *)
Definition gathered (instance : value) : result (list Resource) :=
  match instance with
  | VArray _ elements =>
      docs <- mapM buildCompoundDocuments elements ;; OK (concat docs)
  | _ => buildCompoundDocuments instance
  end.

(** [doc.data] for the input. *)
Definition primary (instance : value) (options : Options) : result Primary :=
  match instance with
  | VArray _ elements =>
      data <- mapiM (fun element index =>
                       buildResource element (VNumber (Z.of_nat index)))
                    elements ;;
      OK (Collection data)
  | _ =>
      data <- buildResource instance (VBool (requireId options)) ;; OK (Single data)
  end.

(** The error object of one Error-like value. *)
Definition error_object (error : value) : ErrorObject :=
  {| detail := get error "message"; status := get error "status" |}.

(** [key in v], for a key that the serializer reads by name ([id],
    [message], [status]): the value has the property, as its own or, for an
    instance of [Error], from [Error.prototype]. *)
Definition has_property (v : value) (key : string) : bool :=
  match v with
  | VObject _ _ props => has key props
  | VError _ message props =>
      String.eqb key "message" || String.eqb key "name" || has key props
  | _ => false
  end.

(** The members of a rendered object. *)
Definition members_of (j : json) : list (string * json) :=
  match j with
  | JObject members => members
  | _ => []
  end.

(** The double quote. *)
Definition dquote : string := String "034" EmptyString.

(** The result of [errorsToJSON] for a sequence of error objects. *)
Definition render_errors (stringify : bool) (objects : list ErrorObject)
    : output ErrorDocument :=
  if stringify
  then Text (JSON_stringify (JObject [("errors", JArray (map json_of_error objects))]))
  else Native {| errors := objects |}.

(** [sub] is [l] with some entries left out, order kept. *)
Inductive subsequence (A : Type) : list A -> list A -> Prop :=
| subsequence_nil : subsequence [] []
| subsequence_skip x sub l : subsequence sub l -> subsequence sub (x :: l)
| subsequence_keep x sub l : subsequence sub l -> subsequence (x :: sub) (x :: l).


(** [item && item.id]. *)
Definition identified (item : value) : bool :=
  truthy item && truthy (get item "id").

(** [collects instance x]: the walk of [buildCompoundDocuments] from
    [instance] meets [x] with a truthy identifier.  The walk descends into
    the elements of array-valued relationships only; the last step may also
    be a single-valued relationship. *)
Inductive collects : value -> value -> Prop :=
| collects_single instance M key keySchema :
    constructor_of instance = Some M ->
    In (key, keySchema) (relationshipSchema M) ->
    isArray (get instance key) = false ->
    identified (get instance key) = true ->
    collects instance (get instance key)
| collects_element instance M key keySchema ref items x :
    constructor_of instance = Some M ->
    In (key, keySchema) (relationshipSchema M) ->
    get instance key = VArray ref items ->
    In x items ->
    identified x = true ->
    collects instance x
| collects_deeper instance M key keySchema ref items y My x :
    constructor_of instance = Some M ->
    In (key, keySchema) (relationshipSchema M) ->
    get instance key = VArray ref items ->
    In y items ->
    constructor_of y = Some My ->
    collects y x ->
    collects instance x.

(** A string, a number or a boolean, [null] or [undefined]. *)
Definition is_primitive (v : value) : bool :=
  match v with
  | VArray _ _ | VObject _ _ _ | VError _ _ _ => false
  | _ => true
  end.

(** [item.id] can be read on every element of an array: none is [null] or
    [undefined]. *)
Definition readable_elements (nested : value) : bool :=
  match nested with
  | VArray _ items => forallb (fun item => negb (is_nullish item)) items
  | _ => true
  end.

(** [resource_ready v]: [v] is a model instance, and no array under one of
    its declared relationship keys holds [null] or [undefined]. *)
Definition resource_ready (v : value) : bool :=
  match constructor_of v with
  | Some M =>
      forallb (fun entry : string * RelationshipSchema =>
                 readable_elements (get v (fst entry)))
              (relationshipSchema M)
  | None => false
  end.

(** [v.hasOwnProperty(key)] returns [true]. *)
Definition owns (v : value) (key : string) : bool :=
  match hasOwnProperty v key with
  | OK own => own
  | Throw _ => false
  end.

(** A value that the collector can serialize if it has a truthy [id]: its
    [hasOwnProperty] answers for [id], and its resource object can be
    built. *)
Definition includable (item : value) : bool :=
  negb (identified item) || (owns item "id" && resource_ready item).

Section Collectable.
Variable collectable : value -> bool.

(** An element of an array-valued relationship that the collector can
    handle: if it is a model instance, the collector can walk it, and if it
    has a truthy [id], its resource object can be built. *)
Definition collectable_item (item : value) : bool :=
  match constructor_of item with
  | Some _ => collectable item
  | None => true
  end
  && includable item.

(** The value of a relationship key that the collector can handle. *)
Definition collectable_nested (nested : value) : bool :=
  match nested with
  | VArray _ items => forallb collectable_item items
  | _ => includable nested
  end.
End Collectable.

(** [collectable v]: [v] is a model instance and, along the walk of
    [buildCompoundDocuments], every value with a truthy [id] is a model
    instance whose resource object can be built. *)
Fixpoint collectable (v : value) : bool :=
  match v with
  | VObject _ (Some M) props =>
      negb (has "constructor" props) &&
      forallb (fun kv : string * value =>
                 let (k, x) := kv in
                 negb (has k (relationshipSchema M))
                 || collectable_nested collectable x)
              props
  | _ => false
  end.

(** What [buildCompoundDocuments] gets from one relationship value, as
    plain lists: for an array, the compound documents of its elements that
    are model instances, then the resource objects of its elements with a
    truthy [id]; for a single value, its resource object when it has a
    truthy [id]. *)
Definition deep_documents (rec : value -> result (list Resource)) (item : value)
    : result (list Resource) :=
  if truthy item then
    match constructor_of item with
    | Some _ => rec item
    | None => OK []
    end
  else OK [].

Definition own_document (item : value) : result (list Resource) :=
  if identified item then r <- buildResource item VUndefined ;; OK [r] else OK [].

Definition contribution (rec : value -> result (list Resource)) (nested : value)
    : result (list Resource) :=
  match nested with
  | VArray _ items =>
      deep <- mapM (deep_documents rec) items ;;
      direct <- mapM own_document items ;;
      OK (concat deep ++ concat direct)
  | _ => own_document nested
  end.

(** ** The earlier revision of the resource builder and of the collector *)

(** [src/serializer.js] as it was before raw identifiers and [flatten]: the
    target type of a relationship is read off the nested value, and the
    collector does not recurse.  [toJSON] and [errorsToJSON] are those above,
    except that this [toJSON] concatenates the per-element arrays with
    [reduce] and [concat]. *)
Module Legacy.

(** [v.constructor.singular]: the registered name of a model instance,
    [undefined] for any other value on which a property can be read. *)
Definition singular_of (v : value) : result value :=
  match v with
  | VUndefined | VNull => Throw TypeError
  | _ =>
      OK (match constructor_of v with
          | Some M => VString (singular M)
          | None => VUndefined
          end)
  end.

(** [v instanceof Model]: the constructors made by the model framework
    extend its [Model] class, so this holds exactly for the objects made by
    a model constructor. *)
Definition instanceof_Model (v : value) : bool :=
  match v with
  | VObject _ (Some _) _ => true
  | _ => false
  end.

Record ResourceIdentifier : Type := mkIdentifier {
  ri_id : value;
  ri_type : value
}.

Inductive Linkage : Type :=
| ToOne (i : ResourceIdentifier)
| ToMany (l : list ResourceIdentifier).

Record Relationship : Type := mkRelationshipObject {
  links : option Links;
  data : option Linkage
}.

Record Resource : Type := mkResource {
  res_type : string;
  res_id : value;
  attributes : list (string * value);
  res_relationships : option (list (string * Relationship))
}.

(** The [relationship] object built for one key: the type is
    [nested[0].constructor.singular] for an array and
    [nested.constructor.singular] otherwise; the identifier is [item.id]. *)
Definition relationship_object (instance : value) (plural key : string)
    : result Relationship :=
  let links :=
    if truthy (get instance "id") then
      Some {| self := "/" ++ plural ++ "/" ++ ToString (get instance "id")
                        ++ "/relationships/" ++ key;
              related := "/" ++ plural ++ "/" ++ ToString (get instance "id")
                           ++ "/" ++ key |}
    else None in
  let nested := get instance key in
  match nested with
  | VArray _ items =>
      type <- singular_of (nth 0 items VUndefined) ;;
      l <- mapM (fun item =>
                   id <- get_prop item "id" ;;
                   OK {| ri_id := id; ri_type := type |}) items ;;
      OK {| links := links; data := Some (ToMany l) |}
  | _ =>
      if truthy nested then
        type <- singular_of nested ;;
        OK {| links := links;
              data := Some (ToOne {| ri_id := get nested "id"; ri_type := type |}) |}
      else OK {| links := links; data := None |}
  end.

Definition relationship_step (instance : value) (plural : string)
    (obj : list (string * Relationship)) (entry : string * RelationshipSchema)
    : result (list (string * Relationship)) :=
  relationship <- relationship_object instance plural (fst entry) ;;
  OK (assign (fst entry) relationship obj).

(** [buildResource(instance, requireId = true)]. *)
Definition buildResource (instance : value) (requireId : value) : result Resource :=
  let requireId := match requireId with VUndefined => VBool true | v => v end in
  missing <-
    (if truthy requireId then
       own <- hasOwnProperty instance "id" ;; OK (negb own)
     else OK false) ;;
  if (missing : bool) then Throw (JsError missing_id_message)
  else
    match instance with
    | VUndefined | VNull => Throw TypeError
    | _ =>
        match constructor_of instance with
        | None => Throw TypeError
        | Some M =>
            let attributes :=
              fold_left (attribute_step instance (properties (schema M)))
                        (own_keys instance) [] in
            relationships <-
              foldM (relationship_step instance (plural M))
                    (relationshipSchema M) [] ;;
            OK {| res_type := singular M;
                  res_id := get instance "id";
                  attributes := attributes;
                  res_relationships :=
                    match relationships with
                    | [] => None
                    | _ => Some relationships
                    end |}
        end
    end.

(** Body of the [forEach] of the collector: an array is mapped with
    [buildResource] itself, which therefore receives the index as
    [requireId]; a single model instance is pushed. *)
Definition collect (included : list Resource) (nested : value)
    : result (list Resource) :=
  match nested with
  | VArray _ items =>
      l <- mapiM (fun item index => buildResource item (VNumber (Z.of_nat index)))
                 items ;;
      OK (included ++ l)
  | _ =>
      if instanceof_Model nested then
        r <- buildResource nested VUndefined ;; OK (included ++ [r])
      else OK included
  end.

(** [buildCompoundDocuments(instance)]. *)
Definition buildCompoundDocuments (instance : value) : result (list Resource) :=
  match instance with
  | VUndefined | VNull => Throw TypeError
  | _ =>
      match constructor_of instance with
      | None => Throw TypeError
      | Some M =>
          foldM (fun included (entry : string * RelationshipSchema) =>
                   collect included (get instance (fst entry)))
                (relationshipSchema M) []
      end
  end.

(** The relationships map of a resource object; empty when the member is
    absent. *)
Definition relationships_of (r : Resource) : list (string * Relationship) :=
  match res_relationships r with
  | Some l => l
  | None => []
  end.

(** The number of values directly under a relationship key that the
    collector serializes. *)
Definition direct_count (nested : value) : nat :=
  match nested with
  | VArray _ items => length items
  | _ => if instanceof_Model nested then 1 else 0
  end.

End Legacy.

(** * Facts *)

(** ** Facts about objects, traversals and the error monad *)

Section ObjectFacts.
Variable A : Type.
Implicit Types (o : list (string * A)) (key k : string).

Lemma lookup_assign_same key a o : lookup key (assign key a o) = Some a.
Proof.
  induction o as [|[k b] t IH]; simpl.
  - now rewrite String.eqb_refl.
  - destruct (String.eqb k key) eqn:E; simpl; rewrite E; auto.
Qed.

Lemma lookup_assign_other key k a o :
  k <> key -> lookup key (assign k a o) = lookup key o.
Proof.
  intros Hne. induction o as [|[k' b] t IH]; simpl.
  - apply String.eqb_neq in Hne. now rewrite Hne.
  - destruct (String.eqb k' k) eqn:E; simpl.
    + apply String.eqb_eq in E. subst k'.
      apply String.eqb_neq in Hne. now rewrite Hne.
    + destruct (String.eqb k' key); auto.
Qed.

Lemma In_assign key a o kv :
  In kv (assign key a o) -> In kv o \/ kv = (key, a).
Proof.
  induction o as [|[k b] t IH]; simpl.
  - intros [<-|[]]. now right.
  - destruct (String.eqb k key) eqn:E; simpl.
    + apply String.eqb_eq in E. subst k. intros [<-|H]; auto.
    + intros [<-|H]; auto. destruct (IH H); auto.
Qed.

Lemma lookup_In key o a : lookup key o = Some a -> In (key, a) o.
Proof.
  induction o as [|[k b] t IH]; simpl; [discriminate|].
  destruct (String.eqb k key) eqn:E.
  - apply String.eqb_eq in E. subst k. intros [= ->]. now left.
  - intros H. right. auto.
Qed.

Lemma In_has key a o : In (key, a) o -> has key o = true.
Proof.
  unfold has. induction o as [|[k b] t IH]; simpl; [contradiction|].
  intros [[= -> ->]|H].
  - now rewrite String.eqb_refl.
  - destruct (String.eqb k key); auto.
Qed.

Lemma lookup_None_keys key o : lookup key o = None <-> ~ In key (keys o).
Proof.
  unfold keys. induction o as [|[k b] t IH]; simpl.
  - tauto.
  - destruct (String.eqb k key) eqn:E.
    + apply String.eqb_eq in E. subst k. split; [discriminate|tauto].
    + apply String.eqb_neq in E. rewrite IH. tauto.
Qed.

Lemma lookup_NoDup key a o :
  NoDup (keys o) -> In (key, a) o -> lookup key o = Some a.
Proof.
  unfold keys. induction o as [|[k b] t IH]; simpl; [contradiction|].
  intros Hnd [[= -> ->]|H].
  - now rewrite String.eqb_refl.
  - inversion Hnd as [|? ? Hnotin Hnd']; subst.
    destruct (String.eqb k key) eqn:E.
    + apply String.eqb_eq in E. subst k.
      exfalso. apply Hnotin. now apply (in_map fst) in H.
    + auto.
Qed.
End ObjectFacts.

Lemma append_assoc (a b c : string) : ((a ++ b) ++ c = a ++ (b ++ c))%string.
Proof. induction a as [|x a IH]; simpl; congruence. Qed.

Lemma bind_OK (A B : Type) (c : result A) (k : A -> result B) b :
  bind c k = OK b -> exists a, c = OK a /\ k a = OK b.
Proof. destruct c; simpl; [eauto|discriminate]. Qed.

Section MonadFacts.
Variables A B : Type.


Lemma mapM_pure (f : A -> result B) (g : A -> B) l :
  Forall (fun x => f x = OK (g x)) l -> mapM f l = OK (map g l).
Proof.
  induction 1 as [|x t Hx _ IH]; simpl; auto.
  now rewrite Hx, IH.
Qed.

Lemma mapM_Forall2 (f : A -> result B) l ys :
  mapM f l = OK ys -> Forall2 (fun x y => f x = OK y) l ys.
Proof.
  revert ys. induction l as [|x t IH]; simpl; intros ys H.
  - injection H as <-. constructor.
  - apply bind_OK in H as (y & Hy & H).
    destruct (mapM f t) as [ys'|] eqn:E; simpl in H; [|discriminate].
    injection H as <-. constructor; auto.
Qed.

Lemma mapM_ext (f g : A -> result B) l :
  (forall x, In x l -> f x = g x) -> mapM f l = mapM g l.
Proof.
  induction l as [|x t IH]; simpl; intros H; auto.
  rewrite (H x), IH; auto.
Qed.

Lemma foldM_ext (f g : B -> A -> result B) l acc :
  (forall b x, In x l -> f b x = g b x) -> foldM f l acc = foldM g l acc.
Proof.
  revert acc. induction l as [|x t IH]; simpl; intros acc H; auto.
  rewrite (H acc x) by auto. destruct (g acc x); simpl; auto.
Qed.

Lemma foldM_succeeds (f : B -> A -> result B) l acc :
  (forall b x, In x l -> exists b', f b x = OK b') ->
  exists out, foldM f l acc = OK out.
Proof.
  revert acc. induction l as [|x t IH]; simpl; intros acc H; eauto.
  destruct (H acc x) as [b' Hb']; auto. rewrite Hb'. simpl. auto.
Qed.

Lemma mapM_Throw (f : A -> result B) l e :
  mapM f l = Throw e -> exists x, In x l /\ f x = Throw e.
Proof.
  induction l as [|x t IH]; simpl; [discriminate|].
  destruct (f x) eqn:Hx; simpl.
  - destruct (mapM f t); simpl; [discriminate|].
    intros [= <-]. destruct IH as (x' & ? & ?); eauto.
  - intros [= <-]. eauto.
Qed.

Lemma foldM_Throw (f : B -> A -> result B) l acc e :
  foldM f l acc = Throw e -> exists b x, In x l /\ f b x = Throw e.
Proof.
  revert acc. induction l as [|x t IH]; simpl; intros acc; [discriminate|].
  destruct (f acc x) eqn:Hx; simpl.
  - intros H. destruct (IH _ H) as (b & x' & ? & ?); eauto.
  - intros [= <-]. eauto.
Qed.

(** An invariant of the accumulator carries through a successful fold. *)
Lemma foldM_invariant (I : B -> Prop) (f : B -> A -> result B) l acc out :
  (forall b x b', In x l -> I b -> f b x = OK b' -> I b') ->
  I acc -> foldM f l acc = OK out -> I out.
Proof.
  revert acc. induction l as [|x t IH]; simpl; intros acc Hstep Hacc H.
  - now injection H as <-.
  - apply bind_OK in H as (b' & Hb' & H). eauto 6.
Qed.
End MonadFacts.

(** ** Facts about buildResource *)

(** After the identifier check, [buildResource] depends on the instance
    through its constructor. *)
Lemma buildResource_stages instance requireId :
  buildResource instance requireId =
    (missing <-
       (if truthy (effective_requireId requireId) then
          own <- hasOwnProperty instance "id" ;; OK (negb own)
        else OK false) ;;
     if (missing : bool) then Throw (JsError missing_id_message)
     else
       match constructor_of instance with
       | None => Throw TypeError
       | Some M =>
           relationships <-
             foldM (relationship_step instance (plural M))
                   (relationshipSchema M) [] ;;
           OK {| res_type := singular M;
                 res_id := get instance "id";
                 attributes :=
                   fold_left (attribute_step instance (properties (schema M)))
                             (own_keys instance) [];
                 res_relationships :=
                   match relationships with
                   | [] => None
                   | _ => Some relationships
                   end |}
       end).
Proof.
  unfold buildResource. fold (effective_requireId requireId).
  destruct instance; reflexivity.
Qed.

(** A model instance is an object whose constructor is not shadowed. *)
Lemma constructor_of_Some v M :
  constructor_of v = Some M ->
  exists ref props, v = VObject ref (Some M) props /\ has "constructor" props = false.
Proof.
  destruct v as [| | | | | |ref c props|eref emsg eprops]; try discriminate.
  simpl. destruct (has "constructor" props) eqn:E; [discriminate|].
  intros ->. eauto.
Qed.

(** A successful [buildResource] went through every stage. *)
Lemma buildResource_OK instance requireId resource :
  buildResource instance requireId = OK resource ->
  exists M rels,
    constructor_of instance = Some M /\
    foldM (relationship_step instance (plural M)) (relationshipSchema M) [] = OK rels /\
    relationships_of resource = rels /\
    res_type resource = singular M /\
    res_id resource = get instance "id" /\
    attributes resource =
      fold_left (attribute_step instance (properties (schema M)))
                (own_keys instance) [].
Proof.
  rewrite buildResource_stages. intros H.
  apply bind_OK in H as (missing & _ & H).
  destruct missing; [discriminate|].
  destruct (constructor_of instance) as [M|]; [|discriminate].
  apply bind_OK in H as (rels & Hrels & H).
  injection H as <-. exists M, rels. simpl.
  repeat split; auto.
  unfold relationships_of; simpl. now destruct rels.
Qed.

(** Building a relationship object raises nothing but the engine's
    [TypeError]. *)
Lemma relationship_object_Throw instance plural key keySchema e :
  relationship_object instance plural key keySchema = Throw e -> e = TypeError.
Proof.
  unfold relationship_object.
  destruct (get instance key) as [| | | | |ref items| |eref emsg eprops] eqn:En;
    try (destruct (truthy _); discriminate).
  destruct (mapM _ items) eqn:Em; simpl; [discriminate|].
  intros [= <-]. apply mapM_Throw in Em as (x & _ & Hx).
  destruct x; simpl in Hx; congruence.
Qed.

(** The method raises nothing but the engine's [TypeError]. *)
Lemma hasOwnProperty_Throw v key e : hasOwnProperty v key = Throw e -> e = TypeError.
Proof.
  destruct v; simpl; try congruence;
    destruct (has "hasOwnProperty" props); congruence.
Qed.

(** [buildResource] raises either the engine's [TypeError] or the
    missing-identifier error, the latter only when the identifier is required
    and is no own property. *)
Lemma buildResource_Throw instance requireId e :
  buildResource instance requireId = Throw e ->
  e = TypeError \/
  (e = JsError missing_id_message /\
   truthy (effective_requireId requireId) = true /\
   hasOwnProperty instance "id" = OK false).
Proof.
  rewrite buildResource_stages.
  assert (Hrest : forall e0,
             match constructor_of instance with
             | None => Throw TypeError
             | Some M =>
                 relationships <-
                   foldM (relationship_step instance (plural M))
                         (relationshipSchema M) [] ;;
                 OK {| res_type := singular M;
                       res_id := get instance "id";
                       attributes :=
                         fold_left
                           (attribute_step instance (properties (schema M)))
                           (own_keys instance) [];
                       res_relationships :=
                         match relationships with
                         | [] => None
                         | _ => Some relationships
                         end |}
             end = Throw e0 -> e0 = TypeError).
  { intros e0. destruct (constructor_of instance) as [M|]; [|congruence].
    destruct (foldM _ _ _) eqn:E; simpl; [discriminate|].
    intros [= <-]. apply foldM_Throw in E as (b & [k ks] & _ & E).
    unfold relationship_step in E. simpl in E.
    destruct (relationship_object _ _ k ks) eqn:Er; simpl in E; [discriminate|].
    injection E as <-. eapply relationship_object_Throw; eauto. }
  destruct (truthy (effective_requireId requireId)) eqn:Hreq; simpl.
  - destruct (hasOwnProperty instance "id") as [[|]|e'] eqn:Hown; simpl.
    + intros H. left. eauto.
    + intros [= <-]. right. auto.
    + intros [= <-]. left. eapply hasOwnProperty_Throw; eauto.
  - intros H. left. eauto.
Qed.

Lemma buildResource_requires_id instance requireId :
  truthy (effective_requireId requireId) = true ->
  hasOwnProperty instance "id" = OK false ->
  buildResource instance requireId = Throw (JsError missing_id_message).
Proof.
  unfold buildResource. fold (effective_requireId requireId).
  intros -> ->. reflexivity.
Qed.

(** *** The relationship object of one key *)

Section RelationshipObject.
Variables (instance : value) (plural key : string) (keySchema : RelationshipSchema).
Variable rel : Relationship.
Hypothesis Hrel : relationship_object instance plural key keySchema = OK rel.

(** [links] is decided by the truthiness of [instance.id]. *)
Lemma relationship_object_links :
  links rel =
    if truthy (get instance "id") then
      Some {| self := "/" ++ plural ++ "/" ++ ToString (get instance "id")
                        ++ "/relationships/" ++ key;
              related := "/" ++ plural ++ "/" ++ ToString (get instance "id")
                           ++ "/" ++ key |}
    else None.
Proof.
  revert Hrel. unfold relationship_object. cbv zeta.
  match goal with
  | |- context [if truthy (get instance "id") then ?a else ?b] =>
      generalize (if truthy (get instance "id") then a else b)
  end.
  intros lk.
  destruct (get instance key) as [| |b| n | s |ref items| |eref emsg eprops]; simpl;
    try (intros [= <-]; reflexivity).
  - destruct b; intros [= <-]; reflexivity.
  - destruct (Z.eqb n 0); intros [= <-]; reflexivity.
  - destruct (String.eqb s EmptyString); intros [= <-]; reflexivity.
  - destruct (mapM _ items); simpl; [|discriminate]. intros [= <-]. reflexivity.
Qed.

(** A falsy nested value that is no array leaves [data] unset. *)
Lemma relationship_object_no_data :
  isArray (get instance key) = false -> truthy (get instance key) = false ->
  data rel = None.
Proof.
  revert Hrel. unfold relationship_object.
  destruct (get instance key); try discriminate; simpl;
    intros H _ Ht; try rewrite Ht in H; injection H as <-; reflexivity.
Qed.

(** A truthy nested value that is no array gives one resource identifier,
    typed by the schema. *)
Lemma relationship_object_to_one :
  isArray (get instance key) = false -> truthy (get instance key) = true ->
  data rel =
    Some (ToOne {| ri_id := if truthy (get (get instance key) "id")
                            then get (get instance key) "id"
                            else get instance key;
                   ri_type := type keySchema |}).
Proof.
  revert Hrel. unfold relationship_object.
  destruct (get instance key) as [| |b| | | | |eref emsg eprops]; try discriminate; simpl;
    intros H _ Ht; try subst b; try rewrite Ht in H; injection H as <-;
    reflexivity.
Qed.

(** An array gives one resource identifier per element, typed by the
    schema. *)
Lemma relationship_object_to_many ref items :
  get instance key = VArray ref items ->
  exists l,
    data rel = Some (ToMany l) /\
    Forall2 (fun item i =>
               ri_type i = type keySchema /\
               ri_id i = if truthy (get item "id") then get item "id" else item)
            items l.
Proof.
  revert Hrel. unfold relationship_object. intros H E. rewrite E in H.
  apply bind_OK in H as (l & Hl & H). injection H as <-.
  exists l. split; [reflexivity|].
  apply mapM_Forall2 in Hl.
  eapply Forall2_impl; [|exact Hl].
  intros item i Hi. apply bind_OK in Hi as (id & Hid & Hi).
  injection Hi as <-. simpl.
  destruct item; simpl in Hid; try discriminate; injection Hid as <-; auto.
Qed.
End RelationshipObject.

(** *** The relationships map *)

Section RelationshipsMap.
Variables (instance : value) (plural : string).

(** After the [reduce], a key either was never visited, or holds the
    relationship object built from one of its schema entries. *)
Lemma relationships_lookup rs acc out key :
  foldM (relationship_step instance plural) rs acc = OK out ->
  (~ In key (keys rs) /\ lookup key out = lookup key acc) \/
  (exists keySchema rel,
      In (key, keySchema) rs /\
      relationship_object instance plural key keySchema = OK rel /\
      lookup key out = Some rel).
Proof.
  revert acc. induction rs as [|[k ks] t IH]; simpl; intros acc H.
  - injection H as <-. left. tauto.
  - apply bind_OK in H as (acc' & Hstep & H).
    unfold relationship_step in Hstep. simpl in Hstep.
    apply bind_OK in Hstep as (rel0 & Hrel0 & Hstep). injection Hstep as <-.
    destruct (IH _ H) as [[Hnotin Heq]|(ks' & rel & Hin & Hrel & Hout)].
    + destruct (String.eqb k key) eqn:E.
      * apply String.eqb_eq in E. subst k. right. exists ks, rel0.
        rewrite Heq, lookup_assign_same. auto.
      * apply String.eqb_neq in E. left. split; [tauto|].
        rewrite Heq. now apply lookup_assign_other.
    + right. exists ks', rel. auto.
Qed.

(** Every entry of the map was built by [relationship_object]. *)
Lemma relationships_entries rs out :
  foldM (relationship_step instance plural) rs [] = OK out ->
  Forall (fun kv => exists keySchema,
              In (fst kv, keySchema) rs /\
              relationship_object instance plural (fst kv) keySchema = OK (snd kv))
         out.
Proof.
  intros H.
  eapply foldM_invariant
    with (I := fun o => Forall (fun kv => exists keySchema,
                                    In (fst kv, keySchema) rs /\
                                    relationship_object instance plural (fst kv) keySchema
                                    = OK (snd kv)) o);
    [|constructor|exact H].
  intros b [k ks] b' Hin Hb Hstep. unfold relationship_step in Hstep. simpl in Hstep.
  apply bind_OK in Hstep as (rel0 & Hrel0 & Hstep). injection Hstep as <-.
  apply Forall_forall. intros kv Hkv.
  apply In_assign in Hkv as [Hkv| ->].
  - rewrite Forall_forall in Hb. auto.
  - simpl. eauto.
Qed.

(** A declared key has an entry in the map. *)
Lemma relationships_declared rs out key keySchema :
  foldM (relationship_step instance plural) rs [] = OK out ->
  In (key, keySchema) rs ->
  exists keySchema' rel,
    In (key, keySchema') rs /\
    relationship_object instance plural key keySchema' = OK rel /\
    lookup key out = Some rel.
Proof.
  intros H Hin. destruct (relationships_lookup _ _ key H) as [[Hnotin _]|Hd]; auto.
  exfalso. apply Hnotin. unfold keys. now apply (in_map fst) in Hin.
Qed.
End RelationshipsMap.

Lemma NoDup_keys_unique (A : Type) (o : list (string * A)) k a b :
  NoDup (keys o) -> In (k, a) o -> In (k, b) o -> a = b.
Proof.
  intros Hnd Ha Hb.
  apply lookup_NoDup in Ha, Hb; auto. congruence.
Qed.

(** *** The attributes map *)

(** One step of the [reduce] copies the key or leaves the object alone. *)
Lemma attribute_step_serializable instance schema obj key :
  attribute_step instance schema obj key =
    if serializable schema key then assign key (get instance key) obj else obj.
Proof.
  unfold attribute_step, serializable, put.
  destruct (schema_entry schema key) as [ks|]; [|now rewrite andb_false_r].
  destruct (String.eqb key "__proto__"); simpl; destruct (public ks) as [[|]|];
    reflexivity.
Qed.

Lemma attributes_lookup instance schema ks acc key :
  lookup key (fold_left (attribute_step instance schema) ks acc) =
    if existsb (String.eqb key) ks && serializable schema key
    then Some (get instance key)
    else lookup key acc.
Proof.
  revert acc. induction ks as [|k t IH]; simpl; intros acc; auto.
  rewrite IH. destruct (existsb (String.eqb key) t && serializable schema key) eqn:E.
  - apply andb_prop in E as [E1 E2]. now rewrite E1, E2, orb_true_r.
  - rewrite attribute_step_serializable.
    destruct (String.eqb key k) eqn:Ek; simpl.
    + apply String.eqb_eq in Ek. subst k.
      destruct (serializable schema key); auto using lookup_assign_same.
    + rewrite E. apply String.eqb_neq in Ek.
      destruct (serializable schema k); auto.
      apply lookup_assign_other; congruence.
Qed.

(** A value with a truthy [id] has an own [id] property. *)
Lemma truthy_id_own v :
  truthy (get v "id") = true -> hasOwnProperty v "id" <> OK false.
Proof.
  destruct v; try discriminate; simpl; unfold has;
    destruct (lookup "hasOwnProperty" props); try discriminate;
    destruct (lookup "id" props); discriminate.
Qed.

(** ** Facts about buildCompoundDocuments *)

(** The function satisfies the recursive equation of the source: for each
    relationship key, [nested = instance[key]] is handed to the body of the
    [forEach]. *)
Lemma buildCompoundDocuments_eq instance M :
  constructor_of instance = Some M ->
  buildCompoundDocuments instance =
    (included <-
       foldM (fun included (entry : string * RelationshipSchema) =>
                collect buildCompoundDocuments included
                        (get instance (fst entry)))
             (relationshipSchema M) [] ;;
     OK (flatten (filter_defined included))).
Proof.
  intros HM. apply constructor_of_Some in HM as (ref & props & -> & Hc).
  cbn [buildCompoundDocuments]. rewrite Hc. clear Hc. f_equal.
  apply foldM_ext. intros included [key ks] _. cbn [fst get].
  induction props as [|[k x] t IH]; cbn [lookup].
  - reflexivity.
  - destruct (String.eqb k key); [reflexivity|exact IH].
Qed.

Lemma buildCompoundDocuments_not_instance v :
  constructor_of v = None -> buildCompoundDocuments v = Throw TypeError.
Proof.
  destruct v as [| | | | | |ref [M|] props|eref emsg eprops]; simpl; try congruence.
  destruct (has "constructor" props); congruence.
Qed.

(** Each step of the [forEach] only appends to [included]. *)
Lemma collect_appends rec included nested out :
  collect rec included nested = OK out -> exists more, out = included ++ more.
Proof.
  unfold collect. destruct nested as [| | | | |ref items| |eref emsg eprops];
    try (destruct (_ && _);
         [intros H; apply bind_OK in H as (r & _ & H); injection H as <-
         |intros [= <-]; exists []; rewrite app_nil_r]; eauto; fail).
  intros H. apply bind_OK in H as (deep & _ & H).
  apply bind_OK in H as (direct & _ & H). injection H as <-.
  exists (deep ++ direct). now rewrite app_assoc.
Qed.

Lemma forEach_appends rec instance rs acc out :
  foldM (fun included (entry : string * RelationshipSchema) =>
           collect rec included (get instance (fst entry))) rs acc = OK out ->
  exists more, out = acc ++ more.
Proof.
  revert acc. induction rs as [|e t IH]; simpl; intros acc H.
  - injection H as <-. exists []. now rewrite app_nil_r.
  - apply bind_OK in H as (acc' & Hstep & H).
    apply collect_appends in Hstep as [m1 ->].
    apply IH in H as [m2 ->]. exists (m1 ++ m2). now rewrite app_assoc.
Qed.

Section FlattenFacts.
Variable A : Type.

Lemma filter_defined_app (l1 l2 : list (option (Nested A))) :
  filter_defined (l1 ++ l2) = filter_defined l1 ++ filter_defined l2.
Proof.
  induction l1 as [|[x|] t IH]; simpl; auto. now rewrite IH.
Qed.

Lemma In_filter_defined (x : Nested A) l :
  In (Some x) l <-> In x (filter_defined l).
Proof.
  induction l as [|[y|] t IH]; simpl; try tauto.
  - rewrite <- IH. split; intros [H|H]; auto; left; congruence.
  - rewrite <- IH. split; auto. intros [H|H]; [discriminate|auto].
Qed.

Lemma flatten_app (l1 l2 : list (Nested A)) :
  flatten (l1 ++ l2) = flatten l1 ++ flatten l2.
Proof. unfold flatten. apply flat_map_app. Qed.

Lemma flatten_elems (l : list A) : flatten (map Elem l) = l.
Proof. unfold flatten. induction l; simpl; congruence. Qed.

Lemma flatten_arrays (ls : list (list A)) :
  flatten (map (fun l => Arr (map Elem l)) ls) = concat ls.
Proof.
  unfold flatten. induction ls as [|l t IH]; simpl; auto.
  fold (flatten (map Elem l)). now rewrite flatten_elems, IH.
Qed.

Lemma In_flatten_elem (a : A) arr : In (Elem a) arr -> In a (flatten arr).
Proof.
  unfold flatten. intros H. apply in_flat_map. exists (Elem a). simpl. auto.
Qed.

Lemma In_flatten_array (a : A) l arr :
  In (Arr (map Elem l)) arr -> In a l -> In a (flatten arr).
Proof.
  unfold flatten. intros H Ha. apply in_flat_map. exists (Arr (map Elem l)).
  split; auto. cbn [flatten_val]. fold (flatten (map Elem l)).
  now rewrite flatten_elems.
Qed.
End FlattenFacts.

(** ** Facts about toJSON *)

(** [toJSON] on a truthy input: primary data first, then the compound
    documents, then assembly. *)
Lemma toJSON_truthy instance options :
  truthy instance = true ->
  toJSON instance options =
    (data <- primary instance options ;;
     raw <- gathered instance ;;
     OK (render options
           {| doc_data := data;
              included := match dedupe raw with
                          | [] => None
                          | l => Some l
                          end |})).
Proof.
  intros Ht. unfold toJSON, primary, gathered, render.
  assert (Hd : forall raw : list Resource,
             match raw with [] => None | _ :: _ => Some (dedupe raw) end =
             match dedupe raw with [] => None | l => Some l end).
  { intros [|x t]; [reflexivity|].
    unfold dedupe. cbn [fold_left]. change (dedupe_step [] x) with [x].
    assert (Hne : forall l acc, acc <> [] -> fold_left dedupe_step l acc <> []).
    { induction l as [|y l IH]; simpl; auto. intros acc Hacc. apply IH.
      unfold dedupe_step. destruct (negb _); auto.
      destruct acc; simpl; congruence. }
    specialize (Hne t [x]).
    destruct (fold_left dedupe_step t [x]);
      [exfalso; apply Hne; congruence|reflexivity]. }
  destruct instance as [| |b|n|s|ref elements|ref c props|eref emsg eprops];
    try discriminate; cbn [truthy negb] in *; try rewrite Ht; cbn [negb bind fst snd].
  4: { destruct (mapiM _ elements) as [data|]; cbn [bind]; [|reflexivity].
       destruct (mapM buildCompoundDocuments elements) as [docs|]; cbn [bind fst snd];
         [|reflexivity].
       now rewrite flatten_arrays, Hd. }
  all: destruct (buildResource _ _) as [data|]; cbn [bind]; [|reflexivity].
  all: destruct (buildCompoundDocuments _) as [raw|]; cbn [bind fst snd];
    [|reflexivity].
  all: now rewrite Hd.
Qed.

(** ** Facts about the removal of duplicate documents *)

Lemma strict_equals_refl v : strict_equals v v = true.
Proof.
  destruct v as [| |b|n|s|ref items|ref c props|eref emsg eprops]; simpl; auto.
  - now destruct b.
  - apply Z.eqb_refl.
  - apply String.eqb_refl.
  - apply Nat.eqb_refl.
  - apply Nat.eqb_refl.
  - apply Nat.eqb_refl.
Qed.

Lemma strict_equals_sym a b : strict_equals a b = strict_equals b a.
Proof.
  destruct a, b; simpl; auto using Z.eqb_sym, String.eqb_sym, Nat.eqb_sym.
  now destruct b, b0.
Qed.

Lemma same_document_refl r : same_document r r = true.
Proof.
  unfold same_document. now rewrite String.eqb_refl, strict_equals_refl.
Qed.

Lemma same_document_sym a b : same_document a b = same_document b a.
Proof.
  unfold same_document. now rewrite String.eqb_sym, strict_equals_sym.
Qed.

Lemma subsequence_In (A : Type) (sub l : list A) x :
  subsequence sub l -> In x sub -> In x l.
Proof. induction 1; simpl; intuition. Qed.

Lemma subsequence_nil_l (A : Type) (l : list A) : subsequence [] l.
Proof. induction l; constructor; auto. Qed.

Lemma subsequence_app (A : Type) (p sub l : list A) :
  subsequence sub l -> subsequence (p ++ sub) (p ++ l).
Proof. intros H. induction p; simpl; auto. now constructor. Qed.

Section Dedupe.
(** Running the [reduce] from [arr] keeps [arr] and appends a subsequence
    of the remaining input. *)
Lemma reduce_appends l arr :
  exists kept, fold_left dedupe_step l arr = arr ++ kept /\ subsequence kept l.
Proof.
  revert arr. induction l as [|x t IH]; simpl; intros arr.
  - exists []. rewrite app_nil_r. split; auto. constructor.
  - unfold dedupe_step at 2. destruct (negb _).
    + destruct (IH (arr ++ [x])) as (kept & -> & Hsub).
      exists (x :: kept). rewrite <- app_assoc. split; auto. now constructor.
    + destruct (IH arr) as (kept & -> & Hsub).
      exists kept. split; auto. now constructor.
Qed.

Lemma reduce_distinct l arr :
  ForallOrdPairs (fun a b => same_document a b = false) arr ->
  ForallOrdPairs (fun a b => same_document a b = false) (fold_left dedupe_step l arr).
Proof.
  revert arr. induction l as [|x t IH]; simpl; intros arr Harr; auto.
  apply IH. unfold dedupe_step. destruct (existsb _ arr) eqn:E; simpl; auto.
  assert (Hx : Forall (fun doc => same_document doc x = false) arr).
  { apply Forall_forall. intros doc Hdoc.
    destruct (same_document doc x) eqn:Es; auto.
    assert (existsb (fun doc => same_document doc x) arr = true)
      by (apply existsb_exists; eauto).
    congruence. }
  clear E. induction Harr as [|a l Ha _ IHl]; simpl.
  - repeat constructor.
  - inversion Hx; subst. constructor; auto.
    apply Forall_app. split; auto.
Qed.

Lemma reduce_represents l arr x :
  In x arr \/ In x l ->
  exists y, In y (fold_left dedupe_step l arr) /\ same_document y x = true.
Proof.
  revert arr. induction l as [|z t IH]; simpl; intros arr [H|H].
  - exists x. auto using same_document_refl.
  - contradiction.
  - apply IH. left. unfold dedupe_step. destruct (negb _); auto. apply in_or_app; auto.
  - destruct H as [->|H]; [|apply IH; auto].
    unfold dedupe_step at 2. destruct (existsb _ arr) eqn:E; simpl.
    + apply existsb_exists in E as (y & Hy & Hs).
      destruct (reduce_appends t arr) as (kept & -> & _).
      exists y. split; auto. apply in_or_app; auto.
    + apply IH. left. apply in_or_app. simpl. auto.
Qed.

Lemma dedupe_subsequence l : subsequence (dedupe l) l.
Proof. destruct (reduce_appends l []) as (kept & H & Hsub). unfold dedupe. fold dedupe_step. now rewrite H. Qed.

Lemma dedupe_distinct l :
  ForallOrdPairs (fun a b => same_document a b = false) (dedupe l).
Proof. apply reduce_distinct. constructor. Qed.

Lemma dedupe_keeps_first l1 x l2 :
  (forall y, In y l1 -> same_document y x = false) ->
  In x (dedupe (l1 ++ x :: l2)).
Proof.
  intros Hfirst. unfold dedupe. fold dedupe_step. rewrite fold_left_app. simpl.
  destruct (reduce_appends l1 []) as (kept & -> & Hsub). simpl.
  assert (E : existsb (fun doc => same_document doc x) kept = false).
  { destruct (existsb _ kept) eqn:E; auto.
    apply existsb_exists in E as (y & Hy & Hs).
    rewrite Hfirst in Hs; [discriminate|]. eapply subsequence_In; eauto. }
  unfold dedupe_step at 2. rewrite E. simpl.
  destruct (reduce_appends l2 (kept ++ [x])) as (kept' & -> & _).
  apply in_or_app. left. apply in_or_app. simpl. auto.
Qed.

Lemma dedupe_represents l x :
  In x l -> exists y, In y (dedupe l) /\ same_document y x = true.
Proof. intros H. apply reduce_represents. auto. Qed.
End Dedupe.

Lemma ForallOrdPairs_nth (A : Type) (R : A -> A -> Prop) l :
  ForallOrdPairs R l ->
  forall i j x y, i < j -> nth_error l i = Some x -> nth_error l j = Some y -> R x y.
Proof.
  induction 1 as [|a l Ha _ IH]; intros i j x y Hlt Hi Hj.
  - destruct i; discriminate.
  - destruct j as [|j]; [lia|]. simpl in Hj. destruct i as [|i]; simpl in Hi.
    + injection Hi as <-. rewrite Forall_forall in Ha. apply Ha.
      eapply nth_error_In; eauto.
    + apply (IH i j); auto. lia.
Qed.

(** ** What the collector and toJSON can raise *)

Unset Implicit Arguments.

Lemma buildResource_identified_Throw x e :
  identified x = true ->
  buildResource x VUndefined = Throw e -> e = TypeError.
Proof.
  unfold identified. intros Hid H. apply andb_prop in Hid as [_ Hid].
  apply buildResource_Throw in H as [H|(_ & _ & Hown)]; auto.
  exfalso. exact (truthy_id_own _ Hid Hown).
Qed.

(** An exception of one step of the [forEach] is a [TypeError] or comes out
    of a recursive call on an array element. *)
Lemma collect_Throw rec included nested e :
  collect rec included nested = Throw e ->
  e = TypeError \/
  exists ref items y, nested = VArray ref items /\ In y items /\ rec y = Throw e.
Proof.
  unfold collect.
  destruct nested as [| | | | |ref items|ref c props|eref emsg eprops].
  6: {
    destruct (mapM (recurse_item rec) items) as [deep|e'] eqn:Edeep; simpl.
    - destruct (mapM include_item items) as [direct|e'] eqn:Edirect; simpl;
        [discriminate|].
      intros [= <-]. apply mapM_Throw in Edirect as (x & _ & Hx).
      unfold include_item in Hx.
      destruct (truthy x && truthy (get x "id")) eqn:Eid; [|discriminate].
      destruct (buildResource x VUndefined) eqn:Eb; [discriminate|].
      injection Hx as <-. left. eapply buildResource_identified_Throw; eauto.
    - intros [= <-]. apply mapM_Throw in Edeep as (y & Hy & Hrec).
      unfold recurse_item in Hrec.
      destruct (truthy y); [|discriminate].
      destruct (constructor_of y); [|discriminate].
      destruct (rec y) eqn:Ey; [discriminate|]. injection Hrec as <-.
      right. exists ref, items, y. auto. }
  all: match goal with
       | |- (if truthy ?v && _ then _ else _) = _ -> _ =>
           destruct (truthy v && truthy (get v "id")) eqn:Eid; [|discriminate];
           destruct (buildResource v VUndefined) eqn:Eb; [discriminate|];
           intros [= <-]; left; eapply buildResource_identified_Throw; eauto
       end.
Qed.

Lemma buildCompoundDocuments_Throw instance e :
  buildCompoundDocuments instance = Throw e -> e = TypeError.
Proof.
  revert e.
  enough (H : (forall e, buildCompoundDocuments instance = Throw e -> e = TypeError) /\
              (forall ref items, instance = VArray ref items ->
                 Forall (fun item =>
                           forall e, buildCompoundDocuments item = Throw e ->
                                     e = TypeError) items)) by apply H.
  induction instance as [| | b | n | s | ref items IH | ref c props IH|eref emsg eprops]
    using value_nested_ind; split; try discriminate;
    try (simpl; congruence).
  - intros ref' items' [= _ <-].
    eapply Forall_impl; [|exact IH]. intros a [Ha _]. exact Ha.
  - intros e He.
    destruct (constructor_of (VObject ref c props)) as [M|] eqn:HM;
      [|rewrite (@buildCompoundDocuments_not_instance _ HM) in He; congruence].
    rewrite (@buildCompoundDocuments_eq _ _ HM) in He.
    destruct (foldM _ _ _) as [included|e'] eqn:Efold in He; simpl in He;
      [discriminate|].
    injection He as <-.
    apply foldM_Throw in Efold as (inc & [key ks] & _ & Hstep). cbn [fst] in Hstep.
    apply collect_Throw in Hstep as [He|(aref & items & y & Hget & Hy & Hrec)];
      [exact He|].
    cbn [get] in Hget.
    destruct (lookup key props) as [v|] eqn:E; [|discriminate]. subst v.
    apply lookup_In in E. rewrite Forall_forall in IH.
    pose proof (proj2 (IH _ E) _ _ eq_refl) as Hitems.
    rewrite Forall_forall in Hitems. eauto.
Qed.

Lemma mapiM_from_Throw (A B : Type) (f : A -> nat -> result B) l i e :
  mapiM_from f i l = Throw e -> exists x j, In x l /\ f x j = Throw e.
Proof.
  revert i. induction l as [|x t IH]; simpl; intros i; [discriminate|].
  destruct (f x i) eqn:Hx; simpl.
  - destruct (mapiM_from f (S i) t) eqn:Ht; simpl; [discriminate|].
    intros [= <-]. destruct (IH _ Ht) as (x' & j & ? & ?). eauto.
  - intros [= <-]. eauto.
Qed.

Lemma gathered_Throw instance e : gathered instance = Throw e -> e = TypeError.
Proof.
  unfold gathered. destruct instance as [| | | | |ref elements|ref c props|eref emsg eprops];
    try apply buildCompoundDocuments_Throw.
  destruct (mapM buildCompoundDocuments elements) eqn:E; simpl; [discriminate|].
  intros [= <-]. apply mapM_Throw in E as (x & _ & Hx).
  exact (buildCompoundDocuments_Throw x _ Hx).
Qed.

Lemma primary_Throw instance options e :
  primary instance options = Throw e ->
  e = TypeError \/ e = JsError missing_id_message.
Proof.
  unfold primary.
  assert (Hone : forall x rid e0, buildResource x rid = Throw e0 ->
                   e0 = TypeError \/ e0 = JsError missing_id_message).
  { intros x rid e0 H. apply buildResource_Throw in H as [H|(H & _)]; auto. }
  destruct instance as [| | | | |ref elements|ref c props|eref emsg eprops];
    try (destruct (buildResource _ _) eqn:E; simpl; [discriminate|];
         intros [= <-]; eapply Hone; eauto; fail).
  unfold mapiM. destruct (mapiM_from _ 0 elements) eqn:E; simpl; [discriminate|].
  intros [= <-]. apply mapiM_from_Throw in E as (x & j & _ & Hx). eauto.
Qed.

Set Implicit Arguments.

Lemma Forall2_In_l (A B : Type) (R : A -> B -> Prop) l l' x :
  Forall2 R l l' -> In x l -> exists y, In y l' /\ R x y.
Proof.
  induction 1 as [|a b l l' Hab _ IH]; simpl; [contradiction|].
  intros [->|Hx]; [eauto|]. destruct (IH Hx) as (y & ? & ?). eauto.
Qed.

(** ** When a resource object can be built *)

Lemma foldM_OK_each (A B : Type) (f : B -> A -> result B) l acc out :
  foldM f l acc = OK out -> forall x, In x l -> exists b b', f b x = OK b'.
Proof.
  revert acc. induction l as [|a t IH]; simpl; intros acc H x Hx; [contradiction|].
  apply bind_OK in H as (b' & Hb' & H).
  destruct Hx as [<-|Hx]; eauto.
Qed.

(** One relationship object is built exactly when [item.id] can be read on
    every element of an array. *)
Lemma relationship_object_readable instance plural key keySchema :
  (exists rel, relationship_object instance plural key keySchema = OK rel) <->
  readable_elements (get instance key) = true.
Proof.
  unfold relationship_object, readable_elements. cbv zeta.
  match goal with
  | |- context [if truthy (get instance "id") then ?a else ?b] =>
      generalize (if truthy (get instance "id") then a else b)
  end.
  intros lk.
  destruct (get instance key) as [| |b|n|s|ref items|ref c props|eref emsg eprops];
    try (split; [reflexivity|]; intros _; destruct (truthy _); eauto; fail).
  split.
  - intros [rel H]. apply bind_OK in H as (l & Hl & _).
    apply mapM_Forall2 in Hl. apply forallb_forall. intros item Hitem.
    destruct (Forall2_In_l _ Hl Hitem) as (i & _ & Hi).
    destruct item; try reflexivity; discriminate.
  - intros Hok. rewrite forallb_forall in Hok.
    rewrite mapM_pure
      with (g := fun item => {| ri_id := if truthy (get item "id")
                                          then get item "id" else item;
                                ri_type := type keySchema |}).
    + simpl. eauto.
    + apply Forall_forall. intros item Hin. specialize (Hok _ Hin).
      destruct item; try discriminate; reflexivity.
Qed.

Lemma buildResource_ready instance requireId :
  resource_ready instance = true ->
  truthy (effective_requireId requireId) = false \/
  hasOwnProperty instance "id" = OK true ->
  exists resource, buildResource instance requireId = OK resource.
Proof.
  unfold resource_ready. intros Hready Hid.
  destruct (constructor_of instance) as [M|] eqn:HM; [|discriminate].
  rewrite forallb_forall in Hready.
  unfold buildResource. fold (effective_requireId requireId).
  assert (Hmissing :
            (if truthy (effective_requireId requireId)
             then own <- hasOwnProperty instance "id" ;; OK (negb own)
             else OK false) = OK false).
  { destruct Hid as [-> | ->]; [reflexivity|].
    destruct (truthy _); reflexivity. }
  rewrite Hmissing. cbn [bind]. rewrite HM.
  destruct (foldM_succeeds
              (relationship_step instance (plural M))
              (relationshipSchema M) []) as [rels Hrels].
  - intros b [k ks] Hin. unfold relationship_step. simpl fst. simpl snd.
    destruct (proj2 (relationship_object_readable instance (plural M) k ks)
                (Hready _ Hin)) as [rel ->].
    simpl. eauto.
  - rewrite Hrels. destruct instance; try discriminate; simpl; eauto.
Qed.

Lemma buildResource_OK_ready instance requireId resource :
  buildResource instance requireId = OK resource -> resource_ready instance = true.
Proof.
  intros H. apply buildResource_OK in H as (M & rels & HM & Hrels & _).
  unfold resource_ready. rewrite HM. apply forallb_forall. intros [k ks] Hin.
  destruct (foldM_OK_each _ _ _ Hrels _ Hin) as (b & b' & Hstep).
  unfold relationship_step in Hstep. cbn [fst snd] in *.
  apply bind_OK in Hstep as (rel & Hrel & _).
  apply (proj1 (relationship_object_readable instance (plural M) k ks)). eauto.
Qed.

(** ** When the collector returns *)






(** ** More about the removal of duplicates *)

Lemma strict_equals_trans a b c :
  strict_equals a b = true -> strict_equals b c = true -> strict_equals a c = true.
Proof.
  destruct a, b; simpl; try discriminate; destruct c; simpl; try discriminate;
    intros H1 H2.
  - reflexivity.
  - reflexivity.
  - apply Bool.eqb_prop in H1, H2. subst. apply Bool.eqb_reflx.
  - apply Z.eqb_eq in H1, H2. subst. apply Z.eqb_refl.
  - apply String.eqb_eq in H1, H2. subst. apply String.eqb_refl.
  - apply Nat.eqb_eq in H1, H2. subst. apply Nat.eqb_refl.
  - apply Nat.eqb_eq in H1, H2. subst. apply Nat.eqb_refl.
  - apply Nat.eqb_eq in H1, H2. subst. apply Nat.eqb_refl.
Qed.

Lemma strict_equals_primitive a b :
  is_primitive a = true -> (strict_equals a b = true <-> a = b).
Proof.
  intros Hp. split.
  - destruct a, b; simpl; try discriminate; intros H; try reflexivity.
    + apply Bool.eqb_prop in H. now subst.
    + apply Z.eqb_eq in H. now subst.
    + apply String.eqb_eq in H. now subst.
  - intros <-. apply strict_equals_refl.
Qed.

Lemma same_document_pair a b :
  same_document a b = true <->
  res_type a = res_type b /\ strict_equals (res_id a) (res_id b) = true.
Proof.
  unfold same_document. rewrite andb_true_iff, String.eqb_eq. tauto.
Qed.

Lemma same_document_trans a b c :
  same_document a b = true -> same_document b c = true -> same_document a c = true.
Proof.
  rewrite !same_document_pair. intros [T1 I1] [T2 I2]. split; [congruence|].
  eapply strict_equals_trans; eauto.
Qed.

(** An entry has a duplicate among the kept entries exactly when it has one
    in the input. *)
Lemma existsb_dedupe l x :
  existsb (fun doc => same_document doc x) (dedupe l)
  = existsb (fun doc => same_document doc x) l.
Proof.
  destruct (existsb (fun doc => same_document doc x) l) eqn:E.
  - apply existsb_exists in E as (y & Hy & Hs).
    destruct (dedupe_represents l y Hy) as (y' & Hy' & Hs').
    apply existsb_exists. exists y'. split; [exact Hy'|].
    eapply same_document_trans; eauto.
  - destruct (existsb _ (dedupe l)) eqn:E'; [|reflexivity].
    apply existsb_exists in E' as (y & Hy & Hs).
    assert (existsb (fun doc => same_document doc x) l = true).
    { apply existsb_exists. exists y. split; [|exact Hs].
      eapply subsequence_In; [apply dedupe_subsequence|exact Hy]. }
    congruence.
Qed.

Lemma dedupe_snoc l x :
  dedupe (l ++ [x]) =
    if existsb (fun doc => same_document doc x) l then dedupe l else dedupe l ++ [x].
Proof.
  rewrite <- existsb_dedupe. unfold dedupe. rewrite fold_left_app. simpl.
  unfold dedupe_step at 1. fold (dedupe l).
  destruct (existsb _ (dedupe l)); reflexivity.
Qed.

(** ** The two conditions, spelled out *)

Lemma resource_ready_elements v :
  resource_ready v = true <->
  exists M,
    constructor_of v = Some M /\
    forall key keySchema ref items item,
      In (key, keySchema) (relationshipSchema M) ->
      get v key = VArray ref items -> In item items -> is_nullish item = false.
Proof.
  unfold resource_ready. destruct (constructor_of v) as [M|].
  - rewrite forallb_forall. split.
    + intros H. exists M. split; [reflexivity|].
      intros key ks ref items item Hin Hget Hitem.
      specialize (H _ Hin). cbn [fst] in H. rewrite Hget in H. simpl in H.
      rewrite forallb_forall in H. specialize (H _ Hitem).
      now destruct (is_nullish item).
    + intros (M' & [= <-] & H) [key ks] Hin. cbn [fst].
      unfold readable_elements.
      destruct (get v key) as [| | | | |ref items| |] eqn:Hget; try reflexivity.
      apply forallb_forall. intros item Hitem. cbv beta.
      pose proof (H _ _ _ _ _ Hin Hget Hitem) as Hn.
      destruct item; try discriminate; reflexivity.
  - split; [discriminate|]. intros (M & [=] & _).
Qed.

Lemma own_id_absent v : hasOwnProperty v "id" = OK false -> get v "id" = VUndefined.
Proof.
  destruct v; simpl; try reflexivity; unfold has;
    destruct (lookup "hasOwnProperty" props); try discriminate;
    destruct (lookup "id" props); (discriminate || reflexivity).
Qed.

(** ** The resource object of a well-formed instance *)

Lemma well_formed_instance v :
  well_formed v = true ->
  exists M,
    constructor_of v = Some M /\
    forall key keySchema,
      In (key, keySchema) (relationshipSchema M) ->
      nested_ok well_formed (get v key) = true.
Proof.
  destruct v as [| | | | | |ref [M|] props|eref emsg eprops]; try discriminate.
  cbn [well_formed constructor_of]. intros Hwf.
  apply andb_prop in Hwf as [Hc Hwf].
  destruct (has "constructor" props); [discriminate|].
  exists M. split; [reflexivity|].
  intros key ks Hin. cbn [get].
  destruct (lookup key props) as [x|] eqn:E; [|reflexivity].
  apply lookup_In in E. rewrite forallb_forall in Hwf.
  specialize (Hwf _ E). simpl in Hwf.
  now rewrite (In_has _ _ _ Hin) in Hwf.
Qed.

Lemma well_formed_ready v :
  well_formed v = true -> resource_ready v = true.
Proof.
  intros Hwf. destruct (well_formed_instance _ Hwf) as (M & HM & Hnested).
  unfold resource_ready. rewrite HM. apply forallb_forall.
  intros [key ks] Hin. cbn [fst]. specialize (Hnested _ _ Hin).
  unfold readable_elements, nested_ok in *.
  destruct (get _ key) as [| | | | |r items| |]; try reflexivity.
  rewrite forallb_forall in *. intros item Hitem. specialize (Hnested _ Hitem).
  destruct item; try discriminate; reflexivity.
Qed.

Lemma buildResource_succeeds instance requireId :
  well_formed instance = true ->
  truthy (effective_requireId requireId) = false \/
  hasOwnProperty instance "id" = OK true ->
  exists resource, buildResource instance requireId = OK resource.
Proof.
  intros Hwf Hid. apply buildResource_ready; [now apply well_formed_ready|exact Hid].
Qed.

(** * The specification's properties *)

(** ** The null document *)

(** C9. [toJSON] returns the null document for every falsy [instance], also
    for [0], the empty string and [false]: the text [null] when [stringify]
    is set and the native [null] otherwise.  No resource is built: building
    one from such an input would have raised an exception. *)
Theorem toJSON_falsy_input_is_null instance options :
  truthy instance = false ->
  toJSON instance options
    = OK (if stringify options then Text "null" else Native None) /\
  exists e, buildResource instance (VBool (requireId options)) = Throw e.
Proof.
  intros Hfalsy. split.
  - unfold toJSON.
    destruct instance; simpl in Hfalsy; try discriminate;
      cbn [truthy]; try rewrite Hfalsy; reflexivity.
  - destruct instance as [| |b|n|s| | |eref emsg eprops]; try discriminate;
      destruct (requireId options); cbv; eauto.
Qed.

Lemma toJSON_falsy_input_is_null_witness :
  truthy (VNumber 0) = false /\
  toJSON (VNumber 0) default_options = OK (Text "null") /\
  toJSON (VString EmptyString) {| stringify := false; requireId := true |}
    = OK (Native None).
Proof.
  split; [reflexivity|]. split.
  - apply (toJSON_falsy_input_is_null (VNumber 0) default_options). reflexivity.
  - apply (toJSON_falsy_input_is_null (VString EmptyString)
             {| stringify := false; requireId := true |}).
    reflexivity.
Defined.

(** ** Error documents *)

(** C8. [errorsToJSON] turns a scalar into a one-element sequence, maps each
    value to an error object whose [detail] is its [message] and whose
    [status] is its [status], both read as the engine reads a property, and
    wraps the sequence as [{ errors }]: as a structured value, or as the
    text of that value.  A value that has no [message] (or [status])
    property gets [undefined] there instead of a failure, and the member is
    left out of the text; an instance of [Error] always has a [message], the
    empty string when none was given. *)
Theorem errorsToJSON_maps_each_error errors stringify :
  Forall (fun error => is_nullish error = false)
         (match errors with VArray _ items => items | _ => [errors] end) ->
  (isArray errors = false ->
   errorsToJSON errors stringify = OK (render_errors stringify [error_object errors])) /\
  (forall ref items, errors = VArray ref items ->
   errorsToJSON errors stringify
     = OK (render_errors stringify (map error_object items))) /\
  (forall objects,
     render_errors false objects = Native {| errors := objects |} /\
     render_errors true objects =
       Text ("{" ++ dquote ++ "errors" ++ dquote ++ ":["
             ++ String.concat "," (map (fun o => JSON_stringify (json_of_error o)) objects)
             ++ "]}")) /\
  (forall error,
     detail (error_object error) = get error "message" /\
     status (error_object error) = get error "status") /\
  (forall error,
     has_property error "message" = false ->
     detail (error_object error) = VUndefined /\
     lookup "detail" (members_of (json_of_error (error_object error))) = None) /\
  (forall error,
     has_property error "status" = false ->
     status (error_object error) = VUndefined /\
     lookup "status" (members_of (json_of_error (error_object error))) = None) /\
  (forall ref c props x,
     lookup "message" props = Some x ->
     detail (error_object (VObject ref c props)) = x) /\
  (forall ref message props,
     detail (error_object (VError ref (Some message) props)) = message) /\
  (forall ref props,
     lookup "message" props = None ->
     detail (error_object (VError ref None props)) = VString EmptyString).
Proof.
  intros Hread.
  assert (Hmap : forall items,
             Forall (fun error => is_nullish error = false) items ->
             mapM (fun error =>
                     message <- get_prop error "message" ;;
                     status <- get_prop error "status" ;;
                     OK {| detail := message; status := status |}) items
             = OK (map error_object items)).
  { intros items Hitems. apply mapM_pure.
    eapply Forall_impl; [|exact Hitems].
    intros error Hn. destruct error; try discriminate; reflexivity. }
  assert (Hnone : forall error key,
             key = "message" \/ key = "status" ->
             has_property error key = false -> get error key = VUndefined).
  { intros error key Hkey. destruct error; simpl; try reflexivity.
    - unfold has. destruct (lookup key props); [discriminate|reflexivity].
    - destruct Hkey as [-> | ->]; simpl; [discriminate|].
      unfold has. destruct (lookup "status" props); [discriminate|reflexivity]. }
  split; [|split; [|split; [|split; [|split; [|split; [|split; [|split]]]]]]].
  - intros Hscalar. unfold errorsToJSON.
    destruct errors; try discriminate; rewrite (Hmap _ Hread); reflexivity.
  - intros ref items ->. unfold errorsToJSON. rewrite (Hmap _ Hread). reflexivity.
  - intros objects. split; [reflexivity|].
    unfold render_errors. cbn [JSON_stringify map String.concat].
    rewrite map_map.
    generalize (String.concat ","
                  (map (fun o => JSON_stringify (json_of_error o)) objects)).
    intros text. f_equal. unfold dquote, quote. simpl.
    now rewrite !append_assoc.
  - intros error. split; reflexivity.
  - intros error H. unfold json_of_error, error_object. cbn [detail status].
    rewrite (Hnone _ _ (or_introl eq_refl) H). split; [reflexivity|]. simpl.
    destruct (json_of_value (get error "status")); reflexivity.
  - intros error H. unfold json_of_error, error_object. cbn [detail status].
    rewrite (Hnone _ _ (or_intror eq_refl) H). split; [reflexivity|].
    cbn [json_of_value member members_of]. rewrite app_nil_r.
    destruct (json_of_value (get error "message")); reflexivity.
  - intros ref c props x Hx. unfold error_object. cbn [detail get]. now rewrite Hx.
  - intros ref message props. reflexivity.
  - intros ref props Hx. unfold error_object. cbn [detail get]. simpl. now rewrite Hx.
Qed.

Lemma errorsToJSON_maps_each_error_witness :
  Forall (fun error => is_nullish error = false)
         [VError 1 (Some (VString "test")) []] /\
  errorsToJSON (VError 1 (Some (VString "test")) []) true
    = OK (Text ("{" ++ dquote ++ "errors" ++ dquote ++ ":[{"
                ++ dquote ++ "detail" ++ dquote ++ ":"
                ++ dquote ++ "test" ++ dquote ++ "}]}")) /\
  errorsToJSON (VArray 2 [VError 3 None [];
                          VObject 4 None [("message", VString "a");
                                          ("status", VNumber 404)];
                          VObject 5 None []]) false
    = OK (Native {| errors := [{| detail := VString EmptyString; status := VUndefined |};
                               {| detail := VString "a"; status := VNumber 404 |};
                               {| detail := VUndefined; status := VUndefined |}] |}).
Proof.
  split; [repeat constructor|]. split.
  - apply (proj1 (errorsToJSON_maps_each_error
                    (VError 1 (Some (VString "test")) []) true
                    ltac:(repeat constructor))).
    reflexivity.
  - apply (proj1 (proj2 (errorsToJSON_maps_each_error
                           (VArray 2 [VError 3 None [];
                                      VObject 4 None [("message", VString "a");
                                                      ("status", VNumber 404)];
                                      VObject 5 None []]) false
                           ltac:(repeat constructor))) 2 _ eq_refl).
Defined.

(** ** Resource objects *)

(** What decides whether an own property is copied: the outcome of
    [schema[key]], which also finds the members of [Object.prototype]. *)
Lemma attributes_membership instance requireId resource M key :
  buildResource instance requireId = OK resource ->
  constructor_of instance = Some M ->
  In key (own_keys instance) ->
  lookup key (attributes resource) =
    if serializable (properties (schema M)) key then Some (get instance key) else None.
Proof.
  intros Hbuild HM Hown.
  apply buildResource_OK in Hbuild as (M' & rels & HM' & _ & _ & _ & _ & Hattr).
  assert (M' = M) by congruence. subst M'.
  assert (Hex : existsb (String.eqb key) (own_keys instance) = true).
  { apply existsb_exists. exists key. split; auto. apply String.eqb_refl. }
  rewrite Hattr, attributes_lookup, Hex. reflexivity.
Qed.

(** C7 fails for an own property that bears the name of a member of
    [Object.prototype].  At the failing input
    [new Model({ name: 'test', id: '1', toString: 'x', excluded: true })]
    the schema declares no [toString], yet [schema['toString']] finds the
    inherited function, whose [public] is [undefined], and the property is
    copied into [attributes]; the undeclared [excluded] is left out, as the
    claim has it. *)
Theorem undeclared_toString_is_serialized :
  exists resource,
    In "toString" (own_keys Fixtures.with_toString) /\
    lookup "toString" (properties (schema Fixtures.Test)) = None /\
    buildResource Fixtures.with_toString VUndefined = OK resource /\
    attributes resource = [("name", VString "test"); ("toString", VString "x")] /\
    has "toString" (attributes resource) = true /\
    has "excluded" (attributes resource) = false.
Proof.
  eexists. split; [simpl; auto|]. repeat split; reflexivity.
Qed.

(** ** Relationship objects *)

(** C3, as the specification states it, fails on an empty array: the
    relationship entry of [children: []] has a [data] member, the empty
    array. *)
Lemma empty_array_relationship_has_data :
  exists resource rel,
    get Fixtures.no_children "children" = VArray 6 [] /\
    buildResource Fixtures.no_children VUndefined = OK resource /\
    lookup "children" (relationships_of resource) = Some rel /\
    data rel = Some (ToMany []).
Proof. do 2 eexists. repeat split; reflexivity. Qed.

(** C3, amended.  For a declared relationship whose nested value is absent
    or [null], the relationship entry of the resource object has no [data]
    member; when the nested value is an empty array the entry has a [data]
    member, which is the empty array. *)
Theorem relationship_data_absent_for_nullish_nested
    instance requireId resource M key keySchema :
  buildResource instance requireId = OK resource ->
  constructor_of instance = Some M ->
  In (key, keySchema) (relationshipSchema M) ->
  exists rel,
    lookup key (relationships_of resource) = Some rel /\
    (is_nullish (get instance key) = true -> data rel = None) /\
    (forall ref, get instance key = VArray ref [] -> data rel = Some (ToMany [])).
Proof.
  intros Hbuild HM Hin.
  apply buildResource_OK in Hbuild as (M' & rels & HM' & Hrels & -> & _).
  assert (M' = M) by congruence. subst M'.
  destruct (@relationships_declared _ _ _ _ _ _ Hrels Hin)
    as (ks' & rel & _ & Hrel & Hlook).
  exists rel. split; [exact Hlook|]. split.
  - intros Hnull. apply (@relationship_object_no_data _ _ _ _ _ Hrel);
      destruct (get instance key); try discriminate; reflexivity.
  - intros ref Hget.
    destruct (@relationship_object_to_many _ _ _ _ _ Hrel _ _ Hget) as (l & Hl & Hall).
    inversion Hall; subst. exact Hl.
Qed.

Lemma relationship_data_absent_for_nullish_nested_witness :
  exists resource rel,
    buildResource Fixtures.saved VUndefined = OK resource /\
    lookup "child" (relationships_of resource) = Some rel /\
    data rel = None.
Proof.
  eexists.
  destruct (@relationship_data_absent_for_nullish_nested
              Fixtures.saved VUndefined _ Fixtures.Test "child"
              {| type := "single"; hasMany := None |} eq_refl eq_refl)
    as (rel & Hlook & Hnone & _).
  - simpl. auto.
  - exists rel. split; [reflexivity|]. split; [exact Hlook|].
    apply Hnone. reflexivity.
Defined.

(** C6. For a declared relationship with a non-empty nested value, every
    emitted resource identifier carries the target type that the
    relationship schema declares, whatever the nested element is; a nested
    value, or an array element, that is a raw string becomes the [id] of its
    identifier. *)
Theorem identifier_type_is_declared_type
    instance requireId resource M key keySchema :
  buildResource instance requireId = OK resource ->
  constructor_of instance = Some M ->
  NoDup (keys (relationshipSchema M)) ->
  In (key, keySchema) (relationshipSchema M) ->
  exists rel,
    lookup key (relationships_of resource) = Some rel /\
    Forall (fun i => ri_type i = type keySchema) (identifiers (data rel)) /\
    (isArray (get instance key) = false -> truthy (get instance key) = true ->
     exists i, data rel = Some (ToOne i)) /\
    (forall s, get instance key = VString s -> s <> EmptyString ->
     data rel = Some (ToOne {| ri_id := VString s; ri_type := type keySchema |})) /\
    (forall ref items, get instance key = VArray ref items ->
     exists l,
       data rel = Some (ToMany l) /\
       length l = length items /\
       forall n s, nth_error items n = Some (VString s) ->
                   nth_error l n = Some {| ri_id := VString s;
                                           ri_type := type keySchema |}).
Proof.
  intros Hbuild HM Hnodup Hin.
  apply buildResource_OK in Hbuild as (M' & rels & HM' & Hrels & -> & _).
  assert (M' = M) by congruence. subst M'.
  destruct (@relationships_declared _ _ _ _ _ _ Hrels Hin)
    as (ks' & rel & Hin' & Hrel & Hlook).
  assert (ks' = keySchema) by (eapply NoDup_keys_unique; eauto). subst ks'.
  exists rel. split; [exact Hlook|].
  assert (Hshape :
            (exists ref items, get instance key = VArray ref items) \/
            isArray (get instance key) = false).
  { destruct (get instance key); eauto. }
  split; [|split; [|split]].
  - destruct Hshape as [(ref & items & Hget)|Hscalar].
    + destruct (@relationship_object_to_many _ _ _ _ _ Hrel _ _ Hget) as (l & -> & Hall).
      simpl. clear -Hall. induction Hall; constructor; tauto.
    + destruct (truthy (get instance key)) eqn:Ht.
      * rewrite (@relationship_object_to_one _ _ _ _ _ Hrel Hscalar Ht).
        repeat constructor.
      * rewrite (@relationship_object_no_data _ _ _ _ _ Hrel Hscalar Ht). constructor.
  - intros Hscalar Ht.
    rewrite (@relationship_object_to_one _ _ _ _ _ Hrel Hscalar Ht). eauto.
  - intros s Hget Hs.
    rewrite (@relationship_object_to_one _ _ _ _ _ Hrel); rewrite Hget; simpl; auto.
    apply String.eqb_neq in Hs. now rewrite Hs.
  - intros ref items Hget.
    destruct (@relationship_object_to_many _ _ _ _ _ Hrel _ _ Hget) as (l & -> & Hall).
    exists l. split; [reflexivity|]. split.
    + symmetry. eapply Forall2_length; eauto.
    + clear -Hall. induction Hall as [|item i items l [Hty Hid] _ IH];
        intros [|n] s Hn; simpl in *; try discriminate; auto.
      injection Hn as ->. simpl in Hid. destruct i; simpl in *. congruence.
Qed.

Lemma identifier_type_is_declared_type_witness :
  exists resource rel,
    buildResource Fixtures.with_identifiers VUndefined = OK resource /\
    lookup "children" (relationships_of resource) = Some rel /\
    data rel = Some (ToMany [{| ri_id := VString "3"; ri_type := "child" |};
                             {| ri_id := VString "4"; ri_type := "child" |}]).
Proof.
  eexists.
  destruct (@identifier_type_is_declared_type
              Fixtures.with_identifiers VUndefined _ Fixtures.Test "children"
              {| type := "child"; hasMany := Some true |} eq_refl eq_refl)
    as (rel & Hlook & _).
  - simpl. repeat constructor; simpl; intuition discriminate.
  - simpl. auto.
  - exists rel. split; [reflexivity|]. split; [exact Hlook|].
    simpl in Hlook. injection Hlook as <-. reflexivity.
Defined.

(** In every resource object, all relationship entries agree on [links]:
    present exactly when [instance.id] is truthy. *)
Lemma links_follow_truthiness instance requireId resource :
  buildResource instance requireId = OK resource ->
  Forall (fun kv : string * Relationship =>
            match links (snd kv) with
            | Some _ => truthy (get instance "id") = true
            | None => truthy (get instance "id") = false
            end)
         (relationships_of resource).
Proof.
  intros Hbuild.
  apply buildResource_OK in Hbuild as (M & rels & _ & Hrels & -> & _).
  apply relationships_entries in Hrels.
  eapply Forall_impl; [|exact Hrels].
  intros [k rel] (ks & _ & Hrel). simpl in *.
  rewrite (@relationship_object_links _ _ _ _ _ Hrel).
  destruct (truthy (get instance "id")); reflexivity.
Qed.

(** C10, as the specification states it, fails when an array under a
    declared relationship key holds [null]: the instance
    [new Model({ name: 'test', id: '', children: [ null ] })] has an own,
    falsy [id], and [buildResource] raises the engine's [TypeError] on
    reading [item.id]. *)
Lemma falsy_id_with_null_element_fails :
  hasOwnProperty Fixtures.blank_id_null_child "id" = OK true /\
  truthy (get Fixtures.blank_id_null_child "id") = false /\
  buildResource Fixtures.blank_id_null_child (VBool true) = Throw TypeError.
Proof. repeat split; reflexivity. Qed.

(** C10, amended.  For an instance whose own [id] property holds a falsy
    value, [buildResource] never raises the missing-identifier error,
    whatever [requireId] is, because the check tests the presence of the
    property.  It returns a resource object exactly when the instance is a
    model instance and no array under one of its declared relationship keys
    holds [null] or [undefined]; every relationship entry of that resource
    object omits [links], because that is decided by the truthiness of the
    value. *)
Theorem falsy_id_builds_without_links instance requireId :
  hasOwnProperty instance "id" = OK true ->
  truthy (get instance "id") = false ->
  (forall message, buildResource instance requireId <> Throw (JsError message)) /\
  ((exists resource, buildResource instance requireId = OK resource) <->
   resource_ready instance = true) /\
  (resource_ready instance = true <->
   exists M,
     constructor_of instance = Some M /\
     forall key keySchema ref items item,
       In (key, keySchema) (relationshipSchema M) ->
       get instance key = VArray ref items -> In item items ->
       is_nullish item = false) /\
  (forall resource,
     buildResource instance requireId = OK resource ->
     res_id resource = get instance "id" /\
     Forall (fun kv : string * Relationship => links (snd kv) = None)
            (relationships_of resource)).
Proof.
  intros Hown Hfalsy. split; [|split; [|split]].
  - intros message H.
    apply buildResource_Throw in H as [H|(_ & _ & Hno)]; congruence.
  - split.
    + intros [resource H]. eapply buildResource_OK_ready; eauto.
    + intros Hready. apply buildResource_ready; auto.
  - apply resource_ready_elements.
  - intros resource Hbuild. split.
    + apply buildResource_OK in Hbuild as (M & rels & _ & _ & _ & _ & Hid & _).
      exact Hid.
    + eapply Forall_impl; [|exact (links_follow_truthiness _ _ Hbuild)].
      intros kv Hkv. simpl in Hkv. destruct (links (snd kv)); congruence.
Qed.

Lemma falsy_id_builds_without_links_witness :
  hasOwnProperty Fixtures.blank_id "id" = OK true /\
  truthy (get Fixtures.blank_id "id") = false /\
  exists resource,
    buildResource Fixtures.blank_id (VBool true) = OK resource /\
    res_id resource = VString EmptyString /\
    Forall (fun kv : string * Relationship => links (snd kv) = None)
           (relationships_of resource).
Proof.
  repeat (split; [reflexivity|]).
  destruct (falsy_id_builds_without_links Fixtures.blank_id (VBool true)
              eq_refl eq_refl) as (_ & Hiff & _ & Hshape).
  destruct (proj2 Hiff eq_refl) as [resource Hbuild].
  exists resource. split; [exact Hbuild|]. exact (Hshape resource Hbuild).
Defined.

(** ** The missing-identifier error *)




(** ** Included documents *)

(** C5. Two resource objects count as the same when their [type] and [id]
    match exactly.  The removal of duplicates goes through the input from
    left to right: an entry is dropped exactly when an earlier entry of the
    input has its type and identifier, and is otherwise appended, untouched,
    after the entries kept before it.  Hence the result is the input with
    some entries left out, order kept; no two entries of it share type and
    identifier; the first occurrence of every (type, id) pair is kept and
    every input entry is represented by a kept one.  The top-level document
    has an [included] member only when that sequence is not empty, and then
    it is that sequence. *)
Theorem included_is_deduplicated :
  (forall a b : Resource,
     (same_document a b = true <->
      res_type a = res_type b /\ strict_equals (res_id a) (res_id b) = true) /\
     (is_primitive (res_id a) = true ->
      (same_document a b = true <->
       res_type a = res_type b /\ res_id a = res_id b))) /\
  (dedupe [] = [] /\
   forall (l : list Resource) x,
     dedupe (l ++ [x]) =
       if existsb (fun earlier => same_document earlier x) l
       then dedupe l
       else dedupe l ++ [x]) /\
  (forall raw : list Resource,
     subsequence (dedupe raw) raw /\
     (forall i j a b,
        i <> j -> nth_error (dedupe raw) i = Some a ->
        nth_error (dedupe raw) j = Some b ->
        same_document a b = false /\
        ~ (res_type a = res_type b /\ res_id a = res_id b)) /\
     (forall l1 x l2,
        raw = l1 ++ x :: l2 ->
        (forall y, In y l1 -> same_document y x = false) ->
        In x (dedupe raw)) /\
     (forall x, In x raw ->
        exists y, In y (dedupe raw) /\ same_document y x = true)) /\
  (forall instance options out,
     truthy instance = true ->
     toJSON instance options = OK out ->
     exists data raw,
       gathered instance = OK raw /\
       out = render options
               {| doc_data := data;
                  included := match dedupe raw with
                              | [] => None
                              | l => Some l
                              end |}).
Proof.
  split; [|split; [|split]].
  - intros a b. split; [apply same_document_pair|].
    intros Hp. rewrite same_document_pair.
    now rewrite (@strict_equals_primitive (res_id a) (res_id b) Hp).
  - split; [reflexivity|]. apply dedupe_snoc.
  - intros raw. split; [apply dedupe_subsequence|]. split; [|split].
    + intros i j a b Hne Hi Hj.
      assert (Hdistinct : same_document a b = false).
      { pose proof (ForallOrdPairs_nth (dedupe_distinct raw)) as Hpairs.
        destruct (Nat.lt_total i j) as [Hlt|[Heq|Hgt]]; [|contradiction|].
        - exact (Hpairs i j a b Hlt Hi Hj).
        - rewrite same_document_sym. exact (Hpairs j i b a Hgt Hj Hi). }
      split; [exact Hdistinct|]. intros [Ht Hid].
      assert (Hsame : same_document a b = true).
      { rewrite same_document_pair, Ht, Hid, strict_equals_refl. auto. }
      congruence.
    + intros l1 x l2 -> Hfirst. now apply dedupe_keeps_first.
    + apply dedupe_represents.
  - intros instance options out Htruthy Hout.
    rewrite (toJSON_truthy instance options Htruthy) in Hout.
    apply bind_OK in Hout as (data & _ & Hout).
    apply bind_OK in Hout as (raw & Hraw & Hout).
    injection Hout as <-. eauto.
Qed.

Lemma included_is_deduplicated_witness :
  exists a b child,
    buildResource Fixtures.leaf VUndefined = OK a /\
    buildResource Fixtures.middle VUndefined = OK b /\
    dedupe [a; b; a] = [a; b] /\
    truthy Fixtures.twice_the_same = true /\
    gathered Fixtures.twice_the_same = OK [child; child] /\
    exists data,
      toJSON Fixtures.twice_the_same {| stringify := false; requireId := true |}
        = OK (Native (Some {| doc_data := data; included := Some [child] |})).
Proof.
  do 3 eexists. split; [reflexivity|]. split; [reflexivity|]. split.
  - refine (eq_trans (proj2 (proj1 (proj2 included_is_deduplicated)) [_; _] _) _).
    reflexivity.
  - split; [reflexivity|]. split; [reflexivity|].
    assert (Hreturns : exists out,
               toJSON Fixtures.twice_the_same
                      {| stringify := false; requireId := true |} = OK out)
      by (eexists; reflexivity).
    destruct Hreturns as [out Hreturns].
    destruct (proj2 (proj2 (proj2 included_is_deduplicated))
                Fixtures.twice_the_same
                {| stringify := false; requireId := true |} out eq_refl Hreturns)
      as (data & raw & Hraw & Hout).
    exists data. rewrite Hreturns, Hout. injection Hraw as <-. reflexivity.
Defined.

(** ** Arrays of instances *)

Lemma mapiM_from_throws (A B : Type) (f : A -> nat -> result B) before x after e i :
  (forall y j, In y before -> exists r, f y j = OK r) ->
  f x (i + length before) = Throw e ->
  mapiM_from f i (before ++ x :: after) = Throw e.
Proof.
  revert i. induction before as [|y t IH]; simpl; intros i Hbefore Hx.
  - rewrite Nat.add_0_r in Hx. now rewrite Hx.
  - destruct (Hbefore y i) as [r ->]; auto. simpl.
    rewrite IH; auto. now rewrite Nat.add_succ_comm.
Qed.

(** What the array branch does about identifiers: [map] hands the index to
    [buildResource] as [requireId], so the first element is built without
    the check, and an element after the first that lacks an own [id] makes
    [toJSON] fail with the missing-identifier error, whatever the [requireId]
    option. *)
Lemma toJSON_array_identifier_check ref before x after options :
  Forall (fun y => well_formed y = true /\ hasOwnProperty y "id" = OK true) before ->
  well_formed x = true ->
  hasOwnProperty x "id" = OK false ->
  (exists resource,
      buildResource x (VNumber (Z.of_nat 0)) = OK resource /\
      res_id resource = VUndefined) /\
  (before <> [] ->
   toJSON (VArray ref (before ++ x :: after)) options
     = Throw (JsError missing_id_message)).
Proof.
  intros Hbefore Hwf Hno. split.
  - destruct (buildResource_succeeds x (VNumber (Z.of_nat 0)) Hwf (or_introl eq_refl))
      as [resource Hbuild].
    exists resource. split; [exact Hbuild|].
    apply buildResource_OK in Hbuild as (M & rels & _ & _ & _ & _ & -> & _).
    exact (own_id_absent _ Hno).
  - intros Hne. rewrite toJSON_truthy by reflexivity.
    unfold primary, mapiM. rewrite mapiM_from_throws with (e := JsError missing_id_message).
    + reflexivity.
    + intros y j Hy. rewrite Forall_forall in Hbefore.
      destruct (Hbefore y Hy) as [Hywf Hyid].
      exact (buildResource_succeeds y (VNumber (Z.of_nat j)) Hywf (or_intror Hyid)).
    + apply buildResource_requires_id; auto.
      destruct before; [contradiction|]. reflexivity.
Qed.

(** C1 holds for every position but the first.  At the failing input
    [[ new Model({ name: 'test' }) ]] the element has no own [id], yet
    [toJSON] returns a document, whose resource object has an undefined
    [id]; one position later the same element raises the
    missing-identifier error. *)
Theorem toJSON_array_first_element_without_id :
  hasOwnProperty Fixtures.unsaved "id" = OK false /\
  (exists resource,
      toJSON (VArray 30 [Fixtures.unsaved]) default_options
        = OK (render default_options
                {| doc_data := Collection [resource]; included := None |}) /\
      res_id resource = VUndefined) /\
  toJSON (VArray 31 [Fixtures.saved; Fixtures.unsaved]) default_options
    = Throw (JsError missing_id_message).
Proof.
  split; [reflexivity|]. split.
  - eexists. split; reflexivity.
  - reflexivity.
Qed.

(** ** Compound documents *)

Section Collect.
Variable rec : value -> result (list Resource).
Variables (included out : list (option (Nested Resource))) (nested : value).
Hypothesis Hcollect : collect rec included nested = OK out.

Lemma collect_single :
  isArray nested = false -> identified nested = true ->
  exists r, buildResource nested VUndefined = OK r /\ In (Some (Elem r)) out.
Proof.
  revert Hcollect. unfold collect, identified. intros H Harr Hid.
  destruct nested; try discriminate; rewrite Hid in H;
    apply bind_OK in H as (r & Hr & H); injection H as <-;
    exists r; (split; [exact Hr|]); apply in_or_app; simpl; auto.
Qed.

Lemma collect_element ref items x :
  nested = VArray ref items -> In x items -> identified x = true ->
  exists r, buildResource x VUndefined = OK r /\ In (Some (Elem r)) out.
Proof.
  revert Hcollect. unfold collect, identified. intros H -> Hx Hid.
  apply bind_OK in H as (deep & _ & H).
  apply bind_OK in H as (direct & Hdirect & H). injection H as <-.
  apply mapM_Forall2 in Hdirect.
  destruct (Forall2_In_l _ Hdirect Hx) as (y & Hy & Hinc).
  unfold include_item in Hinc. rewrite Hid in Hinc.
  apply bind_OK in Hinc as (r & Hr & Hinc). injection Hinc as <-.
  exists r. split; [exact Hr|]. apply in_or_app. auto.
Qed.

Lemma collect_deeper ref items y My :
  nested = VArray ref items -> In y items -> constructor_of y = Some My ->
  exists docs, rec y = OK docs /\ In (Some (Arr (map Elem docs))) out.
Proof.
  revert Hcollect. unfold collect. intros H -> Hy HMy.
  apply bind_OK in H as (deep & Hdeep & H).
  apply bind_OK in H as (direct & _ & H). injection H as <-.
  apply mapM_Forall2 in Hdeep.
  destruct (Forall2_In_l _ Hdeep Hy) as (d & Hd & Hrec).
  unfold recurse_item in Hrec. rewrite HMy in Hrec.
  assert (Ht : truthy y = true) by (destruct y; try discriminate; reflexivity).
  rewrite Ht in Hrec.
  apply bind_OK in Hrec as (docs & Hdocs & Hrec). injection Hrec as <-.
  exists docs. split; [exact Hdocs|].
  apply in_or_app. left. apply in_or_app. auto.
Qed.
End Collect.

(** What one key contributed stays in the final [included]. *)
Lemma forEach_contains rec instance rs acc out key keySchema :
  foldM (fun included (entry : string * RelationshipSchema) =>
           collect rec included (get instance (fst entry))) rs acc = OK out ->
  In (key, keySchema) rs ->
  exists before after,
    collect rec before (get instance key) = OK after /\
    forall x, In x after -> In x out.
Proof.
  revert acc. induction rs as [|e t IH]; simpl; intros acc H Hin; [contradiction|].
  apply bind_OK in H as (acc' & Hstep & H).
  destruct Hin as [->|Hin]; [|eauto].
  exists acc, acc'. split; [exact Hstep|].
  apply forEach_appends in H as [more ->].
  intros x Hx. apply in_or_app. auto.
Qed.

(** The collector returns a resource object for every instance its walk
    meets. *)
Lemma buildCompoundDocuments_collects instance x :
  collects instance x ->
  forall docs,
    buildCompoundDocuments instance = OK docs ->
    exists r, buildResource x VUndefined = OK r /\ In r docs.
Proof.
  assert (Hopen : forall instance M docs,
             constructor_of instance = Some M ->
             buildCompoundDocuments instance = OK docs ->
             exists included,
               foldM (fun included (entry : string * RelationshipSchema) =>
                        collect buildCompoundDocuments included
                                (get instance (fst entry)))
                     (relationshipSchema M) [] = OK included /\
               docs = flatten (filter_defined included)).
  { intros i M docs HM H. rewrite (@buildCompoundDocuments_eq _ _ HM) in H.
    apply bind_OK in H as (included & Hfold & H). injection H as <-. eauto. }
  induction 1 as [instance M key ks HM Hin Harr Hid
                 |instance M key ks ref items x HM Hin Hget Hx Hid
                 |instance M key ks ref items y My x HM Hin Hget Hy HMy _ IH];
    intros docs Hdocs;
    destruct (Hopen _ _ _ HM Hdocs) as (included & Hfold & ->);
    destruct (@forEach_contains _ _ _ _ _ _ _ Hfold Hin) as (before & after & Hstep & Hkeep).
  - destruct (@collect_single _ _ _ _ Hstep Harr Hid) as (r & Hr & Hinr).
    exists r. split; [exact Hr|].
    apply In_flatten_elem, In_filter_defined; auto.
  - destruct (@collect_element _ _ _ _ Hstep _ _ _ Hget Hx Hid) as (r & Hr & Hinr).
    exists r. split; [exact Hr|].
    apply In_flatten_elem, In_filter_defined; auto.
  - destruct (@collect_deeper _ _ _ _ Hstep _ _ _ _ Hget Hy HMy) as (sub & Hsub & Hinsub).
    destruct (IH _ Hsub) as (r & Hr & Hinr).
    exists r. split; [exact Hr|].
    eapply In_flatten_array; [|exact Hinr].
    apply In_filter_defined; auto.
Qed.

(** C2 fails where a related instance is reached through a single-valued
    relationship.  At the failing input [through_single], [leaf] is the
    [deep] relationship of [middle], which is the [favourite] of the root:
    the collector returns the resource object of [middle] alone.  When
    [middle] is an element of the array-valued [children] instead, the
    resource object of [leaf] is returned too. *)
Theorem collector_stops_at_single_valued_relationship :
  exists middle_resource leaf_resource,
    get Fixtures.through_single "favourite" = Fixtures.middle /\
    get Fixtures.middle "deep" = Fixtures.leaf /\
    buildResource Fixtures.middle VUndefined = OK middle_resource /\
    buildResource Fixtures.leaf VUndefined = OK leaf_resource /\
    buildCompoundDocuments Fixtures.through_single = OK [middle_resource] /\
    ~ In leaf_resource [middle_resource] /\
    buildCompoundDocuments Fixtures.through_array
      = OK [leaf_resource; middle_resource].
Proof.
  do 2 eexists. repeat (split; [reflexivity|]). split; [|reflexivity].
  intros [H|[]]. discriminate H.
Qed.

(** * Further properties of the serializer *)

Unset Implicit Arguments.

(** ** The members of a resource object *)

Lemma keys_assign_new (A : Type) key (a : A) o :
  ~ In key (keys o) -> keys (assign key a o) = keys o ++ [key].
Proof.
  unfold keys. induction o as [|[k b] t IH]; simpl; intros Hnew; auto.
  destruct (String.eqb k key) eqn:E.
  - apply String.eqb_eq in E. tauto.
  - simpl. rewrite IH; tauto.
Qed.

(** On a schema with distinct keys the [reduce] lists them in order. *)
Lemma relationships_keys_in_order instance plural rs acc out :
  foldM (relationship_step instance plural) rs acc = OK out ->
  NoDup (keys acc ++ keys rs) ->
  keys out = keys acc ++ keys rs.
Proof.
  revert acc. induction rs as [|[k ks] t IH]; simpl; intros acc H Hnd.
  - injection H as <-. now rewrite app_nil_r.
  - apply bind_OK in H as (acc' & Hstep & H).
    unfold relationship_step in Hstep. simpl in Hstep.
    apply bind_OK in Hstep as (rel & _ & Hstep). injection Hstep as <-.
    assert (Hnew : ~ In k (keys acc)).
    { intros Hk. apply NoDup_remove_2 in Hnd. apply Hnd.
      apply in_or_app. auto. }
    rewrite (IH _ H); rewrite keys_assign_new by exact Hnew;
      rewrite <- app_assoc; auto.
Qed.

Lemma relationships_has instance plural rs out key :
  foldM (relationship_step instance plural) rs [] = OK out ->
  has key out = has key rs.
Proof.
  intros H.
  destruct (@relationships_lookup _ _ _ _ _ key H)
    as [[Hnot Hsame]|(ks & rel & Hin & _ & Hlook)].
  - unfold has. rewrite Hsame. simpl.
    apply lookup_None_keys in Hnot. now rewrite Hnot.
  - unfold has at 1. rewrite Hlook. symmetry. eapply In_has; eauto.
Qed.

(** The [relationships] member mirrors the map built by the [reduce]. *)
Lemma buildResource_relationships_member instance requireId resource :
  buildResource instance requireId = OK resource ->
  res_relationships resource =
    match relationships_of resource with
    | [] => None
    | l => Some l
    end.
Proof.
  rewrite buildResource_stages. intros H.
  apply bind_OK in H as (missing & _ & H).
  destruct missing; [discriminate|].
  destruct (constructor_of instance) as [M|]; [|discriminate].
  apply bind_OK in H as (rels & _ & H).
  injection H as <-. unfold relationships_of. simpl. now destruct rels.
Qed.

(** X1. A resource object has a [relationships] member exactly when the
    model declares a relationship; the member then has an entry for every
    declared key and for no other key, in the order of the schema. *)
Theorem relationships_member_lists_declared_keys instance requireId resource M :
  buildResource instance requireId = OK resource ->
  constructor_of instance = Some M ->
  (res_relationships resource = None <-> relationshipSchema M = []) /\
  (forall key,
     has key (relationships_of resource) = has key (relationshipSchema M)) /\
  (NoDup (keys (relationshipSchema M)) ->
   keys (relationships_of resource) = keys (relationshipSchema M)).
Proof.
  intros Hbuild HM.
  pose proof (@buildResource_relationships_member _ _ _ Hbuild) as Hmember.
  apply buildResource_OK in Hbuild as (M' & rels & HM' & Hrels & Hof & _).
  assert (M' = M) by congruence. subst M'. rewrite Hof in *.
  assert (Hhas : forall key, has key rels = has key (relationshipSchema M))
    by (intros key; eapply relationships_has; eauto).
  split; [|split].
  - rewrite Hmember. split.
    + destruct rels; [|discriminate]. intros _.
      destruct (relationshipSchema M) as [|[k ks] t]; [reflexivity|].
      specialize (Hhas k). simpl in Hhas. unfold has in Hhas. simpl in Hhas.
      rewrite String.eqb_refl in Hhas. discriminate.
    + intros Hnone. rewrite Hnone in Hrels. injection Hrels as <-. reflexivity.
  - exact Hhas.
  - intros Hnd. now apply (@relationships_keys_in_order _ _ _ _ _ Hrels).
Qed.

Lemma relationships_member_lists_declared_keys_witness :
  exists resource,
    buildResource Fixtures.saved VUndefined = OK resource /\
    keys (relationships_of resource) = ["children"; "child"].
Proof.
  eexists. split; [reflexivity|].
  apply (@relationships_member_lists_declared_keys
           Fixtures.saved VUndefined _ Fixtures.Test eq_refl eq_refl).
  simpl. repeat constructor; simpl; intuition discriminate.
Defined.

(** X2. When [instance.id] is truthy and a primitive (a string, a number or
    [true]), every relationship entry carries [links] whose [self] is
    [/plural/id/relationships/key] and whose [related] is [/plural/id/key],
    the identifier being converted as a template literal converts it: a
    number from [1e21] on appears in exponent notation. *)
Theorem links_are_built_from_plural_id_and_key instance requireId resource M :
  buildResource instance requireId = OK resource ->
  constructor_of instance = Some M ->
  truthy (get instance "id") = true ->
  is_primitive (get instance "id") = true ->
  Forall (fun kv : string * Relationship =>
            links (snd kv) =
              Some {| self := "/" ++ plural M ++ "/" ++ ToString (get instance "id")
                                ++ "/relationships/" ++ fst kv;
                      related := "/" ++ plural M ++ "/" ++ ToString (get instance "id")
                                   ++ "/" ++ fst kv |})
         (relationships_of resource).
Proof.
  intros Hbuild HM Hid _.
  apply buildResource_OK in Hbuild as (M' & rels & HM' & Hrels & <- & _).
  assert (M' = M) by congruence. subst M'.
  apply relationships_entries in Hrels.
  eapply Forall_impl; [|exact Hrels].
  intros [k rel] (ks & _ & Hrel). simpl in *.
  rewrite (@relationship_object_links _ _ _ _ _ Hrel), Hid. reflexivity.
Qed.

Lemma links_are_built_from_plural_id_and_key_witness :
  (exists resource rel,
      buildResource Fixtures.saved VUndefined = OK resource /\
      lookup "child" (relationships_of resource) = Some rel /\
      links rel = Some {| self := "/tests/1/relationships/child";
                          related := "/tests/1/child" |}) /\
  (exists resource rel,
      get Fixtures.with_large_id "id" = VNumber (10 ^ 21) /\
      buildResource Fixtures.with_large_id VUndefined = OK resource /\
      lookup "child" (relationships_of resource) = Some rel /\
      links rel = Some {| self := "/tests/1e+21/relationships/child";
                          related := "/tests/1e+21/child" |}).
Proof.
  split.
  - do 2 eexists. split; [reflexivity|]. split; [reflexivity|].
    pose proof (links_are_built_from_plural_id_and_key
                  Fixtures.saved VUndefined _ Fixtures.Test
                  eq_refl eq_refl eq_refl eq_refl) as Hall.
    apply Forall_inv_tail, Forall_inv in Hall. exact Hall.
  - do 2 eexists. split; [reflexivity|]. split; [reflexivity|].
    split; [reflexivity|].
    pose proof (links_are_built_from_plural_id_and_key
                  Fixtures.with_large_id VUndefined _ Fixtures.Test
                  eq_refl eq_refl eq_refl eq_refl) as Hall.
    apply Forall_inv_tail, Forall_inv in Hall. exact Hall.
Defined.

(** ** How buildResource fails *)

Lemma effective_requireId_truthy requireId :
  truthy (effective_requireId requireId) = true <->
  requireId = VUndefined \/ truthy requireId = true.
Proof.
  destruct requireId; simpl; split; auto; intros [H|H]; auto; discriminate.
Qed.

(** X3. [buildResource] raises nothing but the engine's [TypeError] and the
    missing-identifier error.  It raises the latter exactly when the
    instance has no own [id] property and [requireId] is [undefined] (the
    default applies) or truthy; any other falsy [requireId] ([false], [0],
    [null], the empty string) switches the check off. *)
Theorem buildResource_failure_modes instance requireId :
  (forall e, buildResource instance requireId = Throw e ->
             e = TypeError \/ e = JsError missing_id_message) /\
  (buildResource instance requireId = Throw (JsError missing_id_message) <->
   (requireId = VUndefined \/ truthy requireId = true) /\
   hasOwnProperty instance "id" = OK false).
Proof.
  split.
  - intros e He. apply buildResource_Throw in He as [He|(He & _)]; auto.
  - rewrite <- effective_requireId_truthy. split.
    + intros H. apply buildResource_Throw in H as [H|(_ & Hreq & Hown)];
        [discriminate|auto].
    + intros [Hreq Hown]. now apply buildResource_requires_id.
Qed.

Lemma buildResource_failure_modes_witness :
  buildResource Fixtures.unsaved VUndefined = Throw (JsError missing_id_message) /\
  buildResource Fixtures.unsaved (VNumber 0) <> Throw (JsError missing_id_message).
Proof.
  split.
  - apply (proj2 (buildResource_failure_modes Fixtures.unsaved VUndefined)).
    split; [left|]; reflexivity.
  - intros H.
    apply (proj2 (buildResource_failure_modes Fixtures.unsaved (VNumber 0))) in H.
    destruct H as [[H|H] _]; discriminate H.
Defined.

(** X4. [buildResource] returns a resource object only for a model
    instance: for [null], [undefined], a primitive, an array or an object
    whose constructor has no [schema] it raises an exception, the
    [TypeError] unless the identifier check fires first. *)
Theorem buildResource_needs_a_model_instance instance requireId :
  constructor_of instance = None ->
  exists e,
    buildResource instance requireId = Throw e /\
    (e = TypeError \/
     e = JsError missing_id_message /\ hasOwnProperty instance "id" = OK false).
Proof.
  intros Hnone.
  destruct (buildResource instance requireId) as [r|e] eqn:E.
  - apply buildResource_OK in E as (M & _ & HM & _). congruence.
  - exists e. split; [reflexivity|].
    apply buildResource_Throw in E as [E|(E & _ & Hown)]; auto.
Qed.

Lemma buildResource_needs_a_model_instance_witness :
  constructor_of (VObject 40 None [("id", VString "2")]) = None /\
  exists e, buildResource (VObject 40 None [("id", VString "2")]) VUndefined = Throw e.
Proof.
  split; [reflexivity|].
  destruct (buildResource_needs_a_model_instance
              (VObject 40 None [("id", VString "2")]) VUndefined eq_refl)
    as (e & He & _).
  exists e. exact He.
Defined.

(** ** Resource linkage *)

(** The identifier that [buildResource] derives from one nested value:
    [{ id: item.id ? item.id : item, type }]. *)
Lemma declared_relationship_object instance requireId resource M key keySchema :
  buildResource instance requireId = OK resource ->
  constructor_of instance = Some M ->
  NoDup (keys (relationshipSchema M)) ->
  In (key, keySchema) (relationshipSchema M) ->
  exists rel,
    lookup key (relationships_of resource) = Some rel /\
    relationship_object instance (plural M) key keySchema = OK rel.
Proof.
  intros Hbuild HM Hnodup Hin.
  apply buildResource_OK in Hbuild as (M' & rels & HM' & Hrels & -> & _).
  assert (M' = M) by congruence. subst M'.
  destruct (@relationships_declared _ _ _ _ _ _ Hrels Hin)
    as (ks' & rel & Hin' & Hrel & Hlook).
  assert (ks' = keySchema) by (eapply NoDup_keys_unique; eauto). subst ks'.
  eauto.
Qed.

(** X5. The [id] of a resource identifier is the [id] of the nested value
    when that is truthy, and the nested value itself otherwise: this holds
    for a single nested value and for each element of an array, so an object
    without a truthy [id] becomes the [id] of its own identifier. *)
Theorem linkage_id_falls_back_to_the_value
    instance requireId resource M key keySchema :
  buildResource instance requireId = OK resource ->
  constructor_of instance = Some M ->
  NoDup (keys (relationshipSchema M)) ->
  In (key, keySchema) (relationshipSchema M) ->
  exists rel,
    lookup key (relationships_of resource) = Some rel /\
    (isArray (get instance key) = false -> truthy (get instance key) = true ->
     data rel =
       Some (ToOne {| ri_id := if truthy (get (get instance key) "id")
                               then get (get instance key) "id"
                               else get instance key;
                      ri_type := type keySchema |})) /\
    (forall ref items, get instance key = VArray ref items ->
     data rel =
       Some (ToMany (map (fun item =>
                            {| ri_id := if truthy (get item "id")
                                        then get item "id" else item;
                               ri_type := type keySchema |}) items)) /\
     Forall (fun item => is_nullish item = false) items).
Proof.
  intros Hbuild HM Hnodup Hin.
  destruct (declared_relationship_object
              instance requireId resource M key keySchema Hbuild HM Hnodup Hin)
    as (rel & Hlook & Hrel).
  exists rel. split; [exact Hlook|]. split.
  - intros Hscalar Ht. exact (@relationship_object_to_one _ _ _ _ _ Hrel Hscalar Ht).
  - intros ref items Hget. unfold relationship_object in Hrel. rewrite Hget in Hrel.
    apply bind_OK in Hrel as (l & Hl & Hrel). injection Hrel as <-. simpl.
    apply mapM_Forall2 in Hl. clear -Hl.
    induction Hl as [|item i items l Hi _ [IHdata IHnull]]; simpl.
    + split; [reflexivity|constructor].
    + apply bind_OK in Hi as (id & Hid & Hi). injection Hi as <-.
      injection IHdata as ->.
      destruct item; simpl in Hid; try discriminate; injection Hid as <-;
        (split; [reflexivity|constructor; [reflexivity|exact IHnull]]).
Qed.

Lemma linkage_id_falls_back_to_the_value_witness :
  exists resource rel,
    buildResource
      (VObject 41 (Some Fixtures.Test)
         [("id", VString "1");
          ("children", VArray 42 [VObject 43 None [("name", VString "x")]])])
      VUndefined = OK resource /\
    lookup "children" (relationships_of resource) = Some rel /\
    data rel =
      Some (ToMany [{| ri_id := VObject 43 None [("name", VString "x")];
                       ri_type := "child" |}]).
Proof.
  eexists.
  destruct (@linkage_id_falls_back_to_the_value
              (VObject 41 (Some Fixtures.Test)
                 [("id", VString "1");
                  ("children", VArray 42 [VObject 43 None [("name", VString "x")]])])
              VUndefined _ Fixtures.Test "children"
              {| type := "child"; hasMany := Some true |} eq_refl eq_refl)
    as (rel & Hlook & _ & Hmany).
  - simpl. repeat constructor; simpl; intuition discriminate.
  - simpl. auto.
  - exists rel. split; [reflexivity|]. split; [exact Hlook|].
    exact (proj1 (Hmany _ _ eq_refl)).
Defined.

(** X6. A [null] or [undefined] element in the array of a declared
    relationship makes [buildResource] fail: reading [item.id] raises the
    engine's [TypeError] (the missing-identifier error can only come
    first). *)
Theorem nullish_element_breaks_buildResource
    instance requireId M key keySchema ref items item :
  constructor_of instance = Some M ->
  In (key, keySchema) (relationshipSchema M) ->
  get instance key = VArray ref items ->
  In item items ->
  is_nullish item = true ->
  exists e,
    buildResource instance requireId = Throw e /\
    (hasOwnProperty instance "id" = OK true -> e = TypeError).
Proof.
  intros HM Hin Hget Hitem Hnull.
  destruct (buildResource instance requireId) as [r|e] eqn:E.
  - exfalso.
    apply buildResource_OK in E as (M' & rels & HM' & Hrels & _).
    assert (M' = M) by congruence. subst M'.
    destruct (@relationships_declared _ _ _ _ _ _ Hrels Hin)
      as (ks' & rel & _ & Hrel & _).
    unfold relationship_object in Hrel. rewrite Hget in Hrel.
    apply bind_OK in Hrel as (l & Hl & _).
    apply mapM_Forall2 in Hl.
    destruct (Forall2_In_l _ Hl Hitem) as (i & _ & Hi).
    destruct item; discriminate.
  - exists e. split; [reflexivity|]. intros Hown.
    apply buildResource_Throw in E as [E|(_ & _ & Hno)]; congruence.
Qed.

Lemma nullish_element_breaks_buildResource_witness :
  buildResource
    (VObject 44 (Some Fixtures.Test)
       [("id", VString "1"); ("children", VArray 45 [VNull])])
    VUndefined = Throw TypeError.
Proof.
  destruct (@nullish_element_breaks_buildResource
              (VObject 44 (Some Fixtures.Test)
                 [("id", VString "1"); ("children", VArray 45 [VNull])])
              VUndefined Fixtures.Test "children"
              {| type := "child"; hasMany := Some true |} 45 [VNull] VNull
              eq_refl (or_introl eq_refl) eq_refl (or_introl eq_refl) eq_refl)
    as (e & He & Htype).
  rewrite He. f_equal. apply Htype. reflexivity.
Defined.

(** ** flatten *)

Lemma In_flatten_inv (A : Type) (a : A) arr :
  In a (flatten arr) ->
  In (Elem a) arr \/ exists l, In (Arr l) arr /\ In a (flatten l).
Proof.
  unfold flatten. intros H. apply in_flat_map in H as (x & Hx & Ha).
  destruct x as [b|l]; simpl in Ha.
  - destruct Ha as [->|[]]. auto.
  - right. eauto.
Qed.

(** X7. [flatten] keeps the elements in order and removes every level of
    nesting: it commutes with concatenation, splices a nested array in
    place, returns a flat array unchanged, and flattening its own result
    changes nothing. *)
Theorem flatten_splices_nested_arrays (A : Type) :
  (forall l1 l2 : list (Nested A), flatten (l1 ++ l2) = flatten l1 ++ flatten l2) /\
  (forall (l rest : list (Nested A)),
     flatten (Arr l :: rest) = flatten l ++ flatten rest) /\
  (forall (a : A) rest, flatten (Elem a :: rest) = a :: flatten rest) /\
  (forall l : list A, flatten (map Elem l) = l) /\
  (forall arr : list (Nested A), flatten (map Elem (flatten arr)) = flatten arr) /\
  (forall (a : A) arr,
     In a (flatten arr) <->
     In (Elem a) arr \/ exists l, In (Arr l) arr /\ In a (flatten l)).
Proof.
  repeat split.
  - apply flatten_app.
  - apply flatten_elems.
  - intros arr. apply flatten_elems.
  - apply In_flatten_inv.
  - intros [H|(l & Hl & Ha)].
    + now apply In_flatten_elem.
    + unfold flatten. apply in_flat_map. exists (Arr l). auto.
Qed.

Lemma flatten_splices_nested_arrays_witness :
  flatten [Elem 1; Arr [Elem 2; Arr [Elem 3]]; Elem 4] = [1; 2; 3; 4] /\
  In 3 (flatten [Elem 1; Arr [Elem 2; Arr [Elem 3]]; Elem 4]).
Proof.
  split; [reflexivity|].
  apply (proj2 (proj2 (proj2 (proj2 (proj2 (flatten_splices_nested_arrays nat)))))).
  right. exists [Elem 2; Arr [Elem 3]]. split; [simpl; auto|].
  apply (proj2 (proj2 (proj2 (proj2 (proj2 (flatten_splices_nested_arrays nat)))))).
  right. exists [Elem 3]. split; [simpl; auto|].
  apply (proj2 (proj2 (proj2 (proj2 (proj2 (flatten_splices_nested_arrays nat)))))).
  left. simpl. auto.
Defined.

(** ** What the collector returns *)

Lemma Forall2_In_r (A B : Type) (R : A -> B -> Prop) l l' y :
  Forall2 R l l' -> In y l' -> exists x, In x l /\ R x y.
Proof.
  induction 1 as [|a b l l' Hab _ IH]; simpl; [contradiction|].
  intros [->|Hy]; [eauto|]. destruct (IH Hy) as (x & ? & ?). eauto.
Qed.

Lemma collects_identified instance x : collects instance x -> identified x = true.
Proof. induction 1; auto. Qed.

(** Where an entry of [included] comes from, after one step of the
    [forEach]. *)
Lemma collect_origin rec included nested out entry :
  collect rec included nested = OK out ->
  In entry out ->
  In entry included \/
  entry = None \/
  (exists r,
      entry = Some (Elem r) /\
      ((isArray nested = false /\ identified nested = true /\
        buildResource nested VUndefined = OK r) \/
       (exists ref items x,
           nested = VArray ref items /\ In x items /\ identified x = true /\
           buildResource x VUndefined = OK r))) \/
  (exists ref items y My docs,
      nested = VArray ref items /\ In y items /\ constructor_of y = Some My /\
      rec y = OK docs /\ entry = Some (Arr (map Elem docs))).
Proof.
  unfold collect. intros H Hentry.
  destruct nested as [| | | | |ref items|ref c props|eref emsg eprops].
  6: {
    apply bind_OK in H as (deep & Hdeep & H).
    apply bind_OK in H as (direct & Hdirect & H). injection H as <-.
    apply mapM_Forall2 in Hdeep, Hdirect.
    apply in_app_or in Hentry as [Hentry|Hentry];
      [apply in_app_or in Hentry as [Hentry|Hentry]|]; auto.
    - destruct (Forall2_In_r _ _ _ _ _ _ Hdeep Hentry) as (y & Hy & Hrec).
      unfold recurse_item in Hrec.
      destruct (truthy y); [|injection Hrec as <-; auto].
      destruct (constructor_of y) as [My|] eqn:EMy; [|injection Hrec as <-; auto].
      apply bind_OK in Hrec as (docs & Hdocs & Hrec). injection Hrec as <-.
      do 3 right. exists ref, items, y, My, docs. auto.
    - destruct (Forall2_In_r _ _ _ _ _ _ Hdirect Hentry) as (x & Hx & Hinc).
      unfold include_item in Hinc. fold (identified x) in Hinc.
      destruct (identified x) eqn:Eid; [|injection Hinc as <-; auto].
      apply bind_OK in Hinc as (r & Hr & Hinc). injection Hinc as <-.
      right. right. left. exists r. split; [reflexivity|].
      right. exists ref, items, x. auto. }
  all: match type of H with
       | (if truthy ?v && _ then _ else _) = _ =>
           change (truthy v && truthy (get v "id")) with (identified v) in H;
           destruct (identified v) eqn:Eid;
           [apply bind_OK in H as (r & Hr & H); injection H as <-;
            apply in_app_or in Hentry as [Hentry|[<-|[]]]; auto;
            right; right; left; exists r; split; [reflexivity|]; left; auto
           |injection H as <-; auto]
       end.
Qed.

(** Every entry accumulated by the [forEach] is [undefined], the resource
    object of an instance met at this level, or the result of a recursive
    call on an array element. *)
Lemma forEach_origin instance M rs included :
  constructor_of instance = Some M ->
  (forall e, In e rs -> In e (relationshipSchema M)) ->
  foldM (fun included (entry : string * RelationshipSchema) =>
           collect buildCompoundDocuments included (get instance (fst entry)))
        rs [] = OK included ->
  Forall (fun entry =>
            entry = None \/
            (exists r x,
                entry = Some (Elem r) /\ collects instance x /\
                buildResource x VUndefined = OK r) \/
            (exists key keySchema ref items y My docs,
                In (key, keySchema) (relationshipSchema M) /\
                get instance key = VArray ref items /\ In y items /\
                constructor_of y = Some My /\
                buildCompoundDocuments y = OK docs /\
                entry = Some (Arr (map Elem docs))))
         included.
Proof.
  intros HM Hrs Hfold.
  eapply foldM_invariant
    with (I := fun inc =>
                 Forall (fun entry =>
                           entry = None \/
                           (exists r x,
                               entry = Some (Elem r) /\ collects instance x /\
                               buildResource x VUndefined = OK r) \/
                           (exists key keySchema ref items y My docs,
                               In (key, keySchema) (relationshipSchema M) /\
                               get instance key = VArray ref items /\ In y items /\
                               constructor_of y = Some My /\
                               buildCompoundDocuments y = OK docs /\
                               entry = Some (Arr (map Elem docs)))) inc);
    [|constructor|exact Hfold].
  intros inc [key ks] inc' Hin Hinc Hstep. cbn [fst] in Hstep.
  apply Hrs in Hin.
  apply Forall_forall. intros entry Hentry.
  destruct (collect_origin _ _ _ _ _ Hstep Hentry)
    as [Hold|[->|[(r & -> & Hr)|(ref & items & y & My & docs & Hget & Hy & HMy & Hdocs & ->)]]].
  - rewrite Forall_forall in Hinc. auto.
  - auto.
  - right. left.
    destruct Hr as [(Harr & Hid & Hr)|(ref & items & x & Hget & Hx & Hid & Hr)].
    + exists r, (get instance key). repeat split; auto.
      eapply collects_single; eauto.
    + exists r, x. repeat split; auto. eapply collects_element; eauto.
  - right. right. exists key, ks, ref, items, y, My, docs. auto 10.
Qed.

Lemma buildCompoundDocuments_sound instance :
  forall docs r,
    buildCompoundDocuments instance = OK docs ->
    In r docs ->
    exists x, collects instance x /\ buildResource x VUndefined = OK r.
Proof.
  enough (H : (forall docs r,
                 buildCompoundDocuments instance = OK docs -> In r docs ->
                 exists x, collects instance x /\
                           buildResource x VUndefined = OK r) /\
              (forall ref items, instance = VArray ref items ->
                 Forall (fun item =>
                           forall docs r,
                             buildCompoundDocuments item = OK docs -> In r docs ->
                             exists x, collects item x /\
                                       buildResource x VUndefined = OK r)
                        items)) by apply H.
  induction instance as [| | b | n | s | ref items IH | ref c props IH|eref emsg eprops]
    using value_nested_ind; split; try discriminate.
  - intros ref' items' [= _ <-].
    eapply Forall_impl; [|exact IH]. intros a [Ha _]. exact Ha.
  - intros docs r Hdocs Hr.
    destruct (constructor_of (VObject ref c props)) as [M|] eqn:HM;
      [|rewrite (@buildCompoundDocuments_not_instance _ HM) in Hdocs; discriminate].
    rewrite (@buildCompoundDocuments_eq _ _ HM) in Hdocs.
    apply bind_OK in Hdocs as (included & Hfold & Hdocs). injection Hdocs as <-.
    pose proof (forEach_origin (VObject ref c props) M _ included
                  HM (fun e He => He) Hfold) as Horigin.
    rewrite Forall_forall in Horigin.
    apply In_flatten_inv in Hr as [Hr|(l & Hl & Hr)].
    + apply In_filter_defined in Hr.
      destruct (Horigin _ Hr) as [H|[(r' & x & H & Hx & Hb)|(k & ks & aref & items & y & My & sub & _ & _ & _ & _ & _ & H)]];
        try discriminate.
      injection H as <-. eauto.
    + apply In_filter_defined in Hl.
      destruct (Horigin _ Hl) as [H|[(r' & x & H & _)|(k & ks & aref & items & y & My & sub & Hin & Hget & Hy & HMy & Hsub & H)]];
        try discriminate.
      injection H as ->. rewrite flatten_elems in Hr.
      pose proof Hget as Hlook. cbn [get] in Hlook.
      destruct (lookup k props) as [v|] eqn:E; [|discriminate]. subst v.
      apply lookup_In in E. rewrite Forall_forall in IH.
      pose proof (proj2 (IH _ E) _ _ eq_refl) as Hitems.
      rewrite Forall_forall in Hitems.
      destruct (Hitems _ Hy _ _ Hsub Hr) as (x & Hx & Hb).
      exists x. split; [|exact Hb].
      eapply collects_deeper with (key := k) (y := y); eauto.
Qed.

(** X8. The collector returns exactly the resource objects of the instances
    its walk meets, namely instances with a truthy [id] found along
    array-valued relationships (the last step may be single-valued); every
    returned resource object therefore has a truthy [id]. *)
Theorem collector_returns_the_instances_it_walks instance docs :
  buildCompoundDocuments instance = OK docs ->
  (forall r,
     In r docs <->
     exists x, collects instance x /\ buildResource x VUndefined = OK r) /\
  Forall (fun r => truthy (res_id r) = true) docs.
Proof.
  intros Hdocs.
  assert (Hsound : forall r, In r docs ->
            exists x, collects instance x /\ buildResource x VUndefined = OK r)
    by (intros r; apply buildCompoundDocuments_sound; exact Hdocs).
  split.
  - intros r. split; [apply Hsound|].
    intros (x & Hx & Hr).
    destruct (buildCompoundDocuments_collects Hx Hdocs) as (r' & Hr' & Hin).
    congruence.
  - apply Forall_forall. intros r Hr.
    destruct (Hsound r Hr) as (x & Hx & Hb).
    apply collects_identified in Hx. unfold identified in Hx.
    apply andb_prop in Hx as [_ Hid].
    apply buildResource_OK in Hb as (M & rels & _ & _ & _ & _ & -> & _).
    exact Hid.
Qed.

Lemma collector_returns_the_instances_it_walks_witness :
  exists docs,
    buildCompoundDocuments Fixtures.through_array = OK docs /\
    (exists r, In r docs /\ buildResource Fixtures.leaf VUndefined = OK r) /\
    Forall (fun r => truthy (res_id r) = true) docs.
Proof.
  eexists. split; [reflexivity|].
  destruct (collector_returns_the_instances_it_walks
              Fixtures.through_array _ eq_refl) as [Hexact Hids].
  split; [|exact Hids].
  eexists. split; [|reflexivity].
  apply Hexact. exists Fixtures.leaf. split; [|reflexivity].
  apply collects_deeper
    with (M := Fixtures.Parent) (key := "children")
         (keySchema := {| type := "child"; hasMany := Some true |})
         (ref := 14) (items := [Fixtures.middle]) (y := Fixtures.middle)
         (My := Fixtures.Child);
    try reflexivity; simpl; auto.
  apply collects_single
    with (instance := Fixtures.middle) (M := Fixtures.Child) (key := "deep")
         (keySchema := {| type := "single"; hasMany := None |});
    try reflexivity; simpl; auto.
Defined.

(** ** How the collector fails *)

(** X10. The collector raises nothing but the engine's [TypeError]: it
    builds resource objects only for values with a truthy [id], so the
    missing-identifier error cannot come out of it; and it raises the
    [TypeError] at once for a value whose constructor has no [schema]. *)
Theorem collector_raises_only_TypeError instance :
  (forall e, buildCompoundDocuments instance = Throw e -> e = TypeError) /\
  (constructor_of instance = None ->
   buildCompoundDocuments instance = Throw TypeError).
Proof.
  split.
  - intros e. apply buildCompoundDocuments_Throw.
  - apply buildCompoundDocuments_not_instance.
Qed.

Lemma collector_raises_only_TypeError_witness :
  constructor_of (VString "2") = None /\
  buildCompoundDocuments (VString "2") = Throw TypeError.
Proof.
  split; [reflexivity|].
  apply (proj2 (collector_raises_only_TypeError (VString "2"))). reflexivity.
Defined.

(** ** Values that contribute no compound document *)





(** ** The removal of duplicates, again *)

Lemma reduce_distinct_is_identity l arr :
  ForallOrdPairs (fun a b => same_document a b = false) (arr ++ l) ->
  fold_left dedupe_step l arr = arr ++ l.
Proof.
  revert arr. induction l as [|x t IH]; simpl; intros arr Hd.
  - now rewrite app_nil_r.
  - assert (Hx : existsb (fun doc => same_document doc x) arr = false).
    { destruct (existsb _ arr) eqn:E; auto.
      apply existsb_exists in E as (y & Hy & Hs).
      apply in_split in Hy as (l1 & l2 & ->).
      rewrite <- app_assoc in Hd. simpl in Hd.
      assert (Hpair : same_document y x = false).
      { eapply (ForallOrdPairs_nth Hd) with (i := length l1)
                                            (j := length l1 + S (length l2)).
        - lia.
        - rewrite nth_error_app2, Nat.sub_diag by lia. reflexivity.
        - rewrite nth_error_app2 by lia.
          replace (length l1 + S (length l2) - length l1) with (S (length l2))
            by lia.
          simpl. rewrite nth_error_app2, Nat.sub_diag by lia. reflexivity. }
      congruence. }
    unfold dedupe_step at 2. rewrite Hx. simpl.
    rewrite IH; rewrite <- app_assoc; simpl; auto.
Qed.

(** X13. Removing duplicates changes nothing in a sequence that has none,
    so doing it twice is the same as doing it once; and the result is never
    longer than the input. *)
Theorem dedupe_is_idempotent (raw : list Resource) :
  (ForallOrdPairs (fun a b => same_document a b = false) raw -> dedupe raw = raw) /\
  dedupe (dedupe raw) = dedupe raw /\
  length (dedupe raw) <= length raw.
Proof.
  assert (Hid : forall l, ForallOrdPairs (fun a b => same_document a b = false) l ->
                          dedupe l = l).
  { intros l Hl. unfold dedupe. now rewrite reduce_distinct_is_identity. }
  split; [apply Hid|]. split.
  - apply Hid, dedupe_distinct.
  - pose proof (dedupe_subsequence raw) as Hsub.
    induction Hsub; simpl; lia.
Qed.

Lemma dedupe_is_idempotent_witness :
  exists a b,
    buildResource Fixtures.leaf VUndefined = OK a /\
    buildResource Fixtures.middle VUndefined = OK b /\
    dedupe [a; b] = [a; b].
Proof.
  do 2 eexists. split; [reflexivity|]. split; [reflexivity|].
  apply (dedupe_is_idempotent _). repeat constructor.
Defined.

(** ** How toJSON fails *)

(** X11. [toJSON] raises nothing but the engine's [TypeError] and the
    missing-identifier error.  For a truthy input that is no array it
    raises the latter exactly when [requireId] is set and the input has no
    own [id] property, whatever else the input holds. *)
Theorem toJSON_failure_modes instance options :
  (forall e, toJSON instance options = Throw e ->
             e = TypeError \/ e = JsError missing_id_message) /\
  (truthy instance = true -> isArray instance = false ->
   (toJSON instance options = Throw (JsError missing_id_message) <->
    requireId options = true /\ hasOwnProperty instance "id" = OK false)).
Proof.
  assert (Hfalsy : truthy instance = false -> forall e, toJSON instance options <> Throw e).
  { intros Hf e. unfold toJSON.
    destruct instance; simpl in Hf; try discriminate; cbn [truthy];
      try rewrite Hf; discriminate. }
  split.
  - intros e He. destruct (truthy instance) eqn:Ht; [|exfalso; eapply Hfalsy; eauto].
    rewrite (toJSON_truthy instance options Ht) in He.
    destruct (primary instance options) eqn:Ep; simpl in He.
    + destruct (gathered instance) eqn:Eg; simpl in He; [discriminate|].
      injection He as <-. left. eapply gathered_Throw; eauto.
    + injection He as <-. eapply primary_Throw; eauto.
  - intros Ht Harr. rewrite (toJSON_truthy instance options Ht).
    assert (Hp : primary instance options =
                 (data <- buildResource instance (VBool (requireId options)) ;;
                  OK (Single data)))
      by (destruct instance; try discriminate; reflexivity).
    rewrite Hp. split.
    + destruct (buildResource instance (VBool (requireId options))) eqn:Eb; simpl.
      * destruct (gathered instance) eqn:Eg; simpl; [discriminate|].
        intros [= ->]. apply gathered_Throw in Eg. discriminate.
      * intros [= ->].
        apply buildResource_Throw in Eb as [Eb|(_ & Hreq & Hown)]; [discriminate|].
        split; [|exact Hown]. destruct (requireId options); [reflexivity|discriminate].
    + intros [Hreq Hown]. rewrite Hreq.
      rewrite (buildResource_requires_id instance (VBool true)); auto.
Qed.

Lemma toJSON_failure_modes_witness :
  toJSON (VString "x") default_options = Throw (JsError missing_id_message).
Proof.
  apply (proj2 (toJSON_failure_modes (VString "x") default_options));
    try reflexivity.
  split; reflexivity.
Defined.

(** ** What toJSON returns *)

Lemma mapiM_from_nth (A B : Type) (f : A -> nat -> result B) l i ys :
  mapiM_from f i l = OK ys ->
  length ys = length l /\
  forall n x, nth_error l n = Some x ->
              exists y, nth_error ys n = Some y /\ f x (i + n) = OK y.
Proof.
  revert i ys. induction l as [|a t IH]; simpl; intros i ys H.
  - injection H as <-. split; [reflexivity|]. intros [|n] x; discriminate.
  - apply bind_OK in H as (y & Hy & H).
    destruct (mapiM_from f (S i) t) as [ys'|] eqn:E; simpl in H; [|discriminate].
    injection H as <-. destruct (IH _ _ E) as [Hlen Hnth].
    split; [simpl; congruence|].
    intros [|n] x Hx; simpl in *.
    + injection Hx as <-. exists y. rewrite Nat.add_0_r. auto.
    + destruct (Hnth n x Hx) as (y' & ? & Hf).
      exists y'. split; auto. now rewrite <- Nat.add_succ_comm.
Qed.

(** X15. For an array input, [data] holds one resource object per element,
    in order, the element at index [i] being built with [requireId = i];
    the [requireId] option plays no part. *)
Theorem toJSON_array_builds_each_element ref elements options out :
  toJSON (VArray ref elements) options = OK out ->
  (exists data included,
      out = render options {| doc_data := Collection data; included := included |} /\
      length data = length elements /\
      forall i element,
        nth_error elements i = Some element ->
        exists resource,
          nth_error data i = Some resource /\
          buildResource element (VNumber (Z.of_nat i)) = OK resource) /\
  toJSON (VArray ref elements)
         {| stringify := stringify options; requireId := negb (requireId options) |}
    = OK out.
Proof.
  intros H. split.
  - rewrite (toJSON_truthy (VArray ref elements) options eq_refl) in H.
    unfold primary, mapiM in H.
    apply bind_OK in H as (data & Hdata & H).
    apply bind_OK in Hdata as (l & Hl & Hdata). injection Hdata as <-.
    apply bind_OK in H as (raw & _ & H). injection H as <-.
    destruct (mapiM_from_nth _ _ _ _ _ _ Hl) as [Hlen Hnth].
    do 2 eexists. split; [reflexivity|]. split; [exact Hlen|].
    intros i element Hi. exact (Hnth i element Hi).
  - rewrite <- H. destruct options as [s r]. reflexivity.
Qed.

Lemma toJSON_array_builds_each_element_witness :
  exists out,
    toJSON (VArray 48 [Fixtures.saved; Fixtures.with_hidden]) default_options = OK out /\
    toJSON (VArray 48 [Fixtures.saved; Fixtures.with_hidden])
           {| stringify := true; requireId := false |} = OK out.
Proof.
  eexists. split; [reflexivity|].
  apply (toJSON_array_builds_each_element
           48 [Fixtures.saved; Fixtures.with_hidden] default_options _ eq_refl).
Defined.

Lemma gathered_identified instance raw :
  gathered instance = OK raw ->
  Forall (fun r => truthy (res_id r) = true) raw.
Proof.
  assert (Hone : forall x docs, buildCompoundDocuments x = OK docs ->
                   Forall (fun r => truthy (res_id r) = true) docs).
  { intros x docs Hdocs. apply Forall_forall. intros r Hr.
    destruct (buildCompoundDocuments_sound x docs r Hdocs Hr) as (y & Hy & Hb).
    apply collects_identified in Hy. unfold identified in Hy.
    apply andb_prop in Hy as [_ Hid].
    apply buildResource_OK in Hb as (M & rels & _ & _ & _ & _ & -> & _).
    exact Hid. }
  unfold gathered. destruct instance as [| | | | |ref elements|ref c props|eref emsg eprops];
    try apply Hone.
  intros H. apply bind_OK in H as (docs & Hdocs & H). injection H as <-.
  apply mapM_Forall2 in Hdocs. apply Forall_concat.
  induction Hdocs; constructor; eauto.
Qed.

(** X9. Every resource object of [included] has a truthy [id], also for an
    array input, and is one of the compound documents gathered for the
    input. *)
Theorem included_resources_are_identified instance options out :
  truthy instance = true ->
  toJSON instance options = OK out ->
  exists data raw,
    gathered instance = OK raw /\
    out = render options
            {| doc_data := data;
               included := match dedupe raw with [] => None | l => Some l end |} /\
    Forall (fun r => truthy (res_id r) = true /\ In r raw) (dedupe raw).
Proof.
  intros Ht H. rewrite (toJSON_truthy instance options Ht) in H.
  apply bind_OK in H as (data & _ & H).
  apply bind_OK in H as (raw & Hraw & H). injection H as <-.
  exists data, raw. split; [exact Hraw|]. split; [reflexivity|].
  pose proof (gathered_identified instance raw Hraw) as Hids.
  rewrite Forall_forall in Hids.
  apply Forall_forall. intros r Hr.
  assert (In r raw) by (eapply subsequence_In; [apply dedupe_subsequence|exact Hr]).
  auto.
Qed.

Lemma included_resources_are_identified_witness :
  exists out data raw,
    toJSON Fixtures.through_array {| stringify := false; requireId := true |} = OK out /\
    gathered Fixtures.through_array = OK raw /\
    out = render {| stringify := false; requireId := true |}
            {| doc_data := data;
               included := match dedupe raw with [] => None | l => Some l end |} /\
    Forall (fun r => truthy (res_id r) = true /\ In r raw) (dedupe raw).
Proof.
  eexists.
  destruct (included_resources_are_identified
              Fixtures.through_array {| stringify := false; requireId := true |}
              _ eq_refl eq_refl) as (data & raw & Hraw & Hout & Hall).
  exists data, raw. split; [reflexivity|]. auto.
Defined.

(** ** The stringify flag *)

(** X14. The [stringify] flag only changes the rendering: with the flag
    set, [toJSON] and [errorsToJSON] fail exactly when they fail without it,
    and otherwise return the JSON text of the value they return without it;
    without the flag they never return text. *)
Theorem stringify_only_changes_the_rendering :
  (forall instance r,
     toJSON instance {| stringify := true; requireId := r |} =
       match toJSON instance {| stringify := false; requireId := r |} with
       | OK (Native None) => OK (Text "null")
       | OK (Native (Some doc)) => OK (Text (JSON_stringify (json_of_document doc)))
       | OK (Text s) => OK (Text s)
       | Throw e => Throw e
       end) /\
  (forall instance r s,
     toJSON instance {| stringify := false; requireId := r |} <> OK (Text s)) /\
  (forall input,
     errorsToJSON input true =
       match errorsToJSON input false with
       | OK (Native doc) =>
           OK (Text (JSON_stringify
                       (JObject [("errors", JArray (map json_of_error (errors doc)))])))
       | OK (Text s) => OK (Text s)
       | Throw e => Throw e
       end) /\
  (forall input s, errorsToJSON input false <> OK (Text s)).
Proof.
  assert (Hfalsy : forall instance options,
             truthy instance = false ->
             toJSON instance options
             = OK (if stringify options then Text "null" else Native None)).
  { intros instance options Hf. unfold toJSON.
    destruct instance; simpl in Hf; try discriminate; cbn [truthy];
      try rewrite Hf; reflexivity. }
  repeat split.
  - intros instance r. destruct (truthy instance) eqn:Ht.
    + rewrite !(toJSON_truthy instance _ Ht).
      assert (Hp : primary instance {| stringify := true; requireId := r |} =
                   primary instance {| stringify := false; requireId := r |})
        by (destruct instance; reflexivity).
      rewrite Hp. destruct (primary instance _); simpl; [|reflexivity].
      destruct (gathered instance); reflexivity.
    + rewrite !(Hfalsy instance _ Ht). reflexivity.
  - intros instance r s. destruct (truthy instance) eqn:Ht.
    + rewrite (toJSON_truthy instance _ Ht).
      destruct (primary instance _); simpl; [|discriminate].
      destruct (gathered instance); discriminate.
    + rewrite (Hfalsy instance _ Ht). discriminate.
  - intros errs. unfold errorsToJSON.
    destruct (mapM _ _); reflexivity.
  - intros errs s. unfold errorsToJSON.
    destruct (mapM _ _); discriminate.
Qed.

Lemma stringify_only_changes_the_rendering_witness :
  exists doc,
    toJSON Fixtures.saved {| stringify := false; requireId := true |}
      = OK (Native (Some doc)) /\
    toJSON Fixtures.saved {| stringify := true; requireId := true |}
      = OK (Text (JSON_stringify (json_of_document doc))).
Proof.
  eexists. split; [reflexivity|].
  rewrite (proj1 stringify_only_changes_the_rendering Fixtures.saved true).
  reflexivity.
Defined.

(** ** How errorsToJSON fails *)

(** X16. [errorsToJSON] fails exactly when one of the values is [null] or
    [undefined] (for a scalar input, the input itself), and then with the
    engine's [TypeError]; every other value, whatever its shape, is
    accepted. *)
Theorem errorsToJSON_fails_on_nullish_values errors stringify :
  (Exists (fun error => is_nullish error = true)
          (match errors with VArray _ items => items | _ => [errors] end) ->
   errorsToJSON errors stringify = Throw TypeError) /\
  (forall e,
     errorsToJSON errors stringify = Throw e ->
     e = TypeError /\
     Exists (fun error => is_nullish error = true)
            (match errors with VArray _ items => items | _ => [errors] end)).
Proof.
  unfold errorsToJSON.
  set (items := match errors with VArray _ items => items | _ => [errors] end).
  set (f := fun error =>
              message <- get_prop error "message" ;;
              status <- get_prop error "status" ;;
              OK {| detail := message; status := status |}).
  assert (Hf : forall error,
             (is_nullish error = true -> f error = Throw TypeError) /\
             (is_nullish error = false -> exists o, f error = OK o)).
  { intros error. unfold f.
    destruct error; simpl; split; intros H; try discriminate; eauto. }
  split.
  - intros Hex. assert (Hm : mapM f items = Throw TypeError).
    { clear -Hex Hf. induction Hex as [x t Hx|x t _ IH]; simpl.
      - now rewrite (proj1 (Hf x) Hx).
      - destruct (is_nullish x) eqn:En.
        + now rewrite (proj1 (Hf x) En).
        + destruct (proj2 (Hf x) En) as [o ->]. simpl. now rewrite IH. }
    now rewrite Hm.
  - intros e He. destruct (mapM f items) eqn:Em; simpl in He; [discriminate|].
    injection He as <-. apply mapM_Throw in Em as (x & Hx & Hthrow).
    destruct (is_nullish x) eqn:En.
    + rewrite (proj1 (Hf x) En) in Hthrow. injection Hthrow as <-.
      split; [reflexivity|]. apply Exists_exists. eauto.
    + destruct (proj2 (Hf x) En) as [o Ho]. congruence.
Qed.

Lemma errorsToJSON_fails_on_nullish_values_witness :
  errorsToJSON VUndefined true = Throw TypeError /\
  errorsToJSON (VArray 49 [VObject 50 None [("message", VString "a")]; VNull]) true
    = Throw TypeError.
Proof.
  split.
  - apply (proj1 (errorsToJSON_fails_on_nullish_values VUndefined true)).
    repeat constructor.
  - apply (proj1 (errorsToJSON_fails_on_nullish_values
                    (VArray 49 [VObject 50 None [("message", VString "a")]; VNull])
                    true)).
    apply Exists_cons_tl. repeat constructor.
Defined.

(** ** The earlier revision *)

Lemma legacy_buildResource_stages instance requireId :
  Legacy.buildResource instance requireId =
    (missing <-
       (if truthy (effective_requireId requireId) then
          own <- hasOwnProperty instance "id" ;; OK (negb own)
        else OK false) ;;
     if (missing : bool) then Throw (JsError missing_id_message)
     else
       match constructor_of instance with
       | None => Throw TypeError
       | Some M =>
           relationships <-
             foldM (Legacy.relationship_step instance (plural M))
                   (relationshipSchema M) [] ;;
           OK {| Legacy.res_type := singular M;
                 Legacy.res_id := get instance "id";
                 Legacy.attributes :=
                   fold_left (attribute_step instance (properties (schema M)))
                             (own_keys instance) [];
                 Legacy.res_relationships :=
                   match relationships with
                   | [] => None
                   | _ => Some relationships
                   end |}
       end).
Proof.
  unfold Legacy.buildResource. fold (effective_requireId requireId).
  destruct instance; reflexivity.
Qed.

Lemma legacy_buildResource_OK instance requireId resource :
  Legacy.buildResource instance requireId = OK resource ->
  exists M rels,
    constructor_of instance = Some M /\
    foldM (Legacy.relationship_step instance (plural M)) (relationshipSchema M) []
      = OK rels /\
    Legacy.relationships_of resource = rels /\
    Legacy.res_type resource = singular M /\
    Legacy.res_id resource = get instance "id" /\
    Legacy.attributes resource =
      fold_left (attribute_step instance (properties (schema M)))
                (own_keys instance) [].
Proof.
  rewrite legacy_buildResource_stages. intros H.
  apply bind_OK in H as (missing & _ & H).
  destruct missing; [discriminate|].
  destruct (constructor_of instance) as [M|]; [|discriminate].
  apply bind_OK in H as (rels & Hrels & H).
  injection H as <-. exists M, rels. simpl.
  repeat split; auto.
  unfold Legacy.relationships_of; simpl. now destruct rels.
Qed.

Lemma legacy_relationship_object_Throw instance plural key e :
  Legacy.relationship_object instance plural key = Throw e -> e = TypeError.
Proof.
  unfold Legacy.relationship_object.
  destruct (get instance key) as [| |b|n|s|ref items|ref c props|eref emsg eprops] eqn:En;
    try discriminate.
  - destruct (truthy _); discriminate.
  - destruct (truthy _); discriminate.
  - destruct (truthy _); discriminate.
  - destruct (Legacy.singular_of (nth 0 items VUndefined)) eqn:Es; simpl.
    + destruct (mapM _ items) eqn:Em; simpl; [discriminate|].
      intros [= <-]. apply mapM_Throw in Em as (x & _ & Hx).
      destruct x; simpl in Hx; congruence.
    + intros [= <-]. destruct (nth 0 items VUndefined); simpl in Es; congruence.
Qed.

Lemma legacy_buildResource_Throw instance requireId e :
  Legacy.buildResource instance requireId = Throw e ->
  e = TypeError \/
  (e = JsError missing_id_message /\
   truthy (effective_requireId requireId) = true /\
   hasOwnProperty instance "id" = OK false).
Proof.
  rewrite legacy_buildResource_stages.
  destruct (truthy (effective_requireId requireId)) eqn:Hreq; simpl.
  - destruct (hasOwnProperty instance "id") as [[|]|e'] eqn:Hown; simpl.
    + destruct (constructor_of instance) as [M|]; try (intros [= <-]; auto).
      destruct (foldM _ _ _) eqn:E; simpl; [discriminate|].
      intros [= <-]. left. apply foldM_Throw in E as (b & [k ks] & _ & E).
      unfold Legacy.relationship_step in E. simpl in E.
      destruct (Legacy.relationship_object _ _ k) eqn:Er; simpl in E; [discriminate|].
      injection E as <-. eapply legacy_relationship_object_Throw; eauto.
    + intros [= <-]. right. auto.
    + intros [= <-]. left. eapply hasOwnProperty_Throw; eauto.
  - destruct (constructor_of instance) as [M|]; try (intros [= <-]; auto).
    destruct (foldM _ _ _) eqn:E; simpl; [discriminate|].
    intros [= <-]. left. apply foldM_Throw in E as (b & [k ks] & _ & E).
    unfold Legacy.relationship_step in E. simpl in E.
    destruct (Legacy.relationship_object _ _ k) eqn:Er; simpl in E; [discriminate|].
    injection E as <-. eapply legacy_relationship_object_Throw; eauto.
Qed.

Lemma legacy_relationships_lookup instance plural rs acc out key :
  foldM (Legacy.relationship_step instance plural) rs acc = OK out ->
  (~ In key (keys rs) /\ lookup key out = lookup key acc) \/
  (exists rel,
      Legacy.relationship_object instance plural key = OK rel /\
      lookup key out = Some rel).
Proof.
  revert acc. induction rs as [|[k ks] t IH]; simpl; intros acc H.
  - injection H as <-. left. tauto.
  - apply bind_OK in H as (acc' & Hstep & H).
    unfold Legacy.relationship_step in Hstep. simpl in Hstep.
    apply bind_OK in Hstep as (rel0 & Hrel0 & Hstep). injection Hstep as <-.
    destruct (IH _ H) as [[Hnotin Heq]|(rel & Hrel & Hout)].
    + destruct (String.eqb k key) eqn:E.
      * apply String.eqb_eq in E. subst k. right. exists rel0.
        rewrite Heq, lookup_assign_same. auto.
      * apply String.eqb_neq in E. left. split; [tauto|].
        rewrite Heq. now apply lookup_assign_other.
    + right. exists rel. auto.
Qed.

Lemma legacy_declared_relationship_object instance requireId resource M key keySchema :
  Legacy.buildResource instance requireId = OK resource ->
  constructor_of instance = Some M ->
  In (key, keySchema) (relationshipSchema M) ->
  exists rel,
    lookup key (Legacy.relationships_of resource) = Some rel /\
    Legacy.relationship_object instance (plural M) key = OK rel.
Proof.
  intros Hbuild HM Hin.
  apply legacy_buildResource_OK in Hbuild as (M' & rels & HM' & Hrels & -> & _).
  assert (M' = M) by congruence. subst M'.
  destruct (legacy_relationships_lookup _ _ _ _ _ key Hrels)
    as [[Hnot _]|(rel & Hrel & Hlook)]; [|eauto].
  exfalso. apply Hnot. unfold keys. now apply (in_map fst) in Hin.
Qed.

(** X17. In the earlier revision the type of the resource identifiers is
    read off the nested value, not off the relationship schema: an array
    gives every identifier the registered name of its first element's
    constructor, a single value that of its own constructor, and a value
    that is no model instance (a raw string) gives [undefined]; the [id] is
    [item.id] with no fallback.  A resource object is therefore only built
    when each array-valued relationship has a first element. *)
Theorem legacy_type_is_read_off_the_nested_value
    instance requireId resource M key keySchema :
  Legacy.buildResource instance requireId = OK resource ->
  constructor_of instance = Some M ->
  In (key, keySchema) (relationshipSchema M) ->
  exists rel,
    lookup key (Legacy.relationships_of resource) = Some rel /\
    (forall ref items, get instance key = VArray ref items ->
     exists first rest type,
       items = first :: rest /\
       Legacy.singular_of first = OK type /\
       Legacy.data rel =
         Some (Legacy.ToMany
                 (map (fun item => {| Legacy.ri_id := get item "id";
                                      Legacy.ri_type := type |}) items))) /\
    (isArray (get instance key) = false -> truthy (get instance key) = true ->
     exists type,
       Legacy.singular_of (get instance key) = OK type /\
       Legacy.data rel =
         Some (Legacy.ToOne {| Legacy.ri_id := get (get instance key) "id";
                               Legacy.ri_type := type |})).
Proof.
  intros Hbuild HM Hin.
  destruct (legacy_declared_relationship_object
              instance requireId resource M key keySchema Hbuild HM Hin)
    as (rel & Hlook & Hrel).
  exists rel. split; [exact Hlook|]. unfold Legacy.relationship_object in Hrel.
  split.
  - intros ref items Hget. rewrite Hget in Hrel.
    apply bind_OK in Hrel as (type & Htype & Hrel).
    apply bind_OK in Hrel as (l & Hl & Hrel). injection Hrel as <-.
    destruct items as [|first rest]; [discriminate|].
    exists first, rest, type. split; [reflexivity|]. split; [exact Htype|].
    simpl Legacy.data. do 2 f_equal.
    apply mapM_Forall2 in Hl. clear -Hl.
    induction Hl as [|item i items l Hi _ IH]; simpl; [reflexivity|].
    apply bind_OK in Hi as (id & Hid & Hi). injection Hi as <-.
    rewrite IH. destruct item; simpl in Hid; try discriminate;
      injection Hid as <-; reflexivity.
  - intros Hscalar Ht.
    destruct (get instance key) as [| |b|n|s| |ref c props|eref emsg eprops]; try discriminate;
      rewrite Ht in Hrel;
      apply bind_OK in Hrel as (type & Htype & Hrel); injection Hrel as <-;
      exists type; (split; [exact Htype|reflexivity]).
Qed.

Lemma legacy_type_is_read_off_the_nested_value_witness :
  exists resource rel,
    Legacy.buildResource
      (VObject 51 (Some Fixtures.Test)
         [("id", VString "1"); ("child", Fixtures.middle)])
      VUndefined = OK resource /\
    lookup "child" (Legacy.relationships_of resource) = Some rel /\
    exists type,
      Legacy.singular_of Fixtures.middle = OK type /\
      type = VString "child" /\
      Legacy.data rel =
        Some (Legacy.ToOne {| Legacy.ri_id := VString "2"; Legacy.ri_type := type |}).
Proof.
  eexists.
  destruct (legacy_type_is_read_off_the_nested_value
              (VObject 51 (Some Fixtures.Test)
                 [("id", VString "1"); ("child", Fixtures.middle)])
              VUndefined _ Fixtures.Test "child"
              {| type := "single"; hasMany := None |} eq_refl eq_refl)
    as (rel & Hlook & _ & Hone).
  - simpl. auto.
  - exists rel. split; [reflexivity|]. split; [exact Hlook|].
    destruct (Hone eq_refl eq_refl) as (type & Htype & Hdata).
    exists type. split; [exact Htype|]. split; [|exact Hdata].
    simpl in Htype. injection Htype as <-. reflexivity.
Defined.

(** X18. In the earlier revision an empty array under a declared
    relationship key makes [buildResource] fail: [nested[0]] is
    [undefined] and reading its constructor raises the engine's
    [TypeError] (the missing-identifier error can only come first). *)
Theorem legacy_empty_array_breaks_buildResource
    instance requireId M key keySchema ref :
  constructor_of instance = Some M ->
  In (key, keySchema) (relationshipSchema M) ->
  get instance key = VArray ref [] ->
  exists e,
    Legacy.buildResource instance requireId = Throw e /\
    (hasOwnProperty instance "id" = OK true -> e = TypeError).
Proof.
  intros HM Hin Hget.
  destruct (Legacy.buildResource instance requireId) as [r|e] eqn:E.
  - exfalso.
    destruct (legacy_declared_relationship_object
                instance requireId r M key keySchema E HM Hin)
      as (rel & _ & Hrel).
    unfold Legacy.relationship_object in Hrel. rewrite Hget in Hrel.
    discriminate.
  - exists e. split; [reflexivity|]. intros Hown.
    apply legacy_buildResource_Throw in E as [E|(_ & _ & Hno)]; congruence.
Qed.

Lemma legacy_empty_array_breaks_buildResource_witness :
  Legacy.buildResource Fixtures.no_children VUndefined = Throw TypeError /\
  exists resource, buildResource Fixtures.no_children VUndefined = OK resource.
Proof.
  split.
  - destruct (legacy_empty_array_breaks_buildResource
                Fixtures.no_children VUndefined Fixtures.Test "children"
                {| type := "child"; hasMany := Some true |} 6
                eq_refl (or_introl eq_refl) eq_refl)
      as (e & He & Htype).
    rewrite He. f_equal. apply Htype. reflexivity.
  - eexists. reflexivity.
Defined.

Lemma mapiM_from_In (A B : Type) (f : A -> nat -> result B) l i ys y :
  mapiM_from f i l = OK ys -> In y ys ->
  exists n x, nth_error l n = Some x /\ f x (i + n) = OK y.
Proof.
  revert i ys. induction l as [|a t IH]; simpl; intros i ys H Hy.
  - injection H as <-. contradiction.
  - apply bind_OK in H as (b & Hb & H).
    destruct (mapiM_from f (S i) t) as [ys'|] eqn:E; simpl in H; [|discriminate].
    injection H as <-. destruct Hy as [<-|Hy].
    + exists 0, a. rewrite Nat.add_0_r. auto.
    + destruct (IH _ _ E Hy) as (n & x & Hn & Hf).
      exists (S n), x. split; [exact Hn|]. now rewrite <- Nat.add_succ_comm.
Qed.

(** X19. The collector of the earlier revision stays at the first level:
    it returns one resource object per element of each array-valued
    relationship and one per single-valued relationship that holds a model
    instance, each built from that very value, and nothing for the
    relationships of those values. *)
Theorem legacy_collector_stays_at_the_first_level instance M docs :
  constructor_of instance = Some M ->
  Legacy.buildCompoundDocuments instance = OK docs ->
  length docs =
    list_sum (map (fun entry : string * RelationshipSchema =>
                     Legacy.direct_count (get instance (fst entry)))
                  (relationshipSchema M)) /\
  Forall (fun r =>
            exists key keySchema,
              In (key, keySchema) (relationshipSchema M) /\
              ((isArray (get instance key) = false /\
                Legacy.instanceof_Model (get instance key) = true /\
                Legacy.buildResource (get instance key) VUndefined = OK r) \/
               (exists ref items i item,
                   get instance key = VArray ref items /\
                   nth_error items i = Some item /\
                   Legacy.buildResource item (VNumber (Z.of_nat i)) = OK r)))
         docs.
Proof.
  intros HM Hdocs.
  assert (Hfold : foldM (fun included (entry : string * RelationshipSchema) =>
                           Legacy.collect included (get instance (fst entry)))
                        (relationshipSchema M) [] = OK docs).
  { unfold Legacy.buildCompoundDocuments in Hdocs. rewrite HM in Hdocs.
    destruct instance; try discriminate; exact Hdocs. }
  clear Hdocs.
  set (Q := fun r : Legacy.Resource =>
              exists key keySchema,
                In (key, keySchema) (relationshipSchema M) /\
                ((isArray (get instance key) = false /\
                  Legacy.instanceof_Model (get instance key) = true /\
                  Legacy.buildResource (get instance key) VUndefined = OK r) \/
                 (exists ref items i item,
                     get instance key = VArray ref items /\
                     nth_error items i = Some item /\
                     Legacy.buildResource item (VNumber (Z.of_nat i)) = OK r))).
  assert (Hgen : forall rs acc out,
             (forall e, In e rs -> In e (relationshipSchema M)) ->
             foldM (fun included (entry : string * RelationshipSchema) =>
                      Legacy.collect included (get instance (fst entry)))
                   rs acc = OK out ->
             Forall Q acc ->
             length out =
               length acc +
               list_sum (map (fun entry : string * RelationshipSchema =>
                                Legacy.direct_count (get instance (fst entry))) rs) /\
             Forall Q out).
  { induction rs as [|[key ks] t IH]; cbn [foldM fst map list_sum fold_right];
      intros acc out Hrs H Hacc.
    - injection H as <-. split; [lia|exact Hacc].
    - apply bind_OK in H as (acc' & Hstep & H).
      assert (Hin : In (key, ks) (relationshipSchema M))
        by (apply Hrs; left; reflexivity).
      assert (Hacc' : length acc' =
                      length acc + Legacy.direct_count (get instance key) /\
                      Forall Q acc').
      { unfold Legacy.collect in Hstep. unfold Legacy.direct_count.
        destruct (get instance key) as [| | | | |ref items|ref c props|eref emsg eprops] eqn:Eget.
        6: {
          apply bind_OK in Hstep as (l & Hl & Hstep). injection Hstep as <-.
          unfold mapiM in Hl.
          rewrite length_app, (proj1 (mapiM_from_nth _ _ _ _ _ _ Hl)).
          split; [reflexivity|].
          apply Forall_app. split; [exact Hacc|].
          apply Forall_forall. intros r Hr.
          destruct (mapiM_from_In _ _ _ _ _ _ _ Hl Hr) as (n & x & Hn & Hf).
          exists key, ks. split; [exact Hin|]. right.
          exists ref, items, n, x. rewrite Eget. auto. }
        all: destruct (Legacy.instanceof_Model _) eqn:Ei;
          [apply bind_OK in Hstep as (r & Hr & Hstep); injection Hstep as <-;
           rewrite length_app; split; [reflexivity|];
           apply Forall_app; split; [exact Hacc|];
           constructor; [|constructor];
           exists key, ks; split; [exact Hin|]; left; rewrite Eget; auto
          |injection Hstep as <-; split; [lia|exact Hacc]]. }
      destruct Hacc' as [Hlen HQ].
      destruct (IH acc' out) as [Hlen' HQ']; auto.
      { intros e He. apply Hrs. right. exact He. }
      split; [|exact HQ']. rewrite Hlen', Hlen. unfold list_sum. lia. }
  destruct (Hgen _ _ _ (fun e He => He) Hfold (Forall_nil _)) as [Hlen HQ].
  split; [exact Hlen|exact HQ].
Qed.

Lemma legacy_collector_stays_at_the_first_level_witness :
  exists docs,
    Legacy.buildCompoundDocuments Fixtures.through_array = OK docs /\
    length docs = 1 /\
    exists current,
      buildCompoundDocuments Fixtures.through_array = OK current /\
      length current = 2.
Proof.
  eexists. split; [reflexivity|]. split.
  - apply (legacy_collector_stays_at_the_first_level
             Fixtures.through_array Fixtures.Parent _ eq_refl eq_refl).
  - eexists. split; reflexivity.
Defined.

Lemma keys_assign_indep (A B : Type) k (a : A) (b : B) o o' :
  keys o = keys o' -> keys (assign k a o) = keys (assign k b o').
Proof.
  unfold keys. revert o'. induction o as [|[k1 a1] t IH]; intros [|[k2 b2] t'];
    simpl; try discriminate; auto.
  intros [= <- Ht]. destruct (String.eqb k1 k); simpl; f_equal; auto.
Qed.

Lemma legacy_relationship_object_links instance plural key rel :
  Legacy.relationship_object instance plural key = OK rel ->
  Legacy.links rel =
    if truthy (get instance "id") then
      Some {| self := "/" ++ plural ++ "/" ++ ToString (get instance "id")
                        ++ "/relationships/" ++ key;
              related := "/" ++ plural ++ "/" ++ ToString (get instance "id")
                           ++ "/" ++ key |}
    else None.
Proof.
  unfold Legacy.relationship_object. cbv zeta.
  match goal with
  | |- context [if truthy (get instance "id") then ?a else ?b] =>
      generalize (if truthy (get instance "id") then a else b)
  end.
  intros lk H.
  destruct (get instance key) as [| |b|n|s|ref items|ref c props|eref emsg eprops];
    try (destruct (truthy _) in H);
    repeat (apply bind_OK in H as (? & _ & H));
    injection H as <-; reflexivity.
Qed.

Lemma relationships_keys_agree instance plural rs acc acc' out out' :
  foldM (Legacy.relationship_step instance plural) rs acc = OK out ->
  foldM (relationship_step instance plural) rs acc' = OK out' ->
  keys acc = keys acc' ->
  keys out = keys out'.
Proof.
  revert acc acc'. induction rs as [|[k ks] t IH]; simpl; intros acc acc' H H' Hk.
  - injection H as <-. injection H' as <-. exact Hk.
  - apply bind_OK in H as (a1 & Hs & H). apply bind_OK in H' as (a2 & Hs' & H').
    unfold Legacy.relationship_step in Hs. unfold relationship_step in Hs'.
    simpl in Hs, Hs'.
    apply bind_OK in Hs as (r1 & _ & Hs). injection Hs as <-.
    apply bind_OK in Hs' as (r2 & _ & Hs'). injection Hs' as <-.
    eapply IH; eauto. now apply keys_assign_indep.
Qed.

(** X20. The two revisions of [buildResource] differ in the [data] of the
    relationships only: they raise the missing-identifier error on the same
    inputs, and when both return a resource object the two have the same
    type, identifier and attributes, the same relationship keys in the same
    order, and the same [links] under each key. *)
Theorem revisions_agree_outside_linkage instance requireId :
  (Legacy.buildResource instance requireId = Throw (JsError missing_id_message) <->
   buildResource instance requireId = Throw (JsError missing_id_message)) /\
  (forall old new,
     Legacy.buildResource instance requireId = OK old ->
     buildResource instance requireId = OK new ->
     Legacy.res_type old = res_type new /\
     Legacy.res_id old = res_id new /\
     Legacy.attributes old = attributes new /\
     keys (Legacy.relationships_of old) = keys (relationships_of new) /\
     forall key rel_old rel_new,
       lookup key (Legacy.relationships_of old) = Some rel_old ->
       lookup key (relationships_of new) = Some rel_new ->
       Legacy.links rel_old = links rel_new).
Proof.
  split.
  - split; intros H.
    + apply legacy_buildResource_Throw in H as [H|(_ & Hreq & Hown)]; [discriminate|].
      now apply buildResource_requires_id.
    + apply buildResource_Throw in H as [H|(_ & Hreq & Hown)]; [discriminate|].
      unfold Legacy.buildResource. fold (effective_requireId requireId).
      rewrite Hreq, Hown. reflexivity.
  - intros old new Hold Hnew.
    apply legacy_buildResource_OK in Hold
      as (M & rels & HM & Hrels & -> & -> & -> & ->).
    apply buildResource_OK in Hnew
      as (M' & rels' & HM' & Hrels' & -> & -> & -> & ->).
    assert (M' = M) by congruence. subst M'.
    repeat split.
    + eapply relationships_keys_agree; eauto.
    + intros key ro rn Hro Hrn.
      destruct (legacy_relationships_lookup _ _ _ _ _ key Hrels)
        as [[_ Hl]|(r1 & Hr1 & Hl)]; rewrite Hl in Hro; [discriminate|].
      injection Hro as ->.
      destruct (@relationships_lookup _ _ _ _ _ key Hrels')
        as [[_ Hl']|(ks & r2 & _ & Hr2 & Hl')]; rewrite Hl' in Hrn; [discriminate|].
      injection Hrn as ->.
      rewrite (legacy_relationship_object_links _ _ _ _ Hr1).
      rewrite (@relationship_object_links _ _ _ _ _ Hr2). reflexivity.
Qed.

Lemma revisions_agree_outside_linkage_witness :
  exists old new,
    Legacy.buildResource Fixtures.saved VUndefined = OK old /\
    buildResource Fixtures.saved VUndefined = OK new /\
    Legacy.attributes old = attributes new /\
    keys (Legacy.relationships_of old) = keys (relationships_of new).
Proof.
  do 2 eexists. split; [reflexivity|]. split; [reflexivity|].
  destruct (proj2 (revisions_agree_outside_linkage Fixtures.saved VUndefined)
              _ _ eq_refl eq_refl) as (_ & _ & Hattr & Hkeys & _).
  split; [exact Hattr|exact Hkeys].
Defined.

(** ** Attributes, in order *)

Lemma assign_new (A : Type) key (a : A) o :
  ~ In key (keys o) -> assign key a o = o ++ [(key, a)].
Proof.
  unfold keys. induction o as [|[k b] t IH]; simpl; intros Hnew; auto.
  destruct (String.eqb k key) eqn:E.
  - apply String.eqb_eq in E. tauto.
  - rewrite IH; tauto.
Qed.

Lemma attributes_filter instance schema l acc :
  (forall kv, In kv l -> get instance (fst kv) = snd kv) ->
  NoDup (keys acc ++ keys l) ->
  fold_left (attribute_step instance schema) (keys l) acc =
    acc ++ filter (fun kv => serializable schema (fst kv)) l.
Proof.
  revert acc. induction l as [|[k v] t IH]; simpl; intros acc Hget Hnd.
  - now rewrite app_nil_r.
  - assert (Hnew : ~ In k (keys acc)).
    { intros Hk. apply NoDup_remove_2 in Hnd. apply Hnd. apply in_or_app. auto. }
    assert (Hv : get instance k = v) by (apply (Hget (k, v)); auto).
    rewrite attribute_step_serializable.
    destruct (serializable schema k).
    + rewrite Hv, assign_new by exact Hnew.
      rewrite IH; [now rewrite <- app_assoc|auto|].
      unfold keys in *. rewrite map_app, <- app_assoc. exact Hnd.
    + rewrite IH; auto. apply NoDup_remove_1 in Hnd. exact Hnd.
Qed.

(** X22. The attributes of a resource object are the own properties of the
    instance under which [schema[key]] finds an entry that is not marked
    [public: false], each with its value, in the order of the instance's
    keys.  The entry found is the declared one or, for an undeclared key, a
    member of [Object.prototype]: an own property named [toString] or
    [valueOf] is copied whether the schema declares it or not. *)
Theorem attributes_keep_the_order_of_the_instance ref M props requireId resource :
  NoDup (keys props) ->
  buildResource (VObject ref (Some M) props) requireId = OK resource ->
  attributes resource =
    filter (fun kv => serializable (properties (schema M)) (fst kv)) props /\
  (forall key,
     serializable (properties (schema M)) key = true <->
     key <> "__proto__" /\
     ((exists keySchema,
          lookup key (properties (schema M)) = Some keySchema /\
          public keySchema <> Some false) \/
      (lookup key (properties (schema M)) = None /\ In key Object_prototype))).
Proof.
  intros Hnd Hbuild. split.
  - apply buildResource_OK in Hbuild as (M' & rels & HM' & _ & _ & _ & _ & ->).
    apply constructor_of_Some in HM' as (ref' & props' & [= <- <- <-] & _).
    cbn [own_keys]. rewrite attributes_filter; [reflexivity| |exact Hnd].
    intros [k v] Hin. cbn [get fst snd].
    now rewrite (@lookup_NoDup _ k v props Hnd Hin).
  - intros key. unfold serializable, schema_entry, inherited.
    destruct (String.eqb key "__proto__") eqn:Ep; cbn [negb andb].
    + apply String.eqb_eq in Ep. split; [discriminate|tauto].
    + apply String.eqb_neq in Ep.
      destruct (lookup key (properties (schema M))) as [ks|].
      * assert (Hdeclared : public ks <> Some false ->
                  key <> "__proto__" /\
                  ((exists keySchema, Some ks = Some keySchema /\
                                      public keySchema <> Some false) \/
                   (Some ks = None /\ In key Object_prototype)))
          by (intros Hpub; split; [exact Ep|]; left; exists ks; auto).
        destruct (public ks) as [[|]|] eqn:Epub; split;
          try (intros _; reflexivity);
          try (intros _; apply Hdeclared; discriminate).
        -- discriminate.
        -- intros [_ [(ks' & [= <-] & Hpub)|[[=] _]]]. congruence.
      * destruct (existsb (String.eqb key) Object_prototype) eqn:Ei.
        -- split; [|reflexivity]. intros _. split; [exact Ep|]. right.
           split; [reflexivity|].
           apply existsb_exists in Ei as (k & Hk & Hkey).
           apply String.eqb_eq in Hkey. now subst k.
        -- split; [discriminate|].
           intros [_ [(ks' & [=] & _)|[_ Hin]]].
           assert (existsb (String.eqb key) Object_prototype = true)
             by (apply existsb_exists; exists key; split;
                 [exact Hin|apply String.eqb_refl]).
           congruence.
Qed.

Lemma attributes_keep_the_order_of_the_instance_witness :
  exists resource,
    buildResource Fixtures.with_toString VUndefined = OK resource /\
    attributes resource = [("name", VString "test"); ("toString", VString "x")] /\
    serializable (properties (schema Fixtures.Test)) "excluded" = false.
Proof.
  eexists. split; [reflexivity|]. split; [|reflexivity].
  apply (attributes_keep_the_order_of_the_instance
           60 Fixtures.Test
           [("name", VString "test"); ("id", VString "1");
            ("toString", VString "x"); ("excluded", VBool true)]
           VUndefined _).
  - simpl. repeat constructor; simpl; intuition discriminate.
  - reflexivity.
Defined.

(** X24. For an own property whose name is not that of a member of
    [Object.prototype], the property appears in [attributes] exactly when
    the property schema declares it and its [public] flag is [true] or
    unset, and then with the instance's value; one that the schema does not
    declare, or declares with [public: false], does not appear, whatever its
    value. *)
Theorem ordinary_keys_follow_the_schema instance requireId resource M key :
  buildResource instance requireId = OK resource ->
  constructor_of instance = Some M ->
  In key (own_keys instance) ->
  ~ In key Object_prototype ->
  (has key (attributes resource) = true <->
   exists keySchema,
     lookup key (properties (schema M)) = Some keySchema /\
     (public keySchema = Some true \/ public keySchema = None)) /\
  (has key (attributes resource) = true ->
   lookup key (attributes resource) = Some (get instance key)) /\
  (lookup key (properties (schema M)) = None \/
   (exists keySchema, lookup key (properties (schema M)) = Some keySchema /\
                      public keySchema = Some false) ->
   has key (attributes resource) = false).
Proof.
  intros Hbuild HM Hown Hordinary.
  pose proof (attributes_membership _ _ key Hbuild HM Hown) as Hlook.
  assert (Hproto : String.eqb key "__proto__" = false).
  { apply String.eqb_neq. intros ->. apply Hordinary. simpl. auto 20. }
  assert (Hinh : inherited key = false).
  { unfold inherited. destruct (existsb _ _) eqn:E; [|reflexivity].
    apply existsb_exists in E as (k & Hk & Hkey).
    apply String.eqb_eq in Hkey. subst k. contradiction. }
  unfold has. rewrite Hlook. unfold serializable, schema_entry.
  rewrite Hproto, Hinh. cbn [negb andb].
  destruct (lookup key (properties (schema M))) as [ks|];
    [destruct (public ks) as [[|]|] eqn:Ep|];
    repeat split; intros;
    repeat match goal with
           | H : exists _, _ |- _ => destruct H
           | H : _ /\ _ |- _ => destruct H
           | H : _ \/ _ |- _ => destruct H
           | H : Some _ = Some _ |- _ => injection H as <-
           end;
    try congruence; eauto.
Qed.

Lemma ordinary_keys_follow_the_schema_witness :
  exists resource,
    buildResource Fixtures.with_hidden VUndefined = OK resource /\
    has "name" (attributes resource) = true /\
    has "private" (attributes resource) = false /\
    has "excluded" (attributes resource) = false.
Proof.
  assert (Hordinary : forall key,
             inherited key = false -> ~ In key Object_prototype).
  { intros key Hi Hin.
    assert (inherited key = true)
      by (apply existsb_exists; exists key; split;
          [exact Hin|apply String.eqb_refl]).
    congruence. }
  eexists. split; [reflexivity|].
  split; [|split].
  - apply (ordinary_keys_follow_the_schema
             Fixtures.with_hidden VUndefined _ Fixtures.Test "name"
             eq_refl eq_refl).
    + simpl. auto.
    + apply Hordinary. reflexivity.
    + eexists. split; [reflexivity|]. right. reflexivity.
  - apply (ordinary_keys_follow_the_schema
             Fixtures.with_hidden VUndefined _ Fixtures.Test "private"
             eq_refl eq_refl).
    + simpl. auto 6.
    + apply Hordinary. reflexivity.
    + right. eexists. split; reflexivity.
  - apply (ordinary_keys_follow_the_schema
             Fixtures.with_hidden VUndefined _ Fixtures.Test "excluded"
             eq_refl eq_refl).
    + simpl. auto 6.
    + apply Hordinary. reflexivity.
    + left. reflexivity.
Defined.

(** ** An instance that has its identifier *)

(** X23. For an input with an own [id] property the [requireId] argument
    changes nothing: [buildResource] gives the same result for every value
    of it, and so does [toJSON] for either value of the option. *)
Theorem requireId_is_moot_with_an_own_id instance :
  hasOwnProperty instance "id" = OK true ->
  (forall requireId,
     buildResource instance requireId = buildResource instance VUndefined) /\
  (forall s r,
     toJSON instance {| stringify := s; requireId := r |}
     = toJSON instance {| stringify := s; requireId := true |}).
Proof.
  intros Hown.
  assert (Hb : forall requireId,
             buildResource instance requireId = buildResource instance VUndefined).
  { intros requireId. unfold buildResource. rewrite Hown. cbv zeta.
    cbn [bind negb truthy].
    destruct (truthy match requireId with VUndefined => VBool true | _ => requireId end);
      reflexivity. }
  split; [exact Hb|].
  intros s r.
  assert (Ht : truthy instance = true)
    by (destruct instance; try discriminate; reflexivity).
  rewrite !(toJSON_truthy instance _ Ht).
  assert (Hp : primary instance {| stringify := s; requireId := r |} =
               primary instance {| stringify := s; requireId := true |}).
  { unfold primary. destruct instance; try reflexivity;
      cbn [requireId]; now rewrite (Hb (VBool r)), (Hb (VBool true)). }
  rewrite Hp. reflexivity.
Qed.

Lemma requireId_is_moot_with_an_own_id_witness :
  hasOwnProperty Fixtures.blank_id "id" = OK true /\
  buildResource Fixtures.blank_id (VBool false)
  = buildResource Fixtures.blank_id VUndefined.
Proof.
  split; [reflexivity|].
  apply (proj1 (requireId_is_moot_with_an_own_id Fixtures.blank_id eq_refl)).
Defined.

(** ** The collector as a concatenation *)

Lemma recurse_items_flat rec items :
  match mapM (recurse_item rec) items with
  | OK deep =>
      exists dd, mapM (deep_documents rec) items = OK dd /\
                 flatten (filter_defined deep) = concat dd
  | Throw e => mapM (deep_documents rec) items = Throw e
  end.
Proof.
  induction items as [|x t IH]; simpl.
  - exists []. auto.
  - unfold recurse_item at 1. unfold deep_documents at 1. unfold deep_documents at 2.
    destruct (truthy x); [destruct (constructor_of x)|].
    + destruct (rec x) as [docs|e]; simpl; [|reflexivity].
      destruct (mapM (recurse_item rec) t) as [deep|e]; simpl.
      * destruct IH as (dd & -> & Hflat). simpl. exists (docs :: dd).
        split; [reflexivity|]. simpl.
        unfold flatten in *. simpl. fold (flatten (map Elem docs)).
        now rewrite flatten_elems, Hflat.
      * now rewrite IH.
    + simpl. destruct (mapM (recurse_item rec) t) as [deep|e]; simpl.
      * destruct IH as (dd & -> & Hflat). simpl. exists ([] :: dd). auto.
      * now rewrite IH.
    + simpl. destruct (mapM (recurse_item rec) t) as [deep|e]; simpl.
      * destruct IH as (dd & -> & Hflat). simpl. exists ([] :: dd). auto.
      * now rewrite IH.
Qed.

Lemma include_items_flat items :
  match mapM include_item items with
  | OK direct =>
      exists dd, mapM own_document items = OK dd /\
                 flatten (filter_defined direct) = concat dd
  | Throw e => mapM own_document items = Throw e
  end.
Proof.
  induction items as [|x t IH]; simpl.
  - exists []. auto.
  - unfold include_item at 1. unfold own_document at 1. unfold own_document at 2.
    unfold identified.
    destruct (truthy x && truthy (get x "id")).
    + destruct (buildResource x VUndefined) as [r|e]; simpl; [|reflexivity].
      destruct (mapM include_item t) as [direct|e]; simpl.
      * destruct IH as (dd & -> & Hflat). simpl. exists ([r] :: dd).
        split; [reflexivity|]. simpl. unfold flatten in *. simpl. now rewrite Hflat.
      * now rewrite IH.
    + simpl. destruct (mapM include_item t) as [direct|e]; simpl.
      * destruct IH as (dd & -> & Hflat). simpl. exists ([] :: dd). auto.
      * now rewrite IH.
Qed.

Lemma collect_contribution rec included nested :
  match collect rec included nested with
  | OK included' =>
      exists more,
        contribution rec nested = OK more /\
        flatten (filter_defined included')
        = flatten (filter_defined included) ++ more
  | Throw e => contribution rec nested = Throw e
  end.
Proof.
  unfold collect, contribution.
  destruct nested as [| | | | |ref items|ref c props|eref emsg eprops].
  6: {
    pose proof (recurse_items_flat rec items) as Hdeep.
    pose proof (include_items_flat items) as Hdirect.
    destruct (mapM (recurse_item rec) items) as [deep|e]; simpl.
    - destruct Hdeep as (dd & -> & Hflat). simpl.
      destruct (mapM include_item items) as [direct|e]; simpl.
      + destruct Hdirect as (dd' & -> & Hflat'). simpl.
        eexists. split; [reflexivity|].
        now rewrite !filter_defined_app, !flatten_app, Hflat, Hflat', app_assoc.
      + now rewrite Hdirect.
    - now rewrite Hdeep. }
  all: unfold own_document, identified;
    match goal with
    | |- context [truthy ?v && truthy (get ?v "id")] =>
        destruct (truthy v && truthy (get v "id"));
        [destruct (buildResource v VUndefined) as [r|e]; simpl;
         [exists [r]; split; [reflexivity|];
          rewrite filter_defined_app, flatten_app; reflexivity
         |reflexivity]
        |exists []; split; [reflexivity|now rewrite app_nil_r]]
    end.
Qed.

(** X21. The accumulate, filter and flatten pipeline of the collector
    amounts to a concatenation, key by key in the order of the relationship
    schema: for an array, the compound documents of its elements first and
    the resource objects of the elements after them; for a single value, its
    resource object.  Failures are the same on both sides. *)
Theorem collector_concatenates_contributions instance M :
  constructor_of instance = Some M ->
  buildCompoundDocuments instance =
    foldM (fun docs (entry : string * RelationshipSchema) =>
             more <- contribution buildCompoundDocuments
                                  (get instance (fst entry)) ;;
             OK (docs ++ more))
          (relationshipSchema M) [].
Proof.
  intros HM. rewrite (@buildCompoundDocuments_eq _ _ HM).
  enough (H : forall rs included docs,
             flatten (filter_defined included) = docs ->
             (result <-
                foldM (fun included (entry : string * RelationshipSchema) =>
                         collect buildCompoundDocuments included
                                 (get instance (fst entry)))
                      rs included ;;
              OK (flatten (filter_defined result)))
             = foldM (fun docs (entry : string * RelationshipSchema) =>
                        more <- contribution buildCompoundDocuments
                                             (get instance (fst entry)) ;;
                        OK (docs ++ more))
                     rs docs)
    by (apply H; reflexivity).
  induction rs as [|[key ks] t IH]; cbn [foldM fst]; intros included docs Hflat.
  - simpl. now rewrite Hflat.
  - pose proof (collect_contribution buildCompoundDocuments included
                  (get instance key)) as Hstep.
    destruct (collect buildCompoundDocuments included (get instance key))
      as [included'|e]; cbn [bind].
    + destruct Hstep as (more & -> & Hflat'). cbn [bind].
      apply IH. now rewrite Hflat', Hflat.
    + now rewrite Hstep.
Qed.

Lemma collector_concatenates_contributions_witness :
  exists leaf_resource middle_resource,
    buildResource Fixtures.leaf VUndefined = OK leaf_resource /\
    buildResource Fixtures.middle VUndefined = OK middle_resource /\
    foldM (fun docs (entry : string * RelationshipSchema) =>
             more <- contribution buildCompoundDocuments
                                  (get Fixtures.through_array (fst entry)) ;;
             OK (docs ++ more))
          (relationshipSchema Fixtures.Parent) []
    = OK [leaf_resource; middle_resource].
Proof.
  do 2 eexists. split; [reflexivity|]. split; [reflexivity|].
  rewrite <- (collector_concatenates_contributions
                Fixtures.through_array Fixtures.Parent eq_refl).
  reflexivity.
Defined.
